(** * HCDevice: the Home Connect session handler of hcpy

    A shallow embedding of [src/HCDevice.py]: the Python values the class
    manipulates, the exceptions its operations raise, the device object
    together with its websocket collaborator, and the methods
    [parse_values], [test_program_data], [test_feature], [recv], [reply],
    [get], [reconnect] and [handle_message], followed by the properties
    of the session protocol.

    Conventions of the embedding:
    - Python values are the JSON fragment of the language: [None], booleans,
      unbounded integers, strings, lists and dictionaries.  Floating-point
      numbers are left out.  Characters are bytes.
    - an expression that may raise evaluates in [E] (a sum with the raised
      exception on the left); a method evaluates in [M], a state monad over
      the [World] in which a raised exception keeps the state reached so far.
    - library functions whose definition is outside the class ([json.loads],
      [repr] of containers, [int] on strings) are the fields of [Builtins]. *)

From Stdlib Require Import String Ascii ZArith List Bool Lia DecimalString.
From Stdlib Require Import RelationClasses.
Import ListNotations.
Local Open Scope string_scope.
Local Open Scope list_scope.
Set Warnings "-register-all".

(** ** Python values *)

(** Hashable values, the keys of a [dict]. *)
Inductive pykey : Type :=
| KNone
| KBool (b : bool)
| KInt (z : Z)
| KStr (s : string).

Inductive pyval : Type :=
| PNone
| PBool (b : bool)
| PInt (z : Z)
| PStr (s : string)
| PList (l : list pyval)
| PDict (d : list (pykey * pyval)).

(** A [dict] keeps its items in insertion order. *)
Definition dict : Type := list (pykey * pyval).

Inductive exn : Type :=
| KeyError (k : pykey)
| IndexError
| TypeError (msg : string)
| ValueError (msg : string)
| AttributeError (msg : string)
| JSONDecodeError
| PyException (msg : string)
| OSError (msg : string).

(** Library functions used by the class and defined outside of it. *)
Class Builtins : Type := {
  (** [json.loads buf]; [None] when it raises [JSONDecodeError] *)
  json_loads : string -> option pyval;
  (** [repr v], which [str] uses on lists and dictionaries *)
  py_repr : pyval -> string;
  (** [int(s)] on a string; [None] when it raises [ValueError] *)
  int_of_str : string -> option Z
}.

(** ** Expressions that may raise *)

Definition E (A : Type) : Type := (exn + A)%type.

Definition ebind {A B : Type} (c : E A) (k : A -> E B) : E B :=
  match c with
  | inl e => inl e
  | inr a => k a
  end.

Declare Scope exn_scope.
Delimit Scope exn_scope with exn.
Notation "x <- c ;; k" := (ebind c (fun x => k))
  (at level 61, c at next level, right associativity) : exn_scope.

(** ** Strings *)

Definition newline : ascii := "010"%char.
Definition dot : ascii := "."%char.

Definition lower_ascii (c : ascii) : ascii :=
  let n := nat_of_ascii c in
  if andb (65 <=? n)%nat (n <=? 90)%nat then ascii_of_nat (n + 32) else c.

(** [s.lower()] *)
Fixpoint lower (s : string) : string :=
  match s with
  | EmptyString => EmptyString
  | String c s' => String (lower_ascii c) (lower s')
  end.

(** [needle in hay] on two strings *)
Fixpoint contains_sub (needle hay : string) : bool :=
  if prefix needle hay then true
  else match hay with
       | EmptyString => false
       | String _ hay' => contains_sub needle hay'
       end.

(** [s.split(sep)] for a one-character separator: the parts, with the part
    being read kept in [cur]. *)
Fixpoint split_from (sep : ascii) (cur : string) (s : string) : list string :=
  match s with
  | EmptyString => [cur]
  | String c s' =>
      if Ascii.eqb c sep then cur :: split_from sep EmptyString s'
      else split_from sep (cur ++ String c EmptyString) s'
  end.

Definition split (sep : ascii) (s : string) : list string :=
  split_from sep EmptyString s.

(** The match of the pattern [^.*\.] at the start of [s]: [.] stands for any
    character but a newline and [*] is greedy, so the match ends at the last
    dot of the first line.  [Some r] gives what follows the match. *)
Fixpoint after_match (s : string) : option string :=
  match s with
  | EmptyString => None
  | String c s' =>
      if Ascii.eqb c newline then None
      else match after_match s' with
           | Some r => Some r
           | None => if Ascii.eqb c dot then Some s' else None
           end
  end.

(** [re.sub(r"^.*\.", "", s)]: the pattern is anchored at the start of the
    string, so it matches at most once. *)
Definition re_sub_trim (s : string) : string :=
  match after_match s with
  | Some r => r
  | None => s
  end.

(** [re.sub(r"=", "", s)] *)
Fixpoint re_sub_eq (s : string) : string :=
  match s with
  | EmptyString => EmptyString
  | String c s' =>
      if Ascii.eqb c "="%char then re_sub_eq s' else String c (re_sub_eq s')
  end.

(** [str(z)] on an integer *)
Definition str_of_Z (z : Z) : string := NilZero.string_of_int (Z.to_int z).

(** ** Dictionaries *)

(** The integer a key compares as: [True == 1] and [False == 0]. *)
Definition key_int (k : pykey) : option Z :=
  match k with
  | KBool b => Some (Z.b2z b)
  | KInt z => Some z
  | _ => None
  end.

Definition key_eqb (a b : pykey) : bool :=
  match a, b with
  | KNone, KNone => true
  | KStr s, KStr t => String.eqb s t
  | _, _ =>
      match key_int a, key_int b with
      | Some x, Some y => Z.eqb x y
      | _, _ => false
      end
  end.

Fixpoint dict_get {V : Type} (k : pykey) (d : list (pykey * V)) : option V :=
  match d with
  | [] => None
  | (k', v) :: d' => if key_eqb k k' then Some v else dict_get k d'
  end.

Definition dict_mem {V : Type} (k : pykey) (d : list (pykey * V)) : bool :=
  match dict_get k d with
  | Some _ => true
  | None => false
  end.

(** [d[k] = v]: an existing key keeps its place, a new one goes last. *)
Fixpoint dict_set {V : Type} (k : pykey) (v : V) (d : list (pykey * V))
  : list (pykey * V) :=
  match d with
  | [] => [(k, v)]
  | (k', v') :: d' =>
      if key_eqb k k' then (k', v) :: d' else (k', v') :: dict_set k v d'
  end.

(** ** Operators and built-in functions on values *)

Section Values.
Context {B : Builtins}.

(** [hash(v)]: lists and dictionaries are unhashable. *)
Definition key_of (v : pyval) : E pykey :=
  match v with
  | PNone => inr KNone
  | PBool b => inr (KBool b)
  | PInt z => inr (KInt z)
  | PStr s => inr (KStr s)
  | PList _ => inl (TypeError "unhashable type: 'list'")
  | PDict _ => inl (TypeError "unhashable type: 'dict'")
  end.

Definition val_of_key (k : pykey) : pyval :=
  match k with
  | KNone => PNone
  | KBool b => PBool b
  | KInt z => PInt z
  | KStr s => PStr s
  end.

(** [bool(v)] *)
Definition truthy (v : pyval) : bool :=
  match v with
  | PNone => false
  | PBool b => b
  | PInt z => negb (Z.eqb z 0)
  | PStr s => negb (String.eqb s "")
  | PList l => match l with [] => false | _ => true end
  | PDict d => match d with [] => false | _ => true end
  end.

(** [str(v)] *)
Definition py_str (v : pyval) : string :=
  match v with
  | PNone => "None"
  | PBool true => "True"
  | PBool false => "False"
  | PInt z => str_of_Z z
  | PStr s => s
  | PList _ | PDict _ => py_repr v
  end.

(** [isinstance(v, int)]: [bool] is a subclass of [int]. *)
Definition isinstance_int (v : pyval) : bool :=
  match v with
  | PInt _ | PBool _ => true
  | _ => false
  end.

Definition isinstance_list (v : pyval) : bool :=
  match v with
  | PList _ => true
  | _ => false
  end.

(** The integer value of an instance of [int]. *)
Definition int_value (v : pyval) : option Z :=
  match v with
  | PInt z => Some z
  | PBool b => Some (Z.b2z b)
  | _ => None
  end.

(** [int(v)] *)
Definition py_int (v : pyval) : E Z :=
  match v with
  | PInt z => inr z
  | PBool b => inr (Z.b2z b)
  | PStr s =>
      match int_of_str s with
      | Some z => inr z
      | None => inl (ValueError "invalid literal for int() with base 10")
      end
  | _ => inl (TypeError "int() argument must be a string or a real number")
  end.

(** [v == s] for a string literal [s] *)
Definition eq_str (v : pyval) (s : string) : bool :=
  match v with
  | PStr t => String.eqb t s
  | _ => false
  end.

(** [s[i]] and [l[i]]: a negative index counts from the end. *)
Definition index_of (i : Z) (len : nat) : option nat :=
  let n := Z.of_nat len in
  if andb (0 <=? i)%Z (i <? n)%Z then Some (Z.to_nat i)
  else if andb (- n <=? i)%Z (i <? 0)%Z then Some (Z.to_nat (i + n))
  else None.

Definition str_at (s : string) (n : nat) : string :=
  match String.get n s with
  | Some c => String c EmptyString
  | None => EmptyString
  end.

(** [c[k]] *)
Definition getitem (c k : pyval) : E pyval :=
  match c with
  | PDict d =>
      (key <- key_of k ;;
       match dict_get key d with
       | Some v => inr v
       | None => inl (KeyError key)
       end)%exn
  | PList l =>
      match int_value k with
      | Some i =>
          match index_of i (length l) with
          | Some n =>
              match nth_error l n with
              | Some v => inr v
              | None => inl IndexError
              end
          | None => inl IndexError
          end
      | None => inl (TypeError "list indices must be integers or slices")
      end
  | PStr s =>
      match int_value k with
      | Some i =>
          match index_of i (String.length s) with
          | Some n => inr (PStr (str_at s n))
          | None => inl IndexError
          end
      | None => inl (TypeError "string indices must be integers")
      end
  | _ => inl (TypeError "object is not subscriptable")
  end.

(** [c[s]] for a string literal [s] *)
Definition item (c : pyval) (s : string) : E pyval := getitem c (PStr s).

Fixpoint chars (s : string) : list pyval :=
  match s with
  | EmptyString => []
  | String c s' => PStr (String c EmptyString) :: chars s'
  end.

(** [iter(v)], as a [for] loop reads it *)
Definition iter (v : pyval) : E (list pyval) :=
  match v with
  | PList l => inr l
  | PStr s => inr (chars s)
  | PDict d => inr (map (fun kv => val_of_key (fst kv)) d)
  | _ => inl (TypeError "object is not iterable")
  end.

(** [len(v)] *)
Definition len (v : pyval) : E nat :=
  match v with
  | PList l => inr (length l)
  | PStr s => inr (String.length s)
  | PDict d => inr (length d)
  | _ => inl (TypeError "object has no len()")
  end.

(** [s in c] for a string [s]: key membership in a dictionary, element
    membership in a list, substring test in a string. *)
Definition str_in (s : string) (c : pyval) : E bool :=
  match c with
  | PDict d => inr (dict_mem (KStr s) d)
  | PList l => inr (existsb (fun v => eq_str v s) l)
  | PStr t => inr (contains_sub s t)
  | _ => inl (TypeError "argument is not iterable")
  end.

(** [v.lower()] *)
Definition py_lower (v : pyval) : E string :=
  match v with
  | PStr s => inr (lower s)
  | _ => inl (AttributeError "object has no attribute 'lower'")
  end.

(** [re.sub(r"^.*\.", "", v)] *)
Definition py_re_sub_trim (v : pyval) : E string :=
  match v with
  | PStr s => inr (re_sub_trim s)
  | _ => inl (TypeError "expected string or bytes-like object")
  end.

(** [v + 1] *)
Definition add_one (v : pyval) : E pyval :=
  match int_value v with
  | Some z => inr (PInt (z + 1))
  | None => inl (TypeError "unsupported operand type(s) for +=")
  end.

End Values.

(** ** The device object and its collaborators *)

(** An entry [{"version": v}] of [self.services]. *)
Record service_entry : Type := mkEntry { entry_version : pyval }.

(** The fields [__init__] sets on [self], [ws] apart (it is the [HCSocket]
    of the [World]). *)
Record HCDevice : Type := mkHCDevice {
  features : pyval;
  session_id : pyval;
  tx_msg_id : pyval;
  device_name : string;
  device_id : string;
  debug : bool;
  name : string;
  services_initialized : bool;
  services : list (pykey * service_entry);
  token : pyval
}.

(** [HCDevice(ws, features, name)] *)
Definition init (features : pyval) (name : string) : HCDevice :=
  {| features := features;
     session_id := PNone;
     tx_msg_id := PNone;
     device_name := "hcpy";
     device_id := "0badcafe";
     debug := false;
     name := name;
     services_initialized := false;
     services := [];
     token := PNone |}.

Definition set_session_id (v : pyval) (d : HCDevice) : HCDevice :=
  {| features := features d; session_id := v; tx_msg_id := tx_msg_id d;
     device_name := device_name d; device_id := device_id d;
     debug := debug d; name := name d;
     services_initialized := services_initialized d;
     services := services d; token := token d |}.

Definition set_tx_msg_id (v : pyval) (d : HCDevice) : HCDevice :=
  {| features := features d; session_id := session_id d; tx_msg_id := v;
     device_name := device_name d; device_id := device_id d;
     debug := debug d; name := name d;
     services_initialized := services_initialized d;
     services := services d; token := token d |}.

Definition set_services_initialized (b : bool) (d : HCDevice) : HCDevice :=
  {| features := features d; session_id := session_id d;
     tx_msg_id := tx_msg_id d;
     device_name := device_name d; device_id := device_id d;
     debug := debug d; name := name d;
     services_initialized := b;
     services := services d; token := token d |}.

Definition set_services (s : list (pykey * service_entry)) (d : HCDevice) : HCDevice :=
  {| features := features d; session_id := session_id d;
     tx_msg_id := tx_msg_id d;
     device_name := device_name d; device_id := device_id d;
     debug := debug d; name := name d;
     services_initialized := services_initialized d;
     services := s; token := token d |}.

Definition set_token (v : pyval) (d : HCDevice) : HCDevice :=
  {| features := features d; session_id := session_id d;
     tx_msg_id := tx_msg_id d;
     device_name := device_name d; device_id := device_id d;
     debug := debug d; name := name d;
     services_initialized := services_initialized d;
     services := services d; token := v |}.

(** What one call of [ws.recv()] does: it returns a frame, returns [None]
    (the stream has ended) or raises. *)
Inductive rx_event : Type :=
| RxFrame (buf : string)
| RxClosed
| RxError (e : exn).

(** What one call of [ws.reconnect()] does: it brings up a connection, on
    which the given events will be read, or raises. *)
Inductive conn_attempt : Type :=
| ConnUp (frames : list rx_event)
| ConnError (e : exn).

(** The websocket [ws], an external collaborator: the script of what the
    peer and the network will do, and the messages handed over so far.
    - [rx]: the events of the current connection still to be read;
    - [sent]: the messages [ws.send] has accepted, oldest first;
    - [tx_faults]: for the coming calls of [ws.send], the exception each
      raises, if any (none once the script is used up);
    - [conns]: the coming calls of [ws.reconnect]. *)
Record HCSocket : Type := mkHCSocket {
  rx : list rx_event;
  sent : list pyval;
  tx_faults : list (option exn);
  conns : list conn_attempt
}.

(** The lines the class prints, without their time stamps. *)
Inductive log_event : Type :=
| LogRX (msg : pyval)
| LogUnknownResource (resource : pyval)
| LogReceived (msg : pyval)
| LogUnknownResponse (msg : pyval)
| LogUnknownMessage (msg : pyval)
| LogServiceNotKnown
| LogProcessingFeature (fname : string) (uid : string)
| LogReceiveError (e : exn)
| LogErrorHandling (e : exn) (buf : string)
| LogFailedToSend (e : exn) (msg : pyval).

(** [entropy n] is the [n]-th result of
    [base64url_encode(get_random_bytes(32)).decode("UTF-8")]. *)
Record World : Type := mkWorld {
  dev : HCDevice;
  ws : HCSocket;
  stdout : list log_event;
  entropy : nat -> string;
  draws : nat
}.

Definition with_dev (d : HCDevice) (w : World) : World :=
  {| dev := d; ws := ws w; stdout := stdout w;
     entropy := entropy w; draws := draws w |}.

Definition with_ws (s : HCSocket) (w : World) : World :=
  {| dev := dev w; ws := s; stdout := stdout w;
     entropy := entropy w; draws := draws w |}.

(** ** Methods: state, exceptions and blocking *)

(** A call returns, raises, or never returns because [ws.recv] or
    [ws.reconnect] waits for an event that does not come. *)
Inductive outcome (A : Type) : Type :=
| Ret (a : A) (w : World)
| Raise (e : exn) (w : World)
| Blocked (w : World).

Arguments Ret {A} a w.
Arguments Raise {A} e w.
Arguments Blocked {A} w.

Definition M (A : Type) : Type := World -> outcome A.

Definition ret {A : Type} (a : A) : M A := fun w => Ret a w.

Definition bind {A B : Type} (c : M A) (k : A -> M B) : M B :=
  fun w =>
    match c w with
    | Ret a w' => k a w'
    | Raise e w' => Raise e w'
    | Blocked w' => Blocked w'
    end.

Definition raise {A : Type} (e : exn) : M A := fun w => Raise e w.

Definition lift {A : Type} (c : E A) : M A :=
  fun w =>
    match c with
    | inl e => Raise e w
    | inr a => Ret a w
    end.

(** [try: c  except Exception as e: h e] *)
Definition try_except {A : Type} (c : M A) (h : exn -> M A) : M A :=
  fun w =>
    match c w with
    | Raise e w' => h e w'
    | o => o
    end.

Declare Scope method_scope.
Delimit Scope method_scope with M.
Notation "x <- c ;; k" := (bind c (fun x => k))
  (at level 61, c at next level, right associativity) : method_scope.
Notation "c ;; k" := (bind c (fun _ => k))
  (at level 61, right associativity) : method_scope.

(** The world a call leaves behind. *)
Definition world_of {A : Type} (o : outcome A) : World :=
  match o with
  | Ret _ w => w
  | Raise _ w => w
  | Blocked w => w
  end.

Definition self : M HCDevice := fun w => Ret (dev w) w.

Definition update (f : HCDevice -> HCDevice) : M unit :=
  fun w => Ret tt (with_dev (f (dev w)) w).

(** The world after a line is printed. *)
Definition log_line (ev : log_event) (w : World) : World :=
  {| dev := dev w; ws := ws w; stdout := stdout w ++ [ev];
     entropy := entropy w; draws := draws w |}.

Definition print (ev : log_event) : M unit :=
  fun w => Ret tt (log_line ev w).

(** [for x in l: body x] *)
Fixpoint for_each {A : Type} (l : list A) (body : A -> M unit) : M unit :=
  match l with
  | [] => ret tt
  | x :: l' => bind (body x) (fun _ => for_each l' body)
  end.

(** The socket once the events left to read are [events]. *)
Definition with_rx (events : list rx_event) (s : HCSocket) : HCSocket :=
  {| rx := events; sent := sent s;
     tx_faults := tx_faults s; conns := conns s |}.

(** The world once the first event of the connection has been read. *)
Definition pop_rx (w : World) : World :=
  with_ws (with_rx (tl (rx (ws w))) (ws w)) w.

(** [ws.recv()] *)
Definition ws_recv : M (option string) :=
  fun w =>
    match rx (ws w) with
    | [] => Blocked w
    | RxFrame buf :: _ => Ret (Some buf) (pop_rx w)
    | RxClosed :: _ => Ret None (pop_rx w)
    | RxError e :: _ => Raise e (pop_rx w)
    end.

(** The world once [ws.send] has made a call: the message is handed over
    unless the call raises. *)
Definition after_send (msg : option pyval) (w : World) : World :=
  let s := ws w in
  with_ws {| rx := rx s;
             sent := match msg with
                     | Some m => sent s ++ [m]
                     | None => sent s
                     end;
             tx_faults := tl (tx_faults s);
             conns := conns s |} w.

(** [ws.send(msg)] *)
Definition ws_send (msg : pyval) : M unit :=
  fun w =>
    match tx_faults (ws w) with
    | Some e :: _ => Raise e (after_send None w)
    | _ => Ret tt (after_send (Some msg) w)
    end.

(** [ws.reconnect()] *)
Definition ws_reconnect : M unit :=
  fun w =>
    let s := ws w in
    match conns s with
    | [] => Blocked w
    | ConnUp frames :: rest =>
        Ret tt (with_ws {| rx := frames; sent := sent s;
                           tx_faults := tx_faults s; conns := rest |} w)
    | ConnError e :: rest =>
        Raise e (with_ws {| rx := rx s; sent := sent s;
                            tx_faults := tx_faults s; conns := rest |} w)
    end.

(** [base64url_encode(get_random_bytes(32)).decode("UTF-8")] *)
Definition random_token : M string :=
  fun w =>
    Ret (entropy w (draws w))
        {| dev := dev w; ws := ws w; stdout := stdout w;
           entropy := entropy w; draws := S (draws w) |}.

(** ** The methods of [HCDevice] *)

Section Methods.
Context {B : Builtins}.

Local Open Scope exn_scope.

Definition fail {A : Type} (e : exn) : E A := inl e.

(** The body of the loop of [parse_values], on one record [msg]; the
    dictionary [result] is threaded through. *)
Definition parse_value (features : pyval) (result : dict) (msg : pyval)
  : E dict :=
  u <- item msg "uid" ;;
  let uid := py_str u in
  value <- item msg "value" ;;
  let value_str := py_str value in
  found <- str_in uid features ;;
  status <- (if found then getitem features (PStr uid) else inr PNone) ;;
  nv <- (if truthy status then
           name <- item status "name" ;;
           has_values <- str_in "values" status ;;
           matched <- (if has_values
                       then (vs <- item status "values" ;; str_in value_str vs)
                       else inr false) ;;
           if matched
           then (vs <- item status "values" ;;
                 label <- getitem vs (PStr value_str) ;;
                 inr (name, label))
           else inr (name, value)
         else inr (PStr uid, value)) ;;
  (* trim everything off the name except the last part *)
  name <- py_re_sub_trim (fst nv) ;;
  inr (dict_set (KStr name) (snd nv) result).

Fixpoint parse_values_loop (features : pyval) (msgs : list pyval)
  (result : dict) : E dict :=
  match msgs with
  | [] => inr result
  | msg :: rest =>
      result' <- parse_value features result msg ;;
      parse_values_loop features rest result'
  end.

Definition parse_values (features values : pyval) : E pyval :=
  if negb (truthy features) then inr values
  else
    msgs <- iter values ;;
    result <- parse_values_loop features msgs [] ;;
    inr (PDict result).

(** The loop of [test_program_data] over the options of one record. *)
Fixpoint test_options (features : pyval) (options : list pyval) : E unit :=
  match options with
  | [] => inr tt
  | option :: rest =>
      option_uid <- item option "uid" ;;
      found <- str_in (py_str option_uid) features ;;
      if negb found then
        fail (ValueError ("Unable to configure appliance. Option UID "
                            ++ py_str option_uid
                            ++ " is not valid for this device."))
      else test_options features rest
  end.

(** The body of the loop of [test_program_data], on one record [data]. *)
Definition test_program (features data : pyval) : E unit :=
  has_program <- str_in "program" data ;;
  if negb has_program then
    fail (TypeError "Message data invalid, no program specified.")
  else
  program <- item data "program" ;;
  if negb (isinstance_int program) then
    fail (TypeError
            "Message data invalid, UID in 'program' must be an integer.")
  else
  (* devices.json stores UID as string *)
  let uid := py_str program in
  found <- str_in uid features ;;
  if negb found then
    fail (ValueError ("Unable to configure appliance. Program UID " ++ uid
                        ++ " is not valid for this device."))
  else
  feature <- getitem features (PStr uid) ;;
  fname <- item feature "name" ;;
  marked <- str_in ".Program." fname ;;
  if negb marked then
    fail (ValueError ("Unable to configure appliance. Program UID " ++ uid
                        ++ " is not a valid program - " ++ py_str fname
                        ++ "."))
  else
  has_options <- str_in "options" data ;;
  if has_options then
    options <- item data "options" ;;
    options <- iter options ;;
    test_options features options
  else inr tt.

Fixpoint test_program_loop (features : pyval) (records : list pyval)
  : E unit :=
  match records with
  | [] => inr tt
  | data :: rest =>
      _ <- test_program features data ;;
      test_program_loop features rest
  end.

Definition test_program_data (features data_array : pyval) : E unit :=
  records <- iter data_array ;;
  test_program_loop features records.

Local Close Scope exn_scope.
Local Open Scope method_scope.

(** The body of the loop of [test_feature], on one record [data].

    The source reads the value of the record and the enumeration of the
    descriptor anew at each use; here each is bound once, ahead of its
    first use.  Both reads succeed at that point: the record and the
    descriptor have each been read with a string key, which only a
    dictionary allows, and the key has been found with [in]. *)
Definition test_feature_record (data : pyval) : M unit :=
  has_uid <- lift (str_in "uid" data) ;;
  if negb has_uid then
    raise (PyException "Unable to configure appliance. UID is required.")
  else
  u <- lift (item data "uid") ;;
  if negb (isinstance_int u) then
    raise (PyException "Unable to configure appliance. UID must be an integer.")
  else
  has_value <- lift (str_in "value" data) ;;
  if negb has_value then
    raise (PyException "Unable to configure appliance. Value is required.")
  else
  (* Check if the uid is present for this appliance *)
  let uid := py_str u in
  d <- self ;;
  found <- lift (str_in uid (features d)) ;;
  if negb found then
    raise (PyException ("Unable to configure appliance. UID " ++ uid
                          ++ " is not valid."))
  else
  feature <- lift (getitem (features d) (PStr uid)) ;;
  (* check the access level of the feature *)
  fname <- lift (item feature "name") ;;
  print (LogProcessingFeature (py_str fname) uid) ;;
  has_access <- lift (str_in "access" feature) ;;
  if negb has_access then
    raise (PyException ("Unable to configure appliance. " ++ "Feature "
                          ++ py_str fname ++ " with uid " ++ uid
                          ++ " does not have access."))
  else
  acc <- lift (item feature "access") ;;
  access <- lift (py_lower acc) ;;
  if andb (negb (String.eqb access "readwrite"))
          (negb (String.eqb access "writeonly")) then
    raise (PyException ("Unable to configure appliance. " ++ "Feature "
                          ++ py_str fname ++ " with uid " ++ uid
                          ++ " has got access " ++ py_str acc ++ "."))
  else
  value <- lift (item data "value") ;;
  (* check if selected list with values is allowed *)
  has_values <- lift (str_in "values" feature) ;;
  (if has_values then
     values <- lift (item feature "values") ;;
     if negb (isinstance_int value) then
       raise (PyException ("Unable to configure appliance. The value "
                             ++ py_str value ++ " must "
                             ++ "be an integer. Allowed values are "
                             ++ py_str values ++ "."))
     else
     listed <- lift (str_in (py_str value) values) ;;
     if negb listed then
       raise (PyException ("Unable to configure appliance. " ++ "Value "
                             ++ py_str value ++ " is not a valid value. "
                             ++ "Allowed values are " ++ py_str values
                             ++ ". "))
     else ret tt
   else ret tt) ;;
  has_min <- lift (str_in "min" feature) ;;
  if has_min then
    lo <- lift (item feature "min") ;;
    min <- lift (py_int lo) ;;
    hi <- lift (item feature "max") ;;
    max <- lift (py_int hi) ;;
    if match int_value value with
       | None => true
       | Some v => orb (v <? min)%Z (v >? max)%Z
       end
    then
      raise (PyException ("Unable to configure appliance. " ++ "Value "
                            ++ py_str value ++ " is not a valid value. "
                            ++ "The value must be an integer in the range "
                            ++ str_of_Z min ++ " and " ++ str_of_Z max
                            ++ "."))
    else ret tt
  else ret tt.

(** Test the feature of an appliance against a data object. *)
Definition test_feature (data_array : pyval) : M unit :=
  records <- lift (iter data_array) ;;
  for_each records test_feature_record.

(** Reply to a POST or GET message with new data. *)
Definition reply (msg : pyval) (answer : pyval) : M unit :=
  sID <- lift (item msg "sID") ;;
  msgID <- lift (item msg "msgID") ;; (* same one they sent to us *)
  resource <- lift (item msg "resource") ;;
  version <- lift (item msg "version") ;;
  ws_send (PDict [ (KStr "sID", sID);
                   (KStr "msgID", msgID);
                   (KStr "resource", resource);
                   (KStr "version", version);
                   (KStr "action", PStr "RESPONSE");
                   (KStr "data", PList [answer]) ]).

(** The version [get] puts in the envelope: [version] is the argument of
    the call, after its default. *)
Definition resolve_version (resource : string) (version : pyval) : M pyval :=
  d <- self ;;
  if services_initialized d then
    let resource_parts := split "/" resource in
    if (1 <? length resource_parts)%nat then
      let service := nth 1 (split "/" resource) "" in
      match dict_get (KStr service) (services d) with
      | Some entry => ret (entry_version entry)
      | None =>
          print LogServiceNotKnown ;;
          ret version
      end
    else ret version
  else ret version.

(** The checks [get] makes on the payload of a POST: [data] is the payload
    as a list. *)
Definition validate (resource action : string) (data : pyval) : M unit :=
  if String.eqb action "POST" then
    if String.eqb resource "/ro/values" then
      (* Raises exceptions on failure *)
      test_feature data
    else if String.eqb resource "/ro/activeProgram" then
      (* Raises exception on failure *)
      d <- self ;;
      lift (test_program_data (features d) data)
    else ret tt
  else ret tt.

(** [data] when it is a list, and [[data]] otherwise *)
Definition as_list (data : pyval) : pyval :=
  if isinstance_list data then data else PList [data].

(** The message [get] builds before the payload goes in. *)
Definition envelope (d : HCDevice) (resource : string) (version : pyval)
  (action : string) : dict :=
  [ (KStr "sID", session_id d);
    (KStr "msgID", tx_msg_id d);
    (KStr "resource", PStr resource);
    (KStr "version", version);
    (KStr "action", PStr action) ].

(** The end of [get]: the message is handed to the socket, a failure of
    the socket is printed, and [self.tx_msg_id += 1]. *)
Definition send_counted (msg : dict) : M unit :=
  try_except (ws_send (PDict msg))
             (fun e => print (LogFailedToSend e (PDict msg))) ;;
  d <- self ;;
  next <- lift (add_one (tx_msg_id d)) ;;
  update (set_tx_msg_id next).

(** [version] and [action] as [get] reads them: an argument of the call
    that is left out is [None] here. *)
Definition version_arg (version : option pyval) : pyval :=
  match version with Some v => v | None => PInt 1 end.

Definition action_arg (action : option string) : string :=
  match action with Some a => a | None => "GET" end.

(** Send a message to the device.  [data=None] is the default of [data]
    itself. *)
Definition get (resource : string) (version : option pyval)
  (action : option string) (data : pyval) : M unit :=
  let action := action_arg action in
  version <- resolve_version resource (version_arg version) ;;
  d <- self ;;
  let msg := envelope d resource version action in
  msg <- match data with
         | PNone => ret msg
         | _ =>
             let data := as_list data in
             validate resource action data ;;
             ret (dict_set (KStr "data") data msg)
         end ;;
  send_counted msg.

(** [msg.get(key, default)] *)
Definition dict_get_default (msg : pyval) (key : string) (default : pyval)
  : E pyval :=
  match msg with
  | PDict d =>
      match dict_get (KStr key) d with
      | Some v => inr v
      | None => inr default
      end
  | _ => inl (AttributeError "object has no attribute 'get'")
  end.

(** [msg["data"][0]] when ["data" in msg and len(msg["data"]) > 0], and
    the empty dictionary [values] was initialised to otherwise. *)
Definition first_record (msg : pyval) : E pyval :=
  (has_data <- str_in "data" msg ;;
   nonempty <- (if has_data
                then (data <- item msg "data" ;;
                      n <- len data ;;
                      inr (0 <? n)%nat)
                else inr false) ;;
   if nonempty
   then (data <- item msg "data" ;; getitem data (PInt 0))
   else inr (PDict []))%exn.

(** One turn of the loop over the records of a services list. *)
Definition register_service (service : pyval) : M unit :=
  version <- lift (item service "version") ;;
  sname <- lift (item service "service") ;;
  key <- lift (key_of sname) ;;
  update (fun d =>
            set_services
              (dict_set key {| entry_version := version |} (services d))
              d).

Definition handle_message (buf : string) : M pyval :=
  msg <- lift (match json_loads buf with
               | Some v => inr v
               | None => inl JSONDecodeError
               end) ;;
  d <- self ;;
  (if debug d then print (LogRX msg) else ret tt) ;;
  resource <- lift (item msg "resource") ;;
  action <- lift (item msg "action") ;;
  has_code <- lift (str_in "code" msg) ;;
  if has_code then
    code <- lift (item msg "code") ;;
    res <- lift (dict_get_default msg "resource" (PStr "")) ;;
    ret (PDict [(KStr "error", code); (KStr "resource", res)])
  else if eq_str action "POST" then
    if eq_str resource "/ei/initialValues" then
      (* this is the first message they send to us and
         establishes our session plus message ids *)
      sID <- lift (item msg "sID") ;;
      update (set_session_id sID) ;;
      data <- lift (item msg "data") ;;
      first <- lift (getitem data (PInt 0)) ;;
      edMsgID <- lift (item first "edMsgID") ;;
      update (set_tx_msg_id edMsgID) ;;
      d <- self ;;
      reply msg (PDict [ (KStr "deviceType", PStr "Application");
                         (KStr "deviceName", PStr (device_name d));
                         (KStr "deviceID", PStr (device_id d)) ]) ;;
      ret (PDict [])
    else
      print (LogUnknownResource resource) ;;
      ret (PDict [])
  else if orb (eq_str action "RESPONSE") (eq_str action "NOTIFY") then
    if orb (eq_str resource "/iz/info") (eq_str resource "/ci/info") then
      (* Return Device Information such as Serial Number, SW Versions *)
      lift (first_record msg)
    else if orb (eq_str resource "/ro/descriptionChange")
                (eq_str resource "/ro/allDescriptionChanges") then
      ret (PDict [])
    else if eq_str resource "/ni/info" then
      (* Return Network Information/IP Address etc *)
      lift (first_record msg)
    else if eq_str resource "/ni/config" then
      ret (PDict [])
    else if orb (eq_str resource "/ro/allMandatoryValues")
                (eq_str resource "/ro/values") then
      has_data <- lift (str_in "data" msg) ;;
      if has_data then
        data <- lift (item msg "data") ;;
        lift (parse_values (features d) data)
      else
        print (LogReceived msg) ;;
        ret (PDict [])
    else if eq_str resource "/ci/registeredDevices" then
      ret (PDict [])
    else if eq_str resource "/ci/tzInfo" then
      ret (PDict [])
    else if eq_str resource "/ci/authentication" then
      has_data <- lift (str_in "data" msg) ;;
      nonempty <- (if has_data
                   then (data <- lift (item msg "data") ;;
                         n <- lift (len data) ;;
                         ret (0 <? n)%nat)
                   else ret false) ;;
      if nonempty then
        (* Grab authentication token *)
        data <- lift (item msg "data") ;;
        first <- lift (getitem data (PInt 0)) ;;
        response <- lift (item first "response") ;;
        update (set_token response) ;;
        ret (PDict [])
      else ret (PDict [])
    else if eq_str resource "/ci/services" then
      data <- lift (item msg "data") ;;
      records <- lift (iter data) ;;
      for_each records register_service ;;
      update (set_services_initialized true) ;;
      ret (PDict [])
    else
      print (LogUnknownResponse msg) ;;
      ret (PDict [])
  else
    print (LogUnknownMessage msg) ;;
    ret (PDict []).

Definition recv : M pyval :=
  buf <- try_except ws_recv
                    (fun e => print (LogReceiveError e) ;; ret None) ;;
  match buf with
  | None => ret PNone
  | Some buf =>
      try_except (handle_message buf)
                 (fun e => print (LogErrorHandling e buf) ;; ret PNone)
  end.

(** [while True: self.recv(); if self.services_initialized: break].
    Every turn reads one event of the connection, so the loop makes at most
    [fuel] turns when [fuel] is the number of events left, and then waits
    in [ws.recv]. *)
Fixpoint services_loop (fuel : nat) : M unit :=
  recv ;;
  d <- self ;;
  if services_initialized d then ret tt
  else match fuel with
       | O => fun w => Blocked w
       | S fuel' => services_loop fuel'
       end.

Definition reconnect : M unit :=
  ws_reconnect ;;
  (* Receive initialization message /ei/initialValues *)
  recv ;;
  (* ask the device which services it supports *)
  get "/ci/services" None None PNone ;;
  (fun w => services_loop (length (rx (ws w))) w) ;;
  tok <- random_token ;;
  update (set_token (PStr tok)) ;;
  update (set_token (PStr (re_sub_eq tok))) ;;
  d <- self ;;
  get "/ci/authentication" (Some (PInt 2)) None
      (PDict [(KStr "nonce", token d)]) ;;
  get "/ci/info" None None PNone ;;
  get "/iz/info" None None PNone ;;
  (* Retrieves registered clients like phone/hcpy itself *)
  get "/ci/registeredDevices" None None PNone ;;
  (* We need to send deviceReady for some devices *)
  get "/ei/deviceReady" (Some (PInt 2)) (Some "NOTIFY") PNone ;;
  get "/ni/info" None None PNone ;;
  get "/ro/allMandatoryValues" None None PNone.

End Methods.

(** * Specifications *)

(** ** What a method leaves unchanged

    [holds blocking R c] says that [c] takes a world [w] to a world related
    to [w] by [R]; when [blocking] is [false] it says moreover that [c] never
    waits for the socket.  For a preorder [R] the property goes through the
    combinators of [M], so that it is proved of a method by following its
    text. *)

Definition holds {A : Type} (blocking : bool) (R : World -> World -> Prop)
  (c : M A) : Prop :=
  forall w,
    match c w with
    | Ret _ w' => R w w'
    | Raise _ w' => R w w'
    | Blocked w' => if blocking then R w w' else False
    end.

(** Only [stdout] differs. *)
Definition printed (w w' : World) : Prop :=
  dev w' = dev w /\ ws w' = ws w
  /\ entropy w' = entropy w /\ draws w' = draws w.

(** The device object is as before. *)
Definition same_dev (w w' : World) : Prop := dev w' = dev w.

(** [services_initialized] is as before. *)
Definition same_flag (w w' : World) : Prop :=
  services_initialized (dev w') = services_initialized (dev w).

(** What [handle_message] keeps: the events left to read, the coming
    connections, the random source and the catalog; and the services, once
    discovered, stay so. *)
Definition handled (w w' : World) : Prop :=
  rx (ws w') = rx (ws w) /\ conns (ws w') = conns (ws w)
  /\ entropy w' = entropy w /\ draws w' = draws w
  /\ features (dev w') = features (dev w)
  /\ (services_initialized (dev w) = true ->
      services_initialized (dev w') = true).

(** What [recv] keeps: the same, but for the event it reads. *)
Definition received (w w' : World) : Prop :=
  conns (ws w') = conns (ws w)
  /\ entropy w' = entropy w /\ draws w' = draws w
  /\ features (dev w') = features (dev w)
  /\ (services_initialized (dev w) = true ->
      services_initialized (dev w') = true).

(** What [get] keeps: every field of the device but [tx_msg_id], and of
    the socket what [handle_message] keeps. *)
Definition requested (w w' : World) : Prop :=
  set_tx_msg_id PNone (dev w') = set_tx_msg_id PNone (dev w)
  /\ rx (ws w') = rx (ws w) /\ conns (ws w') = conns (ws w)
  /\ entropy w' = entropy w /\ draws w' = draws w.

(** ** Requests *)

(** The top-level segment of a resource path: [resource.split("/")[1]],
    when the path has a ["/"]. *)
Definition segment (resource : string) : option string :=
  if (1 <? length (split "/" resource))%nat
  then Some (nth 1 (split "/" resource) "")
  else None.

(** The entry of [self.services] for the top-level segment of a path. *)
Definition known_service (d : HCDevice) (resource : string)
  : option service_entry :=
  match segment resource with
  | Some service => dict_get (KStr service) (services d)
  | None => None
  end.

(** The message [get] hands to the socket. *)
Definition request (d : HCDevice) (resource : string) (version : pyval)
  (action : string) (data : pyval) : dict :=
  match data with
  | PNone => envelope d resource version action
  | _ => dict_set (KStr "data") (as_list data)
                  (envelope d resource version action)
  end.

(** The world after [ws.send(msg)] inside the [try] of [get]: the message
    is with the socket, or the failure is printed. *)
Definition after_try_send (msg : pyval) (w : World) : World :=
  match tx_faults (ws w) with
  | Some e :: _ => log_line (LogFailedToSend e msg) (after_send None w)
  | _ => after_send (Some msg) w
  end.

(** A run of calls of [get] without payload, each given by its resource,
    version and action. *)
Definition gets {B : Builtins}
  (calls : list (string * option pyval * option string)) : M unit :=
  for_each calls (fun c => get (fst (fst c)) (snd (fst c)) (snd c) PNone).

(** ** The services list *)

(** A decoded message is a services list: a RESPONSE or NOTIFY for
    [/ci/services] without [code]. *)
Definition services_message (m : dict) : bool :=
  match dict_get (KStr "resource") m, dict_get (KStr "action") m with
  | Some resource, Some action =>
      negb (dict_mem (KStr "code") m)
      && negb (eq_str action "POST")
      && (eq_str action "RESPONSE" || eq_str action "NOTIFY")
      && eq_str resource "/ci/services"
  | _, _ => false
  end.

(** What a record of a services list adds to [self.services], when the
    record holds a version and a hashable service name. *)
Definition service_record (service : pyval)
  : option (pykey * service_entry) :=
  match item service "version", item service "service" with
  | inr version, inr sname =>
      match key_of sname with
      | inr key => Some (key, {| entry_version := version |})
      | inl _ => None
      end
  | _, _ => None
  end.

(** [self.services] after the loop over [records], as long as every record
    is well formed. *)
Fixpoint registered (records : list pyval)
  (table : list (pykey * service_entry))
  : option (list (pykey * service_entry)) :=
  match records with
  | [] => Some table
  | service :: rest =>
      match service_record service with
      | Some (key, entry) => registered rest (dict_set key entry table)
      | None => None
      end
  end.

(** Every record of a services list holds a version and a hashable name. *)
Definition services_wf (records : list pyval) : bool :=
  forallb (fun service =>
             match service_record service with
             | Some _ => true
             | None => false
             end) records.

(** ** Program activation, in the words of the specification *)

Section ProgramSpec.
Context {B : Builtins}.

(** The record holds a [program] field with an integer-typed id, the
    catalog holds the stringified id, and the display name of the entry
    contains the program marker. *)
Definition program_valid (features data : pyval) : Prop :=
  exists program feature fname,
    item data "program" = inr program
    /\ isinstance_int program = true
    /\ str_in (py_str program) features = inr true
    /\ getitem features (PStr (py_str program)) = inr feature
    /\ item feature "name" = inr fname
    /\ str_in ".Program." fname = inr true.

(** The identifier of an option resolves in the catalog. *)
Definition option_valid (features option : pyval) : Prop :=
  exists option_uid,
    item option "uid" = inr option_uid
    /\ str_in (py_str option_uid) features = inr true.

(** There is no options list, or every option of it resolves. *)
Definition options_valid (features data : pyval) : Prop :=
  str_in "options" data = inr false
  \/ exists options records,
       item data "options" = inr options
       /\ iter options = inr records
       /\ Forall (option_valid features) records.

End ProgramSpec.

(** ** Display names, in the words of the specification *)

(** What follows the last dot of [s], when [s] holds a dot. *)
Fixpoint after_last_dot (s : string) : option string :=
  match s with
  | EmptyString => None
  | String c s' =>
      match after_last_dot s' with
      | Some r => Some r
      | None => if Ascii.eqb c dot then Some s' else None
      end
  end.

(** [s] with everything up to and including the last dot stripped. *)
Definition last_segment (s : string) : string :=
  match after_last_dot s with
  | Some r => r
  | None => s
  end.

(** [s] holds no line break. *)
Fixpoint single_line (s : string) : bool :=
  match s with
  | EmptyString => true
  | String c s' => negb (Ascii.eqb c newline) && single_line s'
  end.

(** [s] holds no dot. *)
Fixpoint dotless (s : string) : bool :=
  match s with
  | EmptyString => true
  | String c s' => negb (Ascii.eqb c dot) && dotless s'
  end.

(** ** Value writes, in the words of the specification *)


Section WriteSpec.
Context {B : Builtins}.

(** The access level is [readwrite] or [writeonly], in any case of the
    letters. *)
Definition access_ok (desc : dict) : bool :=
  match dict_get (KStr "access") desc with
  | Some (PStr access) =>
      String.eqb (lower access) "readwrite"
      || String.eqb (lower access) "writeonly"
  | _ => false
  end.

(** An enumeration, when the descriptor declares one, holds the string
    form of the value, which is integer-typed. *)
Definition enum_ok (desc : dict) (value : pyval) : bool :=
  match dict_get (KStr "values") desc with
  | None => true
  | Some values =>
      isinstance_int value
      && match str_in (py_str value) values with
         | inr listed => listed
         | inl _ => false
         end
  end.






(** The last check of [test_feature], the block under
    [if "min" in feature], on its own. *)
Definition range_block (feature value : pyval) : M unit :=
  (has_min <- lift (str_in "min" feature) ;;
   if has_min then
     lo <- lift (item feature "min") ;;
     min <- lift (py_int lo) ;;
     hi <- lift (item feature "max") ;;
     max <- lift (py_int hi) ;;
     if match int_value value with
        | None => true
        | Some v => orb (v <? min)%Z (v >? max)%Z
        end
     then
       raise (PyException ("Unable to configure appliance. " ++ "Value "
                             ++ py_str value ++ " is not a valid value. "
                             ++ "The value must be an integer in the range "
                             ++ str_of_Z min ++ " and " ++ str_of_Z max
                             ++ "."))
     else ret tt
   else ret tt)%M.

End WriteSpec.

(** ** Example data *)

Definition digit_value (c : ascii) : option Z :=
  let n := nat_of_ascii c in
  if andb (48 <=? n)%nat (n <=? 57)%nat then Some (Z.of_nat (n - 48))
  else None.

Fixpoint digits_value (s : string) (acc : Z) : option Z :=
  match s with
  | EmptyString => Some acc
  | String c s' =>
      match digit_value c with
      | Some d => digits_value s' (10 * acc + d)
      | None => None
      end
  end.

(** [int] on plain decimal numerals, with a sign or without. *)
Definition decimal (s : string) : option Z :=
  match s with
  | EmptyString => None
  | String "-" EmptyString => None
  | String "-" s' => option_map Z.opp (digits_value s' 0)
  | _ => digits_value s 0
  end.

(** The first message of a device: session 77, messages counted from 20. *)
Definition msg_initial_values : pyval :=
  PDict [ (KStr "sID", PInt 77);
          (KStr "msgID", PInt 1);
          (KStr "resource", PStr "/ei/initialValues");
          (KStr "version", PInt 2);
          (KStr "action", PStr "POST");
          (KStr "data", PList [PDict [(KStr "edMsgID", PInt 20)]]) ].

(** The services list of the device: the service [ci] in version 3. *)
Definition msg_services : pyval :=
  PDict [ (KStr "sID", PInt 77);
          (KStr "msgID", PInt 20);
          (KStr "resource", PStr "/ci/services");
          (KStr "version", PInt 1);
          (KStr "action", PStr "RESPONSE");
          (KStr "data",
           PList [PDict [ (KStr "service", PStr "ci");
                          (KStr "version", PInt 3) ]]) ].

(** An error reported by the device. *)
Definition msg_error : pyval :=
  PDict [ (KStr "sID", PInt 77);
          (KStr "msgID", PInt 21);
          (KStr "resource", PStr "/ro/values");
          (KStr "version", PInt 1);
          (KStr "action", PStr "RESPONSE");
          (KStr "code", PInt 404) ].

(** A notice of registered devices, pushed by the device. *)
Definition msg_registered : pyval :=
  PDict [ (KStr "sID", PInt 77);
          (KStr "msgID", PInt 19);
          (KStr "resource", PStr "/ci/registeredDevices");
          (KStr "version", PInt 1);
          (KStr "action", PStr "NOTIFY");
          (KStr "data", PList []) ].

(** A decoder for the frames of the examples: a frame is written as the
    name of the message its text stands for, and any other buffer is
    rejected. *)
Definition demo_loads (buf : string) : option pyval :=
  if String.eqb buf "initialValues" then Some msg_initial_values
  else if String.eqb buf "services" then Some msg_services
  else if String.eqb buf "error" then Some msg_error
  else if String.eqb buf "registeredDevices" then Some msg_registered
  else None.

Definition demo_builtins : Builtins :=
  {| json_loads := demo_loads;
     py_repr := fun _ => "...";
     int_of_str := decimal |}.

(** A catalog with an enumerated setting, a ranged option, a read-only
    status and a program. *)
Definition demo_catalog : dict :=
  [ (KStr "539",
     PDict [ (KStr "name", PStr "BSH.Common.Setting.PowerState");
             (KStr "access", PStr "readWrite");
             (KStr "values",
              PDict [ (KStr "0", PStr "Off"); (KStr "1", PStr "On") ]) ]);
    (KStr "5123",
     PDict [ (KStr "name", PStr "Cooking.Oven.Option.SetpointTemperature");
             (KStr "access", PStr "readWrite");
             (KStr "min", PStr "0");
             (KStr "max", PStr "100") ]);
    (KStr "527",
     PDict [ (KStr "name", PStr "BSH.Common.Status.DoorState");
             (KStr "access", PStr "read") ]);
    (KStr "8192",
     PDict [ (KStr "name", PStr "Dishcare.Dishwasher.Program.Eco50");
             (KStr "access", PStr "readWrite") ]) ].

Definition demo_features : pyval := PDict demo_catalog.

(** A catalog with two descriptors that declare [min] without [max], one
    writable and one read-only. *)
Definition halved_catalog : dict :=
  [ (KStr "4100",
     PDict [ (KStr "name", PStr "Cooking.Hood.Setting.Level");
             (KStr "access", PStr "readWrite");
             (KStr "min", PStr "0") ]);
    (KStr "4101",
     PDict [ (KStr "name", PStr "Cooking.Hood.Status.Level");
             (KStr "access", PStr "read");
             (KStr "min", PStr "0") ]) ].

Definition quiet_socket : HCSocket :=
  {| rx := []; sent := []; tx_faults := []; conns := [] |}.

(** The socket once the messages it has accepted are [msgs]. *)
Definition with_sent (msgs : list pyval) (s : HCSocket) : HCSocket :=
  {| rx := rx s; sent := msgs; tx_faults := tx_faults s; conns := conns s |}.

(** A device object as [__init__] leaves it, on a socket where nothing
    happens. *)
Definition fresh_world : World :=
  {| dev := init demo_features "dishwasher";
     ws := quiet_socket;
     stdout := [];
     entropy := fun _ => "c2Vzc2lvbi1ub25jZQ==";
     draws := 0 |}.

(** A new device object on the catalog of halved ranges. *)
Definition halved_world : World :=
  with_dev (init (PDict halved_catalog) "hood") fresh_world.

(** A device object in the middle of a session: session 77, message
    counter 25, and the services of the device known. *)
Definition session_device : HCDevice :=
  {| features := demo_features;
     session_id := PInt 77;
     tx_msg_id := PInt 25;
     device_name := "hcpy";
     device_id := "0badcafe";
     debug := false;
     name := "dishwasher";
     services_initialized := true;
     services := [(KStr "ci", {| entry_version := PInt 3 |})];
     token := PStr "c2Vzc2lvbi1ub25jZQ" |}.

Definition session_world : World :=
  {| dev := session_device;
     ws := quiet_socket;
     stdout := [];
     entropy := fun _ => "bmV4dC1ub25jZQ==";
     draws := 1 |}.

(** The session of [session_world] on a socket whose next [send] raises. *)
Definition broken_world : World :=
  with_ws {| rx := []; sent := [];
             tx_faults := [Some (OSError "Broken pipe")];
             conns := [] |}
          session_world.

(** A reused device object: the session of [session_world], and a socket
    on which the next connection delivers the first message of the device,
    a notice of registered devices and the services list. *)
Definition reused_world : World :=
  with_ws {| rx := []; sent := []; tx_faults := [];
             conns := [ConnUp [ RxFrame "initialValues";
                                RxFrame "registeredDevices";
                                RxFrame "services" ]] |}
          session_world.

(** A new device object on the same socket. *)
Definition new_world : World :=
  with_ws (ws reused_world) fresh_world.

(** ** Kinds of inbound messages *)

(** The world once [handle_message] has printed the decoded message, which
    it does in debug mode only. *)
Definition after_rx (msg : pyval) (w : World) : World :=
  if debug (dev w) then log_line (LogRX msg) w else w.

(** A message without [code] whose action is RESPONSE or NOTIFY and whose
    resource is one of [resources]. *)
Definition response_for (resources : list string) (m : dict) : bool :=
  match dict_get (KStr "resource") m, dict_get (KStr "action") m with
  | Some resource, Some action =>
      negb (dict_mem (KStr "code") m)
      && negb (eq_str action "POST")
      && (eq_str action "RESPONSE" || eq_str action "NOTIFY")
      && existsb (eq_str resource) resources
  | _, _ => false
  end.

(** The first message of a device: a POST for [/ei/initialValues] without
    [code]. *)
Definition first_message (m : dict) : bool :=
  match dict_get (KStr "resource") m, dict_get (KStr "action") m with
  | Some resource, Some action =>
      negb (dict_mem (KStr "code") m)
      && eq_str action "POST"
      && eq_str resource "/ei/initialValues"
  | _, _ => false
  end.

(** [msg["data"][0]["edMsgID"]] *)
Definition first_counter {B : Builtins} (msg : pyval) : E pyval :=
  (data <- item msg "data" ;;
   first <- getitem data (PInt 0) ;;
   item first "edMsgID")%exn.

(** The answer [handle_message] gives to the first message [m] of a
    device, on behalf of the device object [d]. *)
Definition first_answer (d : HCDevice) (sID msgID resource version : pyval)
  : pyval :=
  PDict [ (KStr "sID", sID);
          (KStr "msgID", msgID);
          (KStr "resource", resource);
          (KStr "version", version);
          (KStr "action", PStr "RESPONSE");
          (KStr "data",
           PList [PDict [ (KStr "deviceType", PStr "Application");
                          (KStr "deviceName", PStr (device_name d));
                          (KStr "deviceID", PStr (device_id d)) ]]) ].

(** ** Lookups in the services table *)

(** The entry the last record of [records] for the service [k] gives. *)
Fixpoint latest (k : pykey) (records : list pyval) : option service_entry :=
  match records with
  | [] => None
  | service :: rest =>
      match latest k rest with
      | Some entry => Some entry
      | None =>
          match service_record service with
          | Some (k', entry) => if key_eqb k k' then Some entry else None
          | None => None
          end
      end
  end.

(** ** Dictionaries as the class builds them *)

(** No two items of [d] have keys that compare equal. *)
Fixpoint distinct_keys {V : Type} (d : list (pykey * V)) : bool :=
  match d with
  | [] => true
  | (k, _) :: d' => negb (dict_mem k d') && distinct_keys d'
  end.

(** Every key of [d] is a string. *)
Definition string_keys {V : Type} (d : list (pykey * V)) : bool :=
  forallb (fun kv => match fst kv with KStr _ => true | _ => false end) d.

(** ** Messages handed to the socket *)

(** [msg[key]] of a message as [ws.send] has taken it, if it is there. *)
Definition field (key : string) (msg : pyval) : option pyval :=
  match msg with
  | PDict d => dict_get (KStr key) d
  | _ => None
  end.

(** The message ids [n], [n + 1], ... of [k] messages in a row. *)
Definition ids_from (n : Z) (k : nat) : list (option pyval) :=
  map (fun i => Some (PInt (n + Z.of_nat i))) (seq 0 k).

(** The exception of [self.tx_msg_id += 1] on a counter that is no
    integer. *)
Definition counter_unset : exn :=
  TypeError "unsupported operand type(s) for +=".

(** ** Paths *)

(** [s] holds no ["/"]. *)
Fixpoint slashless (s : string) : bool :=
  match s with
  | EmptyString => true
  | String c s' => negb (Ascii.eqb c "/"%char) && slashless s'
  end.

(** ** What never changes *)

(** The configuration of the device object is as before, and the
    services, once discovered, stay so. *)
Definition configured (w w' : World) : Prop :=
  features (dev w') = features (dev w)
  /\ name (dev w') = name (dev w)
  /\ device_name (dev w') = device_name (dev w)
  /\ device_id (dev w') = device_id (dev w)
  /\ debug (dev w') = debug (dev w)
  /\ (services_initialized (dev w) = true ->
      services_initialized (dev w') = true).

(** A socket that accepts every message goes on doing so. *)
Definition accepting (w w' : World) : Prop :=
  tx_faults (ws w) = [] -> tx_faults (ws w') = [].

(** The socket is as before. *)
Definition same_ws (w w' : World) : Prop := ws w' = ws w.

(** The integer a message carries as [msgID], if it carries one. *)
Definition id_of (msg : pyval) : option Z :=
  match field "msgID" msg with
  | Some id => int_value id
  | None => None
  end.

(** The requests with which [reconnect] ends, in their order: resource and
    action. *)
Definition closing_requests : list (string * string) :=
  [ ("/ci/authentication", "GET");
    ("/ci/info", "GET");
    ("/iz/info", "GET");
    ("/ci/registeredDevices", "GET");
    ("/ei/deviceReady", "NOTIFY");
    ("/ni/info", "GET");
    ("/ro/allMandatoryValues", "GET") ].

(** ** More example data *)

(** The device tells who it is. *)
Definition msg_info : pyval :=
  PDict [ (KStr "sID", PInt 77);
          (KStr "msgID", PInt 26);
          (KStr "resource", PStr "/ci/info");
          (KStr "version", PInt 3);
          (KStr "action", PStr "RESPONSE");
          (KStr "data",
           PList [PDict [ (KStr "deviceID", PStr "SN-0042");
                          (KStr "brand", PStr "BOSCH") ]]) ].

(** The device reports its power state, twice, and the state of the
    door. *)
Definition msg_values : pyval :=
  PDict [ (KStr "sID", PInt 77);
          (KStr "msgID", PInt 27);
          (KStr "resource", PStr "/ro/values");
          (KStr "version", PInt 1);
          (KStr "action", PStr "NOTIFY");
          (KStr "data",
           PList [ PDict [(KStr "uid", PInt 539); (KStr "value", PInt 0)];
                   PDict [(KStr "uid", PInt 527); (KStr "value", PInt 2)];
                   PDict [(KStr "uid", PInt 539); (KStr "value", PInt 1)] ]) ].

(** The device answers the authentication. *)
Definition msg_authentication : pyval :=
  PDict [ (KStr "sID", PInt 77);
          (KStr "msgID", PInt 25);
          (KStr "resource", PStr "/ci/authentication");
          (KStr "version", PInt 3);
          (KStr "action", PStr "RESPONSE");
          (KStr "data", PList [PDict [(KStr "response", PStr "dG9rZW4")]]) ].

(** A first message that names the session and no counter. *)
Definition msg_no_counter : pyval :=
  PDict [ (KStr "sID", PInt 78);
          (KStr "msgID", PInt 1);
          (KStr "resource", PStr "/ei/initialValues");
          (KStr "version", PInt 2);
          (KStr "action", PStr "POST");
          (KStr "data", PList []) ].

(** A services list whose second record has no version. *)
Definition msg_services_short : pyval :=
  PDict [ (KStr "sID", PInt 77);
          (KStr "msgID", PInt 20);
          (KStr "resource", PStr "/ci/services");
          (KStr "version", PInt 1);
          (KStr "action", PStr "RESPONSE");
          (KStr "data",
           PList [ PDict [ (KStr "service", PStr "ci");
                           (KStr "version", PInt 3) ];
                   PDict [ (KStr "service", PStr "iz") ] ]) ].

(** A services list that names the service [ci] twice. *)
Definition msg_services_twice : pyval :=
  PDict [ (KStr "sID", PInt 77);
          (KStr "msgID", PInt 20);
          (KStr "resource", PStr "/ci/services");
          (KStr "version", PInt 1);
          (KStr "action", PStr "RESPONSE");
          (KStr "data",
           PList [ PDict [ (KStr "service", PStr "ci");
                           (KStr "version", PInt 1) ];
                   PDict [ (KStr "service", PStr "ni");
                           (KStr "version", PInt 1) ];
                   PDict [ (KStr "service", PStr "ci");
                           (KStr "version", PInt 2) ] ]) ].

(** A message without action. *)
Definition msg_no_action : pyval :=
  PDict [ (KStr "sID", PInt 77);
          (KStr "msgID", PInt 21);
          (KStr "resource", PStr "/ro/values");
          (KStr "code", PInt 400) ].

(** The decoder of the examples, with the frames of these messages. *)
Definition tour_loads (buf : string) : option pyval :=
  if String.eqb buf "info" then Some msg_info
  else if String.eqb buf "values" then Some msg_values
  else if String.eqb buf "authentication" then Some msg_authentication
  else if String.eqb buf "noCounter" then Some msg_no_counter
  else if String.eqb buf "servicesShort" then Some msg_services_short
  else if String.eqb buf "servicesTwice" then Some msg_services_twice
  else if String.eqb buf "noAction" then Some msg_no_action
  else demo_loads buf.

Definition tour_builtins : Builtins :=
  {| json_loads := tour_loads;
     py_repr := fun _ => "...";
     int_of_str := decimal |}.

(** A new device object on a socket whose next connection comes up and
    ends at once. *)
Definition silent_world : World :=
  with_ws {| rx := []; sent := []; tx_faults := [];
             conns := [ConnUp [RxClosed]] |}
          fresh_world.

(** The items of a message. *)
Definition items (msg : pyval) : dict :=
  match msg with
  | PDict d => d
  | _ => []
  end.

(** ** What a method returns *)

(** When [c] returns, what it returns satisfies [P]. *)
Definition returns {A : Type} (P : A -> Prop) (c : M A) : Prop :=
  forall w,
    match c w with
    | Ret a _ => P a
    | _ => True
    end.
(** * Properties *)

(** ** Running a method *)

Lemma bind_ret_l {A C : Type} (a : A) (k : A -> M C) (w : World) :
  bind (ret a) k w = k a w.
Proof. reflexivity. Qed.

Lemma bind_lift_inr {A C : Type} (c : E A) (a : A) (k : A -> M C) (w : World) :
  c = inr a -> bind (lift c) k w = k a w.
Proof. intros ->. reflexivity. Qed.

Lemma bind_lift_inl {A C : Type} (c : E A) (e : exn) (k : A -> M C) (w : World) :
  c = inl e -> bind (lift c) k w = Raise e w.
Proof. intros ->. reflexivity. Qed.

Lemma bind_raise {A C : Type} (e : exn) (k : A -> M C) (w : World) :
  bind (raise e) k w = Raise e w.
Proof. reflexivity. Qed.

Lemma bind_assoc {A C D : Type} (c : M A) (k : A -> M C) (h : C -> M D) (w : World) :
  bind (bind c k) h w = bind c (fun a => bind (k a) h) w.
Proof. unfold bind. destruct (c w); reflexivity. Qed.

Lemma item_dict (d : dict) (s : string) :
  item (PDict d) s =
  match dict_get (KStr s) d with
  | Some v => inr v
  | None => inl (KeyError (KStr s))
  end.
Proof. reflexivity. Qed.

Lemma str_in_dict (d : dict) (s : string) :
  str_in s (PDict d) = inr (dict_mem (KStr s) d).
Proof. reflexivity. Qed.

Lemma dict_mem_get {V : Type} (k : pykey) (d : list (pykey * V)) (v : V) :
  dict_get k d = Some v -> dict_mem k d = true.
Proof. unfold dict_mem. intros ->. reflexivity. Qed.

Lemma dict_mem_none {V : Type} (k : pykey) (d : list (pykey * V)) :
  dict_get k d = None -> dict_mem k d = false.
Proof. unfold dict_mem. intros ->. reflexivity. Qed.

(** A string key is found with a string index only in a dictionary. *)
Lemma item_inr_dict (c : pyval) (s : string) (v : pyval) :
  item c s = inr v -> exists d, c = PDict d /\ dict_get (KStr s) d = Some v.
Proof.
  destruct c as [| b | z | t | l | d]; cbn; try discriminate.
  intros H. exists d. split; [reflexivity |].
  destruct (dict_get (KStr s) d); [injection H as -> | discriminate].
  reflexivity.
Qed.

(** ** What a method leaves unchanged *)

Section Holds.
Variable blocking : bool.
Variable R : World -> World -> Prop.
Context {R_pre : PreOrder R}.

Lemma holds_world {A : Type} (c : M A) :
  holds blocking R c -> forall w, R w (world_of (c w)).
Proof.
  intros H w. specialize (H w). destruct (c w); cbn; try assumption.
  destruct blocking; [assumption | contradiction].
Qed.

Lemma holds_ret {A : Type} (a : A) : holds blocking R (ret a).
Proof. intros w. cbn. reflexivity. Qed.

Lemma holds_raise {A : Type} (e : exn) : holds blocking R (@raise A e).
Proof. intros w. cbn. reflexivity. Qed.

Lemma holds_lift {A : Type} (c : E A) : holds blocking R (lift c).
Proof. intros w. unfold lift. destruct c; reflexivity. Qed.

Lemma holds_self : holds blocking R self.
Proof. intros w. cbn. reflexivity. Qed.

Lemma holds_bind {A C : Type} (c : M A) (k : A -> M C) :
  holds blocking R c -> (forall a, holds blocking R (k a)) ->
  holds blocking R (bind c k).
Proof.
  intros Hc Hk w. unfold bind. specialize (Hc w).
  destruct (c w) as [a w1 | e w1 | w1]; try assumption.
  specialize (Hk a w1).
  destruct (k a w1) as [b w2 | e w2 | w2].
  - transitivity w1; assumption.
  - transitivity w1; assumption.
  - destruct blocking; [transitivity w1; assumption | contradiction].
Qed.

Lemma holds_try_except {A : Type} (c : M A) (h : exn -> M A) :
  holds blocking R c -> (forall e, holds blocking R (h e)) ->
  holds blocking R (try_except c h).
Proof.
  intros Hc Hh w. unfold try_except. specialize (Hc w).
  destruct (c w) as [a w1 | e w1 | w1]; try assumption.
  specialize (Hh e w1).
  destruct (h e w1) as [b w2 | e2 w2 | w2].
  - transitivity w1; assumption.
  - transitivity w1; assumption.
  - destruct blocking; [transitivity w1; assumption | contradiction].
Qed.

Lemma holds_for_each {A : Type} (l : list A) (body : A -> M unit) :
  (forall a, holds blocking R (body a)) ->
  holds blocking R (for_each l body).
Proof.
  intros Hbody. induction l as [| a l IH]; cbn.
  - apply holds_ret.
  - apply holds_bind; [apply Hbody | intros _; exact IH].
Qed.

Lemma holds_print (ev : log_event) :
  (forall w, R w (log_line ev w)) -> holds blocking R (print ev).
Proof. intros H w. cbn. apply H. Qed.

Lemma holds_update (f : HCDevice -> HCDevice) :
  (forall w, R w (with_dev (f (dev w)) w)) -> holds blocking R (update f).
Proof. intros H w. cbn. apply H. Qed.

Lemma holds_ws_send (msg : pyval) :
  (forall m w, R w (after_send m w)) -> holds blocking R (ws_send msg).
Proof.
  intros H w. unfold ws_send.
  destruct (tx_faults (ws w)) as [| [e |] rest]; apply H.
Qed.

End Holds.

Lemma holds_weaken {A : Type} (R : World -> World -> Prop) (c : M A) :
  holds false R c -> holds true R c.
Proof.
  intros H w. specialize (H w). destruct (c w); try assumption. contradiction.
Qed.

(** Follows the text of a method; [leaf] proves the facts about the
    primitive steps. *)
Ltac frame_step leaf :=
  lazymatch goal with
  | |- holds _ _ (ret _) => apply holds_ret; exact _
  | |- holds _ _ (raise _) => apply holds_raise; exact _
  | |- holds _ _ (lift _) => apply holds_lift; exact _
  | |- holds _ _ self => apply holds_self; exact _
  | |- holds _ _ (bind _ _) =>
      apply holds_bind; [exact _ | | intros ? ]
  | |- holds _ _ (try_except _ _) =>
      apply holds_try_except; [exact _ | | intros ? ]
  | |- holds _ _ (for_each _ _) =>
      apply holds_for_each; [exact _ | intros ? ]
  | |- holds _ _ (print _) => apply holds_print; intros ?; leaf
  | |- holds _ _ (update _) => apply holds_update; intros ?; leaf
  | |- holds _ _ (ws_send _) => apply holds_ws_send; intros ? ?; leaf
  | |- holds _ _ (if ?b then _ else _) => destruct b
  | |- holds _ _ (match ?x with _ => _ end) => destruct x
  end.

Ltac frame leaf := repeat (frame_step leaf).

#[local] Instance printed_pre : PreOrder printed.
Proof.
  split.
  - intros w. repeat split.
  - intros a b c (H1 & H2 & H3 & H4) (K1 & K2 & K3 & K4).
    repeat split; congruence.
Qed.

#[local] Instance handled_pre : PreOrder handled.
Proof.
  split.
  - intros w. repeat split. auto.
  - intros a b c (H1 & H2 & H3 & H4 & H5 & H6) (K1 & K2 & K3 & K4 & K5 & K6).
    repeat split; try congruence. auto.
Qed.

#[local] Instance requested_pre : PreOrder requested.
Proof.
  split.
  - intros w. repeat split.
  - intros a b c (H1 & H2 & H3 & H4 & H5) (K1 & K2 & K3 & K4 & K5).
    repeat split; congruence.
Qed.

Ltac leaf_printed := repeat split.
Ltac leaf_handled := repeat split; cbn; auto.
Ltac leaf_requested := repeat split.

Section Frames.
Context {B : Builtins}.

Lemma test_feature_record_printed (data : pyval) :
  holds false printed (test_feature_record data).
Proof. unfold test_feature_record. frame leaf_printed. Qed.

Lemma test_feature_printed (data_array : pyval) :
  holds false printed (test_feature data_array).
Proof.
  unfold test_feature. frame_step leaf_printed; [frame_step leaf_printed |].
  frame_step leaf_printed. apply test_feature_record_printed.
Qed.

Lemma validate_printed (resource action : string) (data : pyval) :
  holds false printed (validate resource action data).
Proof.
  unfold validate.
  destruct (String.eqb action "POST"); [| frame leaf_printed].
  destruct (String.eqb resource "/ro/values"); [apply test_feature_printed |].
  frame leaf_printed.
Qed.

Lemma resolve_version_printed (resource : string) (version : pyval) :
  holds false printed (resolve_version resource version).
Proof. unfold resolve_version. frame leaf_printed. Qed.

Lemma printed_handled (w w' : World) : printed w w' -> handled w w'.
Proof.
  intros (H1 & H2 & H3 & H4). unfold handled.
  rewrite H1, H2. repeat split; auto.
Qed.

Lemma printed_requested (w w' : World) : printed w w' -> requested w w'.
Proof.
  intros (H1 & H2 & H3 & H4). unfold requested.
  rewrite H1, H2. repeat split; auto.
Qed.

Lemma holds_mono {A : Type} (blocking : bool) (R S : World -> World -> Prop)
  (c : M A) :
  (forall w w', R w w' -> S w w') -> holds blocking R c -> holds blocking S c.
Proof.
  intros HRS H w. specialize (H w).
  destruct (c w); auto. destruct blocking; auto.
Qed.

Lemma reply_handled (msg answer : pyval) :
  holds false handled (reply msg answer).
Proof. unfold reply. frame leaf_handled. Qed.

Lemma register_service_handled (service : pyval) :
  holds false handled (register_service service).
Proof. unfold register_service. frame leaf_handled. Qed.

Lemma handle_message_handled (buf : string) :
  holds false handled (handle_message buf).
Proof.
  unfold handle_message.
  repeat first
    [ apply reply_handled
    | apply holds_for_each; [exact _ | intros ?; apply register_service_handled]
    | frame_step leaf_handled ].
Qed.

Lemma get_requested (resource : string) (version : option pyval)
  (action : option string) (data : pyval) :
  holds false requested (get resource version action data).
Proof.
  unfold get, send_counted.
  repeat first
    [ apply (holds_mono false printed requested _ printed_requested);
      apply resolve_version_printed
    | apply (holds_mono false printed requested _ printed_requested);
      apply validate_printed
    | frame_step leaf_requested ].
Qed.

End Frames.

(** ** The dispatcher *)

Section Dispatcher.
Context {B : Builtins}.

(** C8: a decoded message that holds [resource], [action] and [code] is
    answered with exactly [{"error": code, "resource": resource}], whatever
    its action and resource say, and neither the device object nor the
    socket changes: the only effect is the line printed in debug mode. *)
Theorem handle_message_code (w : World) (buf : string) (m : dict)
  (resource action code : pyval) :
  json_loads buf = Some (PDict m) ->
  dict_get (KStr "resource") m = Some resource ->
  dict_get (KStr "action") m = Some action ->
  dict_get (KStr "code") m = Some code ->
  handle_message buf w =
    Ret (PDict [(KStr "error", code); (KStr "resource", resource)])
        (if debug (dev w) then log_line (LogRX (PDict m)) w else w)
  /\ dev (world_of (handle_message buf w)) = dev w
  /\ ws (world_of (handle_message buf w)) = ws w.
Proof.
  intros Hbuf Hres Hact Hcode.
  assert (Hrun : handle_message buf w =
    Ret (PDict [(KStr "error", code); (KStr "resource", resource)])
        (if debug (dev w) then log_line (LogRX (PDict m)) w else w)).
  { unfold handle_message. rewrite Hbuf.
    rewrite (bind_lift_inr _ (PDict m)) by reflexivity.
    unfold bind at 1. unfold self at 1.
    set (w1 := if debug (dev w) then log_line (LogRX (PDict m)) w else w).
    assert (Hdbg : (if debug (dev w) then print (LogRX (PDict m)) else ret tt) w
                   = Ret tt w1).
    { unfold w1. destruct (debug (dev w)); reflexivity. }
    unfold bind at 1. rewrite Hdbg.
    rewrite (bind_lift_inr _ resource) by (rewrite item_dict, Hres; reflexivity).
    rewrite (bind_lift_inr _ action) by (rewrite item_dict, Hact; reflexivity).
    rewrite (bind_lift_inr _ true)
      by (rewrite str_in_dict, (dict_mem_get _ _ _ Hcode); reflexivity).
    rewrite (bind_lift_inr _ code) by (rewrite item_dict, Hcode; reflexivity).
    rewrite (bind_lift_inr _ resource) by (cbn; rewrite Hres; reflexivity).
    reflexivity. }
  rewrite Hrun. cbn.
  destruct (debug (dev w)); repeat split; reflexivity.
Qed.

End Dispatcher.

Lemma handle_message_code_witness :
  handle_message (B := demo_builtins) "error" fresh_world =
    Ret (PDict [(KStr "error", PInt 404); (KStr "resource", PStr "/ro/values")])
        fresh_world
  /\ dev (world_of (handle_message (B := demo_builtins) "error" fresh_world))
     = dev fresh_world
  /\ ws (world_of (handle_message (B := demo_builtins) "error" fresh_world))
     = ws fresh_world.
Proof.
  exact (handle_message_code (B := demo_builtins) fresh_world "error"
           [ (KStr "sID", PInt 77);
             (KStr "msgID", PInt 21);
             (KStr "resource", PStr "/ro/values");
             (KStr "version", PInt 1);
             (KStr "action", PStr "RESPONSE");
             (KStr "code", PInt 404) ]
           (PStr "/ro/values") (PStr "RESPONSE") (PInt 404)
           eq_refl eq_refl eq_refl eq_refl).
Defined.

(** ** The receive wrapper *)

Section Receive.
Context {B : Builtins}.

Lemma handle_message_never_blocks (buf : string) (w w' : World) :
  handle_message buf w <> Blocked w'.
Proof.
  intros H. pose proof (handle_message_handled buf w) as Hh.
  rewrite H in Hh. exact Hh.
Qed.

(** [recv], event by event. *)
Lemma recv_unfold (w : World) :
  recv w =
  match rx (ws w) with
  | [] => Blocked w
  | RxClosed :: _ => Ret PNone (pop_rx w)
  | RxError e :: _ => Ret PNone (log_line (LogReceiveError e) (pop_rx w))
  | RxFrame buf :: _ =>
      match handle_message buf (pop_rx w) with
      | Ret values w' => Ret values w'
      | Raise e w' => Ret PNone (log_line (LogErrorHandling e buf) w')
      | Blocked w' => Blocked w'
      end
  end.
Proof.
  unfold recv, bind, try_except, ws_recv.
  destruct (rx (ws w)) as [| [buf | | e] rest]; reflexivity.
Qed.

(** C7: [recv] never raises.  When the stream has ended it returns [None]
    and prints nothing; when the socket raises it prints the error and
    returns [None]; an exception of [handle_message] is printed and turned
    into [None]; and a frame that [json.loads] rejects leaves the device
    object as it was. *)
Theorem recv_never_raises (w : World) :
  (forall e w', recv w <> Raise e w')
  /\ (forall rest, rx (ws w) = RxClosed :: rest ->
        recv w = Ret PNone (pop_rx w))
  /\ (forall e rest, rx (ws w) = RxError e :: rest ->
        recv w = Ret PNone (log_line (LogReceiveError e) (pop_rx w)))
  /\ (forall buf rest e w', rx (ws w) = RxFrame buf :: rest ->
        handle_message buf (pop_rx w) = Raise e w' ->
        recv w = Ret PNone (log_line (LogErrorHandling e buf) w'))
  /\ (forall buf rest, rx (ws w) = RxFrame buf :: rest ->
        json_loads buf = None ->
        recv w = Ret PNone
                   (log_line (LogErrorHandling JSONDecodeError buf) (pop_rx w))
        /\ dev (world_of (recv w)) = dev w).
Proof.
  rewrite recv_unfold.
  split; [| split; [| split; [| split]]].
  - intros e w'.
    destruct (rx (ws w)) as [| [buf | | e0] rest]; try discriminate.
    destruct (handle_message buf (pop_rx w)); discriminate.
  - intros rest ->. reflexivity.
  - intros e rest ->. reflexivity.
  - intros buf rest e w' -> ->. reflexivity.
  - intros buf rest -> Hbad.
    assert (Hrun : handle_message buf (pop_rx w)
                   = Raise JSONDecodeError (pop_rx w)).
    { unfold handle_message. rewrite Hbad. reflexivity. }
    rewrite Hrun. split; reflexivity.
Qed.

End Receive.

(** In the middle of a session a frame arrives that is no JSON text: the
    error is printed, [recv] returns [None], and the device object is the
    one of the session. *)
Lemma recv_never_raises_witness :
  recv (B := demo_builtins)
       (with_ws (with_rx [RxFrame "not json"] quiet_socket) session_world)
  = Ret PNone
        (log_line (LogErrorHandling JSONDecodeError "not json") session_world)
  /\ dev (world_of
            (recv (B := demo_builtins)
               (with_ws (with_rx [RxFrame "not json"] quiet_socket)
                        session_world)))
     = session_device.
Proof.
  exact (proj2 (proj2 (proj2 (proj2
           (recv_never_raises (B := demo_builtins)
              (with_ws (with_rx [RxFrame "not json"] quiet_socket)
                       session_world)))))
           "not json" [] eq_refl eq_refl).
Defined.

(** ** Requests *)

Section Requests.
Context {B : Builtins}.

Lemma resolve_version_run (resource : string) (version : pyval) (w : World) :
  resolve_version resource version w =
  if services_initialized (dev w) then
    match segment resource with
    | Some service =>
        match dict_get (KStr service) (services (dev w)) with
        | Some entry => Ret (entry_version entry) w
        | None => Ret version (log_line LogServiceNotKnown w)
        end
    | None => Ret version w
    end
  else Ret version w.
Proof.
  unfold resolve_version, segment, bind, self.
  destruct (services_initialized (dev w)); [| reflexivity].
  destruct (1 <? length (split "/" resource))%nat; [| reflexivity].
  destruct (dict_get (KStr (nth 1 (split "/" resource) "")) (services (dev w)));
    reflexivity.
Qed.

(** [resolve_version] returns, and only prints. *)
Lemma resolve_version_ret (resource : string) (version : pyval) (w : World) :
  exists v w', resolve_version resource version w = Ret v w' /\ printed w w'.
Proof.
  rewrite resolve_version_run.
  destruct (services_initialized (dev w)).
  - destruct (segment resource) as [service |].
    + destruct (dict_get (KStr service) (services (dev w))) as [entry |];
        eexists; eexists; (split; [reflexivity | repeat split]).
    + eexists; eexists; (split; [reflexivity | repeat split]).
  - eexists; eexists; (split; [reflexivity | repeat split]).
Qed.

Lemma get_run (resource : string) (version : option pyval)
  (action : option string) (data : pyval) (w w1 : World) (v : pyval) :
  resolve_version resource (version_arg version) w = Ret v w1 ->
  get resource version action data w =
  match data with
  | PNone => send_counted (envelope (dev w1) resource v (action_arg action)) w1
  | _ =>
      match validate resource (action_arg action) (as_list data) w1 with
      | Ret _ w2 =>
          send_counted
            (dict_set (KStr "data") (as_list data)
               (envelope (dev w1) resource v (action_arg action))) w2
      | Raise e w2 => Raise e w2
      | Blocked w2 => Blocked w2
      end
  end.
Proof.
  intros Hv. unfold get. unfold bind at 1. rewrite Hv.
  unfold bind at 1. unfold self at 1.
  destruct data; try reflexivity;
    unfold bind at 1; unfold bind at 1;
    match goal with
    | |- context [validate ?r ?a ?d w1] => destruct (validate r a d w1)
    end; reflexivity.
Qed.

Lemma send_counted_run (msg : dict) (w : World) (n : Z) :
  int_value (tx_msg_id (dev w)) = Some n ->
  send_counted msg w =
  Ret tt (with_dev (set_tx_msg_id (PInt (n + 1)) (dev w))
                   (after_try_send (PDict msg) w)).
Proof.
  intros Hn. unfold send_counted, after_try_send, bind, try_except, ws_send.
  destruct (tx_faults (ws w)) as [| [e |] rest]; cbn;
    unfold lift, add_one; rewrite Hn; reflexivity.
Qed.

Lemma get_stops_at_validation (w w1 w2 : World) (resource : string)
  (version : option pyval) (action : option string) (data : pyval)
  (v : pyval) (e : exn) :
  data <> PNone ->
  resolve_version resource (version_arg version) w = Ret v w1 ->
  validate resource (action_arg action) (as_list data) w1 = Raise e w2 ->
  get resource version action data w = Raise e w2
  /\ tx_msg_id (dev w2) = tx_msg_id (dev w)
  /\ dev w2 = dev w
  /\ ws w2 = ws w.
Proof.
  intros Hdata Hv Hval.
  assert (Hrun : get resource version action data w = Raise e w2).
  { rewrite (get_run _ _ _ _ _ _ _ Hv).
    destruct data; try contradiction; rewrite Hval; reflexivity. }
  destruct (resolve_version_ret resource (version_arg version) w)
    as (v' & w1' & Hv' & Hp1).
  rewrite Hv in Hv'. injection Hv' as <- <-.
  pose proof (validate_printed resource (action_arg action) (as_list data) w1)
    as Hp2.
  rewrite Hval in Hp2.
  destruct Hp1 as (D1 & S1 & _), Hp2 as (D2 & S2 & _).
  repeat split; congruence.
Qed.

(** C9: when the checks on the payload raise, [get] raises the same
    exception and stops there: the message counter, like every field of the
    device object, is as before the call, and the socket was not used. *)
Theorem get_validation_raises (w w1 w2 : World) (resource : string)
  (version : option pyval) (action : option string) (data : pyval)
  (v : pyval) (e : exn) :
  data <> PNone ->
  resolve_version resource (version_arg version) w = Ret v w1 ->
  validate resource (action_arg action) (as_list data) w1 = Raise e w2 ->
  get resource version action data w = Raise e w2
  /\ tx_msg_id (dev w2) = tx_msg_id (dev w)
  /\ dev w2 = dev w
  /\ ws w2 = ws w.
Proof. apply get_stops_at_validation. Qed.

End Requests.

Lemma get_validation_raises_witness :
  get (B := demo_builtins) "/ro/values" None (Some "POST")
      (PDict [(KStr "uid", PInt 527); (KStr "value", PInt 1)]) session_world
  = Raise
      (PyException
         ("Unable to configure appliance. Feature BSH.Common.Status.DoorState"
            ++ " with uid 527 has got access read."))
      (log_line (LogProcessingFeature "BSH.Common.Status.DoorState" "527")
                (log_line LogServiceNotKnown session_world))
  /\ tx_msg_id
       (dev (log_line (LogProcessingFeature "BSH.Common.Status.DoorState" "527")
                      (log_line LogServiceNotKnown session_world)))
     = PInt 25.
Proof.
  pose proof
    (get_validation_raises (B := demo_builtins) session_world
       (log_line LogServiceNotKnown session_world)
       (log_line (LogProcessingFeature "BSH.Common.Status.DoorState" "527")
                 (log_line LogServiceNotKnown session_world))
       "/ro/values" None (Some "POST")
       (PDict [(KStr "uid", PInt 527); (KStr "value", PInt 1)]) (PInt 1)
       (PyException
          ("Unable to configure appliance. Feature BSH.Common.Status.DoorState"
             ++ " with uid 527 has got access read."))
       ltac:(discriminate) eq_refl eq_refl) as H.
  exact (conj (proj1 H) (proj1 (proj2 H))).
Defined.

(** ** The services list *)

Section Services.
Context {B : Builtins}.

Lemma register_service_run (service : pyval) (key : pykey)
  (entry : service_entry) (w : World) :
  service_record service = Some (key, entry) ->
  register_service service w =
  Ret tt (with_dev (set_services (dict_set key entry (services (dev w)))
                                 (dev w)) w).
Proof.
  unfold service_record, register_service. intros H.
  destruct (item service "version") as [e | version] eqn:Hv; [discriminate |].
  destruct (item service "service") as [e | sname] eqn:Hs; [discriminate |].
  destruct (key_of sname) as [e | k] eqn:Hk; [discriminate |].
  injection H as <- <-.
  rewrite (bind_lift_inr _ version) by reflexivity.
  rewrite (bind_lift_inr _ sname) by reflexivity.
  rewrite (bind_lift_inr _ k) by exact Hk.
  reflexivity.
Qed.

Lemma for_each_register (records : list pyval) :
  forall (w : World) (table : list (pykey * service_entry)),
    registered records (services (dev w)) = Some table ->
    for_each records register_service w =
    Ret tt (with_dev (set_services table (dev w)) w).
Proof.
  induction records as [| service rest IH]; intros w table H; cbn in H.
  - injection H as <-. destruct w as [[] ? ? ? ?]. reflexivity.
  - destruct (service_record service) as [[key entry] |] eqn:Hrec;
      [| discriminate].
    cbn. unfold bind. rewrite (register_service_run _ _ _ _ Hrec).
    rewrite (IH _ table) by exact H. reflexivity.
Qed.

(** A well-formed services list fills [self.services] and sets
    [services_initialized]. *)
Lemma handle_message_services (w : World) (buf : string) (m : dict)
  (data : pyval) (records : list pyval)
  (table : list (pykey * service_entry)) :
  json_loads buf = Some (PDict m) ->
  services_message m = true ->
  dict_get (KStr "data") m = Some data ->
  iter data = inr records ->
  registered records (services (dev w)) = Some table ->
  exists w',
    handle_message buf w = Ret (PDict []) w'
    /\ dev w' = set_services_initialized true (set_services table (dev w))
    /\ ws w' = ws w.
Proof.
  intros Hbuf Hmsg Hdata Hiter Hreg.
  unfold services_message in Hmsg.
  destruct (dict_get (KStr "resource") m) as [resource |] eqn:Hres;
    [| discriminate].
  destruct (dict_get (KStr "action") m) as [action |] eqn:Hact;
    [| discriminate].
  apply andb_prop in Hmsg as [Hmsg Hci].
  apply andb_prop in Hmsg as [Hmsg Hresp].
  apply andb_prop in Hmsg as [Hcode Hpost].
  apply negb_true_iff in Hcode, Hpost.
  set (w1 := if debug (dev w) then log_line (LogRX (PDict m)) w else w).
  assert (Hdev1 : dev w1 = dev w) by (unfold w1; destruct (debug (dev w)); reflexivity).
  assert (Hws1 : ws w1 = ws w) by (unfold w1; destruct (debug (dev w)); reflexivity).
  exists (with_dev (set_services_initialized true (set_services table (dev w1))) w1).
  split; [| split; [cbn; rewrite Hdev1; reflexivity | cbn; exact Hws1]].
  unfold handle_message. rewrite Hbuf.
  rewrite (bind_lift_inr _ (PDict m)) by reflexivity.
  unfold bind at 1. unfold self at 1.
  assert (Hdbg : (if debug (dev w) then print (LogRX (PDict m)) else ret tt) w
                 = Ret tt w1).
  { unfold w1. destruct (debug (dev w)); reflexivity. }
  unfold bind at 1. rewrite Hdbg.
  rewrite (bind_lift_inr _ resource) by (rewrite item_dict, Hres; reflexivity).
  rewrite (bind_lift_inr _ action) by (rewrite item_dict, Hact; reflexivity).
  rewrite (bind_lift_inr _ false) by (rewrite str_in_dict, Hcode; reflexivity).
  rewrite Hpost, Hresp.
  assert (Hr : forall s, negb (String.eqb s "/ci/services") = true ->
                         eq_str resource s = false).
  { intros s Hs. destruct resource; try reflexivity. cbn in Hci |- *.
    apply String.eqb_eq in Hci. subst s0.
    apply negb_true_iff in Hs. rewrite String.eqb_sym. exact Hs. }
  rewrite !Hr by reflexivity. rewrite Hci. cbn [orb].
  rewrite (bind_lift_inr _ data) by (rewrite item_dict, Hdata; reflexivity).
  rewrite (bind_lift_inr _ records) by exact Hiter.
  unfold bind at 1.
  rewrite (for_each_register records w1 table) by (rewrite Hdev1; exact Hreg).
  reflexivity.
Qed.

End Services.

(** ** Versions and message counters of requests *)

Section Envelopes.
Context {B : Builtins}.

Lemma request_ids (d : HCDevice) (resource : string) (version : pyval)
  (action : string) (data : pyval) :
  dict_get (KStr "sID") (request d resource version action data)
  = Some (session_id d)
  /\ dict_get (KStr "msgID") (request d resource version action data)
     = Some (tx_msg_id d)
  /\ dict_get (KStr "version") (request d resource version action data)
     = Some version.
Proof. unfold request. destruct data; repeat split. Qed.

(** A call of [get] whose payload passes the checks. *)
Lemma get_passes (w w1 w2 : World) (resource : string)
  (version : option pyval) (action : option string) (data v : pyval) (n : Z) :
  int_value (tx_msg_id (dev w)) = Some n ->
  resolve_version resource (version_arg version) w = Ret v w1 ->
  match data with
  | PNone => w2 = w1
  | _ => validate resource (action_arg action) (as_list data) w1 = Ret tt w2
  end ->
  get resource version action data w =
  Ret tt (with_dev (set_tx_msg_id (PInt (n + 1)) (dev w))
            (after_try_send
               (PDict (request (dev w) resource v (action_arg action) data))
               w2)).
Proof.
  intros Hn Hv Hpass.
  destruct (resolve_version_ret resource (version_arg version) w)
    as (v' & w1' & Hv' & (D1 & S1 & _)).
  rewrite Hv in Hv'. injection Hv' as <- <-.
  rewrite (get_run _ _ _ _ _ _ _ Hv).
  assert (D2 : dev w2 = dev w).
  { destruct data as [| b | z | s | l | d]; try (subst w2; exact D1);
      match type of Hpass with
      | validate _ _ ?p _ = _ =>
          pose proof (validate_printed resource (action_arg action) p w1) as Hp
      end;
      rewrite Hpass in Hp; destruct Hp as (D2 & _); congruence. }
  assert (Hn2 : int_value (tx_msg_id (dev w2)) = Some n) by (rewrite D2; exact Hn).
  unfold request.
  destruct data; try rewrite Hpass; try subst w2;
    rewrite (send_counted_run _ _ n) by assumption;
    rewrite ?D1, ?D2; reflexivity.
Qed.

Lemma get_counter (w : World) (resource : string) (version : option pyval)
  (action : option string) (n : Z) :
  int_value (tx_msg_id (dev w)) = Some n ->
  exists w', get resource version action PNone w = Ret tt w'
             /\ tx_msg_id (dev w') = PInt (n + 1).
Proof.
  intros Hn.
  destruct (resolve_version_ret resource (version_arg version) w)
    as (v & w1 & Hv & _).
  eexists. split.
  - apply (get_passes w w1 w1 _ _ _ PNone v n Hn Hv). reflexivity.
  - reflexivity.
Qed.

Lemma gets_counter (calls : list (string * option pyval * option string)) :
  forall (w : World) (n : Z),
    int_value (tx_msg_id (dev w)) = Some n ->
    exists w', gets calls w = Ret tt w'
               /\ int_value (tx_msg_id (dev w'))
                  = Some (n + Z.of_nat (length calls))%Z.
Proof.
  unfold gets.
  induction calls as [| [[resource version] action] rest IH]; intros w n Hn.
  - exists w. split; [reflexivity |]. rewrite Hn. f_equal. cbn. lia.
  - destruct (get_counter w resource version action n Hn) as (w1 & Hget & Hid).
    destruct (IH w1 (n + 1)%Z) as (w2 & Hrest & Hid2).
    { rewrite Hid. reflexivity. }
    exists w2. split.
    + cbn. unfold bind. rewrite Hget. exact Hrest.
    + rewrite Hid2. f_equal. cbn [length]. lia.
Qed.

End Envelopes.

Section RequestClaims.
Context {B : Builtins}.

(** C2 (amended): once the message counter holds an integer [n], a call of
    [get] whose payload passes the checks hands to the socket a message with
    the session id and the counter of the device object, and leaves the
    counter at [n + 1], also when [ws.send] raises; a run of such calls
    counts one by one.  [reply] instead sends the ids of the message it
    answers and leaves the counter alone. *)
Theorem get_carries_and_counts (w : World) :
  (forall (w1 w2 : World) (resource : string) (version : option pyval)
          (action : option string) (data v : pyval) (n : Z),
      int_value (tx_msg_id (dev w)) = Some n ->
      resolve_version resource (version_arg version) w = Ret v w1 ->
      match data with
      | PNone => w2 = w1
      | _ => validate resource (action_arg action) (as_list data) w1
             = Ret tt w2
      end ->
      get resource version action data w =
      Ret tt (with_dev (set_tx_msg_id (PInt (n + 1)) (dev w))
                (after_try_send
                   (PDict (request (dev w) resource v (action_arg action) data))
                   w2))
      /\ dict_get (KStr "sID")
           (request (dev w) resource v (action_arg action) data)
         = Some (session_id (dev w))
      /\ dict_get (KStr "msgID")
           (request (dev w) resource v (action_arg action) data)
         = Some (tx_msg_id (dev w)))
  /\ (forall (calls : list (string * option pyval * option string)) (n : Z),
        int_value (tx_msg_id (dev w)) = Some n ->
        exists w', gets calls w = Ret tt w'
                   /\ int_value (tx_msg_id (dev w'))
                      = Some (n + Z.of_nat (length calls))%Z)
  /\ (forall (msg answer sID msgID resource version : pyval),
        item msg "sID" = inr sID ->
        item msg "msgID" = inr msgID ->
        item msg "resource" = inr resource ->
        item msg "version" = inr version ->
        reply msg answer w =
        ws_send (PDict [ (KStr "sID", sID);
                         (KStr "msgID", msgID);
                         (KStr "resource", resource);
                         (KStr "version", version);
                         (KStr "action", PStr "RESPONSE");
                         (KStr "data", PList [answer]) ]) w
        /\ dev (world_of (reply msg answer w)) = dev w).
Proof.
  split; [| split].
  - intros w1 w2 resource version action data v n Hn Hv Hpass.
    split; [exact (get_passes w w1 w2 _ _ _ _ _ n Hn Hv Hpass) |].
    split; apply request_ids.
  - intros calls n Hn. apply gets_counter. exact Hn.
  - intros msg answer sID msgID resource version H1 H2 H3 H4.
    assert (Hrun : reply msg answer w =
                   ws_send (PDict [ (KStr "sID", sID);
                                    (KStr "msgID", msgID);
                                    (KStr "resource", resource);
                                    (KStr "version", version);
                                    (KStr "action", PStr "RESPONSE");
                                    (KStr "data", PList [answer]) ]) w).
    { unfold reply.
      rewrite (bind_lift_inr _ sID) by exact H1.
      rewrite (bind_lift_inr _ msgID) by exact H2.
      rewrite (bind_lift_inr _ resource) by exact H3.
      rewrite (bind_lift_inr _ version) by exact H4.
      reflexivity. }
    split; [exact Hrun |].
    rewrite Hrun. unfold ws_send.
    destruct (tx_faults (ws w)) as [| [e |] rest]; reflexivity.
Qed.

(** C4 (amended): the version [get] puts in the envelope is the argument of
    the call (or its default) until the services are discovered; from then
    on it is the version [self.services] holds for the top-level segment of
    the path, whether or not the call gave a version; when the segment is
    not in [self.services] a line is printed and the argument of the call is
    used, and so it is, silently, when the path has no segment.  After a
    services list [[{"service": "ci", "version": 3}]], a request for
    [/ci/info] without version goes out with version 3. *)
Theorem get_version_resolution (w : World) (resource : string)
  (version : option pyval) :
  (services_initialized (dev w) = false ->
     resolve_version resource (version_arg version) w
     = Ret (version_arg version) w)
  /\ (forall entry,
        services_initialized (dev w) = true ->
        known_service (dev w) resource = Some entry ->
        resolve_version resource (version_arg version) w
        = Ret (entry_version entry) w)
  /\ (forall service,
        services_initialized (dev w) = true ->
        segment resource = Some service ->
        dict_get (KStr service) (services (dev w)) = None ->
        resolve_version resource (version_arg version) w
        = Ret (version_arg version) (log_line LogServiceNotKnown w))
  /\ (services_initialized (dev w) = true ->
      segment resource = None ->
      resolve_version resource (version_arg version) w
      = Ret (version_arg version) w)
  /\ (forall (action : option string) (data v : pyval) (w1 : World),
        resolve_version resource (version_arg version) w = Ret v w1 ->
        get resource version action data w =
        match data with
        | PNone =>
            send_counted
              (request (dev w) resource v (action_arg action) data) w1
        | _ =>
            match validate resource (action_arg action) (as_list data) w1 with
            | Ret _ w2 =>
                send_counted
                  (request (dev w) resource v (action_arg action) data) w2
            | Raise e w2 => Raise e w2
            | Blocked w2 => Blocked w2
            end
        end
        /\ dict_get (KStr "version")
             (request (dev w) resource v (action_arg action) data)
           = Some v)
  /\ (forall (buf : string) (m : dict),
        json_loads buf = Some (PDict m) ->
        services_message m = true ->
        dict_get (KStr "data") m
        = Some (PList [PDict [ (KStr "service", PStr "ci");
                               (KStr "version", PInt 3) ]]) ->
        exists w',
          handle_message buf w = Ret (PDict []) w'
          /\ services_initialized (dev w') = true
          /\ dict_get (KStr "ci") (services (dev w'))
             = Some {| entry_version := PInt 3 |}
          /\ get "/ci/info" None None PNone w'
             = send_counted
                 (request (dev w') "/ci/info" (PInt 3) "GET" PNone) w').
Proof.
  unfold known_service.
  repeat match goal with |- _ /\ _ => split end.
  - intros H. rewrite resolve_version_run, H. reflexivity.
  - intros entry H Hk. rewrite resolve_version_run, H.
    destruct (segment resource) as [service |]; [| discriminate].
    rewrite Hk. reflexivity.
  - intros service H Hs Hk. rewrite resolve_version_run, H, Hs, Hk.
    reflexivity.
  - intros H Hs. rewrite resolve_version_run, H, Hs. reflexivity.
  - intros action data v w1 Hv. split; [| apply request_ids].
    rewrite (get_run _ _ _ _ _ _ _ Hv).
    destruct (resolve_version_ret resource (version_arg version) w)
      as (v' & w1' & Hv' & (D1 & _)).
    rewrite Hv in Hv'. injection Hv' as <- <-. rewrite D1.
    destruct data; reflexivity.
  - intros buf m Hbuf Hmsg Hdata.
    assert (Hci : dict_get (KStr "ci")
                    (dict_set (KStr "ci") {| entry_version := PInt 3 |}
                       (services (dev w)))
                  = Some {| entry_version := PInt 3 |}).
    { induction (services (dev w)) as [| [k e] t IH]; [reflexivity |].
      cbn [dict_set]. destruct (key_eqb (KStr "ci") k) eqn:Hk.
      - cbn [dict_get]. rewrite Hk. reflexivity.
      - cbn [dict_get]. rewrite Hk. exact IH. }
    destruct (handle_message_services w buf m _ _ _ Hbuf Hmsg Hdata
                eq_refl eq_refl) as (w' & Hrun & Hdev & Hws).
    exists w'. split; [exact Hrun |].
    assert (Hflag : services_initialized (dev w') = true)
      by (rewrite Hdev; reflexivity).
    assert (Hentry : dict_get (KStr "ci") (services (dev w'))
                     = Some {| entry_version := PInt 3 |})
      by (rewrite Hdev; exact Hci).
    split; [exact Hflag |]. split; [exact Hentry |].
    assert (Hv : resolve_version "/ci/info" (version_arg None) w'
                 = Ret (PInt 3) w').
    { rewrite resolve_version_run, Hflag.
      change (segment "/ci/info") with (Some "ci"). cbv beta iota.
      rewrite Hentry. reflexivity. }
    rewrite (get_run _ _ _ _ _ _ _ Hv). reflexivity.
Qed.

End RequestClaims.

(** A request in the middle of the session goes out with session 77 and
    message id 25 and leaves the counter at 26; on a socket whose [send]
    raises, nothing goes out, the failure is printed, and the counter is at
    26 all the same. *)
Lemma get_carries_and_counts_witness :
  get (B := demo_builtins) "/ci/info" None None PNone session_world
  = Ret tt (with_dev (set_tx_msg_id (PInt 26) session_device)
              (with_ws (with_sent
                          [PDict [ (KStr "sID", PInt 77);
                                   (KStr "msgID", PInt 25);
                                   (KStr "resource", PStr "/ci/info");
                                   (KStr "version", PInt 3);
                                   (KStr "action", PStr "GET") ]]
                          quiet_socket)
                       session_world))
  /\ get (B := demo_builtins) "/ci/info" None None PNone broken_world
     = Ret tt (with_dev (set_tx_msg_id (PInt 26) session_device)
                 (log_line
                    (LogFailedToSend (OSError "Broken pipe")
                       (PDict [ (KStr "sID", PInt 77);
                                (KStr "msgID", PInt 25);
                                (KStr "resource", PStr "/ci/info");
                                (KStr "version", PInt 3);
                                (KStr "action", PStr "GET") ]))
                    session_world)).
Proof.
  split.
  - exact (proj1 (proj1 (get_carries_and_counts (B := demo_builtins)
                           session_world)
                    session_world session_world "/ci/info" None None PNone
                    (PInt 3) 25%Z eq_refl eq_refl eq_refl)).
  - exact (proj1 (proj1 (get_carries_and_counts (B := demo_builtins)
                           broken_world)
                    broken_world broken_world "/ci/info" None None PNone
                    (PInt 3) 25%Z eq_refl eq_refl eq_refl)).
Defined.

(** The answer to the first message of the device goes out with the
    message id of that message, 1, when the counter already is 20, and the
    counter stays at 20; and an answer in the middle of a session leaves
    the counter at 25 while it carries the id 21. *)
Lemma reply_echoes_inbound_ids :
  tx_msg_id (dev (world_of (handle_message (B := demo_builtins)
                              "initialValues" fresh_world)))
  = PInt 20
  /\ sent (ws (world_of (handle_message (B := demo_builtins)
                           "initialValues" fresh_world)))
     = [ PDict [ (KStr "sID", PInt 77);
                 (KStr "msgID", PInt 1);
                 (KStr "resource", PStr "/ei/initialValues");
                 (KStr "version", PInt 2);
                 (KStr "action", PStr "RESPONSE");
                 (KStr "data",
                  PList [PDict [ (KStr "deviceType", PStr "Application");
                                 (KStr "deviceName", PStr "hcpy");
                                 (KStr "deviceID", PStr "0badcafe") ]]) ] ]
  /\ tx_msg_id (dev (world_of (reply msg_error (PDict []) session_world)))
     = PInt 25
  /\ sent (ws (world_of (reply msg_error (PDict []) session_world)))
     = [ PDict [ (KStr "sID", PInt 77);
                 (KStr "msgID", PInt 21);
                 (KStr "resource", PStr "/ro/values");
                 (KStr "version", PInt 1);
                 (KStr "action", PStr "RESPONSE");
                 (KStr "data", PList [PDict []]) ] ].
Proof. repeat split. Qed.

Lemma get_version_resolution_witness :
  resolve_version "/ci/authentication" (version_arg (Some (PInt 2)))
                  session_world
  = Ret (PInt 3) session_world.
Proof.
  exact (proj1 (proj2 (get_version_resolution (B := demo_builtins)
                         session_world "/ci/authentication" (Some (PInt 2))))
           {| entry_version := PInt 3 |} eq_refl eq_refl).
Defined.

(** A call that names version 2 goes out with version 3, the version of
    the service [ci]. *)
Lemma explicit_version_overridden :
  sent (ws (world_of
              (get (B := demo_builtins) "/ci/authentication" (Some (PInt 2))
                   None (PDict [(KStr "nonce", PStr "c2Vzc2lvbg")])
                   session_world)))
  = [ PDict [ (KStr "sID", PInt 77);
              (KStr "msgID", PInt 25);
              (KStr "resource", PStr "/ci/authentication");
              (KStr "version", PInt 3);
              (KStr "action", PStr "GET");
              (KStr "data",
               PList [PDict [(KStr "nonce", PStr "c2Vzc2lvbg")]]) ] ].
Proof. reflexivity. Qed.

(** ** Program activation *)

Section Programs.
Context {B : Builtins}.

Lemma str_in_item (c : pyval) (s : string) (v : pyval) :
  item c s = inr v -> str_in s c = inr true.
Proof.
  intros H. apply item_inr_dict in H as (d & -> & Hd).
  rewrite str_in_dict, (dict_mem_get _ _ _ Hd). reflexivity.
Qed.

Lemma test_options_accepts (features : pyval) (options : list pyval) :
  test_options features options = inr tt
  <-> Forall (option_valid features) options.
Proof.
  induction options as [| option rest IH]; cbn [test_options].
  - split; [constructor | reflexivity].
  - unfold fail, ebind.
    destruct (item option "uid") as [e | option_uid] eqn:Huid.
    { split; [discriminate |].
      intros H. inversion H as [| ? ? (u & Hu & _) _]; subst. congruence. }
    destruct (str_in (py_str option_uid) features) as [e | found] eqn:Hin.
    { split; [discriminate |].
      intros H. inversion H as [| ? ? (u & Hu & Hf) _]; subst. congruence. }
    destruct found; cbn [negb].
    + rewrite IH. split.
      * intros H. constructor; [| exact H].
        exists option_uid. split; [exact Huid | exact Hin].
      * intros H. inversion H; assumption.
    + split; [discriminate |].
      intros H. inversion H as [| ? ? (u & Hu & Hf) _]; subst. congruence.
Qed.

Lemma test_program_accepts (features data : pyval) :
  test_program features data = inr tt
  <-> program_valid features data /\ options_valid features data.
Proof.
  unfold test_program, program_valid, options_valid, fail, ebind.
  destruct (str_in "program" data) as [e | has_program] eqn:Hhas.
  { split; [discriminate |].
    intros [(p & f & n & Hp & _) _].
    rewrite (str_in_item _ _ _ Hp) in Hhas. discriminate. }
  destruct has_program; cbn [negb].
  2:{ split; [discriminate |].
      intros [(p & f & n & Hp & _) _].
      rewrite (str_in_item _ _ _ Hp) in Hhas. discriminate. }
  destruct (item data "program") as [e | program] eqn:Hprog.
  { split; [discriminate |]. intros [(p & f & n & Hp & _) _]. discriminate. }
  destruct (isinstance_int program) eqn:Hint; cbn [negb].
  2:{ split; [discriminate |].
      intros [(p & f & n & Hp & Hi & _) _]. congruence. }
  destruct (str_in (py_str program) features) as [e | found] eqn:Hfound.
  { split; [discriminate |].
    intros [(p & f & n & Hp & _ & Hf & _) _]. congruence. }
  destruct found; cbn [negb].
  2:{ split; [discriminate |].
      intros [(p & f & n & Hp & _ & Hf & _) _]. congruence. }
  destruct (getitem features (PStr (py_str program))) as [e | feature]
    eqn:Hfeat.
  { split; [discriminate |].
    intros [(p & f & n & Hp & _ & _ & Hg & _) _]. congruence. }
  destruct (item feature "name") as [e | fname] eqn:Hname.
  { split; [discriminate |].
    intros [(p & f & n & Hp & _ & _ & Hg & Hn & _) _].
    injection Hp as <-. rewrite Hfeat in Hg. injection Hg as <-.
    congruence. }
  destruct (str_in ".Program." fname) as [e | marked] eqn:Hmark.
  { split; [discriminate |].
    intros [(p & f & n & Hp & _ & _ & Hg & Hn & Hm) _].
    injection Hp as <-. rewrite Hfeat in Hg. injection Hg as <-.
    rewrite Hname in Hn. injection Hn as <-. congruence. }
  destruct marked; cbn [negb].
  2:{ split; [discriminate |].
      intros [(p & f & n & Hp & _ & _ & Hg & Hn & Hm) _].
      injection Hp as <-. rewrite Hfeat in Hg. injection Hg as <-.
      rewrite Hname in Hn. injection Hn as <-. congruence. }
  assert (Hvalid : exists program0 feature0 fname0,
             @inr exn pyval program = inr program0
             /\ isinstance_int program0 = true
             /\ str_in (py_str program0) features = inr true
             /\ getitem features (PStr (py_str program0)) = inr feature0
             /\ item feature0 "name" = inr fname0
             /\ str_in ".Program." fname0 = inr true).
  { exists program, feature, fname. repeat split; assumption. }
  destruct (str_in "options" data) as [e | has_options] eqn:Hopt.
  { split; [discriminate |].
    intros [_ [H | (o & r & Ho & _)]]; [discriminate |].
    rewrite (str_in_item _ _ _ Ho) in Hopt. discriminate. }
  destruct has_options.
  2:{ split; [| reflexivity]. intros _. split; [exact Hvalid |].
      left. reflexivity. }
  destruct (item data "options") as [e | options] eqn:Hitem.
  { split; [discriminate |].
    intros [_ [H | (o & r & Ho & _)]]; discriminate. }
  destruct (iter options) as [e | records] eqn:Hiter.
  { split; [discriminate |].
    intros [_ [H | (o & r & Ho & Hi & _)]]; [discriminate |]. congruence. }
  rewrite test_options_accepts. split.
  - intros H. split; [exact Hvalid |]. right.
    exists options, records. repeat split; assumption.
  - intros [_ [H | (o & r & Ho & Hi & Hall)]]; [discriminate |].
    injection Ho as <-. rewrite Hiter in Hi. injection Hi as <-. exact Hall.
Qed.

Lemma test_program_loop_accepts (features : pyval) (records : list pyval) :
  test_program_loop features records = inr tt
  <-> Forall (fun data => test_program features data = inr tt) records.
Proof.
  induction records as [| data rest IH]; cbn [test_program_loop].
  - split; [constructor | reflexivity].
  - unfold ebind.
    destruct (test_program features data) as [e | []] eqn:Hd.
    + split; [discriminate |]. intros H. inversion H; subst. congruence.
    + rewrite IH. split.
      * intros H. constructor; [exact Hd | exact H].
      * intros H. inversion H; assumption.
Qed.

(** C6: a record of a program activation passes exactly when it holds an
    integer-typed [program] whose stringified id is in the catalog under a
    name that contains [.Program.], and every option of its options list,
    if it has one, holds a [uid] that stringified is in the catalog;
    nothing else is asked of an option.  A batch passes exactly when every
    record passes; a record without [program], with a [program] that is no
    integer, with an id the catalog does not hold, or with a name without
    the marker raises the corresponding error. *)
Theorem test_program_data_accepts (features : pyval) :
  (forall data,
      test_program features data = inr tt
      <-> program_valid features data /\ options_valid features data)
  /\ (forall records,
        test_program_data features (PList records) = inr tt
        <-> Forall (fun data => test_program features data = inr tt) records)
  /\ (forall data,
        str_in "program" data = inr false ->
        test_program features data
        = inl (TypeError "Message data invalid, no program specified."))
  /\ (forall data program,
        item data "program" = inr program ->
        isinstance_int program = false ->
        test_program features data
        = inl (TypeError
                 "Message data invalid, UID in 'program' must be an integer."))
  /\ (forall data program,
        item data "program" = inr program ->
        isinstance_int program = true ->
        str_in (py_str program) features = inr false ->
        test_program features data
        = inl (ValueError ("Unable to configure appliance. Program UID "
                             ++ py_str program
                             ++ " is not valid for this device.")))
  /\ (forall data program feature fname,
        item data "program" = inr program ->
        isinstance_int program = true ->
        str_in (py_str program) features = inr true ->
        getitem features (PStr (py_str program)) = inr feature ->
        item feature "name" = inr fname ->
        str_in ".Program." fname = inr false ->
        test_program features data
        = inl (ValueError ("Unable to configure appliance. Program UID "
                             ++ py_str program
                             ++ " is not a valid program - " ++ py_str fname
                             ++ "."))).
Proof.
  repeat match goal with |- _ /\ _ => split end.
  - apply test_program_accepts.
  - intros records. apply test_program_loop_accepts.
  - intros data H. unfold test_program. rewrite H. reflexivity.
  - intros data program Hp Hi. unfold test_program.
    rewrite (str_in_item _ _ _ Hp), Hp. cbn. rewrite Hi. reflexivity.
  - intros data program Hp Hi Hf. unfold test_program.
    rewrite (str_in_item _ _ _ Hp), Hp. cbn. rewrite Hi. cbn.
    rewrite Hf. reflexivity.
  - intros data program feature fname Hp Hi Hf Hg Hn Hm. unfold test_program.
    rewrite (str_in_item _ _ _ Hp), Hp. cbn. rewrite Hi. cbn.
    rewrite Hf. cbn. rewrite Hg. cbn. rewrite Hn. cbn. rewrite Hm.
    reflexivity.
Qed.

End Programs.

Lemma test_program_data_accepts_witness :
  test_program (B := demo_builtins) demo_features
    (PDict [ (KStr "program", PInt 8192);
             (KStr "options",
              PList [PDict [(KStr "uid", PInt 527); (KStr "value", PInt 9)]]) ])
  = inr tt
  /\ test_program (B := demo_builtins) demo_features
       (PDict [(KStr "program", PInt 539)])
     = inl (ValueError
              ("Unable to configure appliance. Program UID 539 is not a valid"
                 ++ " program - BSH.Common.Setting.PowerState.")).
Proof.
  split.
  - apply (proj1 (test_program_data_accepts (B := demo_builtins)
                    demo_features)).
    split.
    + exists (PInt 8192),
        (PDict [ (KStr "name", PStr "Dishcare.Dishwasher.Program.Eco50");
                 (KStr "access", PStr "readWrite") ]),
        (PStr "Dishcare.Dishwasher.Program.Eco50").
      repeat split.
    + right.
      exists (PList [PDict [(KStr "uid", PInt 527); (KStr "value", PInt 9)]]),
        [PDict [(KStr "uid", PInt 527); (KStr "value", PInt 9)]].
      repeat split. constructor; [| constructor].
      exists (PInt 527). split; reflexivity.
  - exact (proj2 (proj2 (proj2 (proj2 (proj2
             (test_program_data_accepts (B := demo_builtins) demo_features)))))
             (PDict [(KStr "program", PInt 539)]) (PInt 539)
             (PDict [ (KStr "name", PStr "BSH.Common.Setting.PowerState");
                      (KStr "access", PStr "readWrite");
                      (KStr "values",
                       PDict [ (KStr "0", PStr "Off");
                               (KStr "1", PStr "On") ]) ])
             (PStr "BSH.Common.Setting.PowerState")
             eq_refl eq_refl eq_refl eq_refl eq_refl eq_refl).
Defined.

(** ** Normalising values *)

Lemma after_match_single_line (s : string) :
  single_line s = true -> after_match s = after_last_dot s.
Proof.
  induction s as [| c s IH]; cbn; [reflexivity |].
  intros H. apply andb_prop in H as [Hc Hs].
  apply negb_true_iff in Hc. rewrite Hc, (IH Hs). reflexivity.
Qed.

Lemma re_sub_trim_single_line (s : string) :
  single_line s = true -> re_sub_trim s = last_segment s.
Proof.
  intros H. unfold re_sub_trim, last_segment.
  rewrite (after_match_single_line s H). reflexivity.
Qed.

Lemma after_match_dotless (s : string) :
  dotless s = true -> after_match s = None.
Proof.
  induction s as [| c s IH]; cbn; [reflexivity |].
  intros H. apply andb_prop in H as [Hc Hs].
  apply negb_true_iff in Hc. rewrite Hc, (IH Hs).
  destruct (Ascii.eqb c newline); reflexivity.
Qed.

Lemma re_sub_trim_dotless (s : string) :
  dotless s = true -> re_sub_trim s = s.
Proof.
  intros H. unfold re_sub_trim. rewrite (after_match_dotless s H).
  reflexivity.
Qed.

Lemma dotless_uint (d : Decimal.uint) :
  dotless (NilEmpty.string_of_uint d) = true.
Proof. induction d; cbn; try assumption; reflexivity. Qed.

Lemma dotless_str_of_Z (z : Z) : dotless (str_of_Z z) = true.
Proof.
  unfold str_of_Z, NilZero.string_of_int, NilZero.string_of_uint.
  destruct (Z.to_int z) as [d | d].
  - destruct d; try reflexivity; apply (dotless_uint (_ d)).
  - cbn. destruct d; try reflexivity; apply (dotless_uint (_ d)).
Qed.

Section Normaliser.
Context {B : Builtins}.

Lemma dotless_int (u : pyval) :
  isinstance_int u = true -> dotless (py_str u) = true.
Proof.
  destruct u as [| [|] | z | s | l | d]; try discriminate; intros _.
  - reflexivity.
  - reflexivity.
  - apply dotless_str_of_Z.
Qed.

Lemma getitem_dict_str (d : dict) (s : string) :
  getitem (PDict d) (PStr s) =
  match dict_get (KStr s) d with
  | Some v => inr v
  | None => inl (KeyError (KStr s))
  end.
Proof. reflexivity. Qed.

(** A record whose descriptor has a name. *)
Lemma parse_value_named (cat result : dict) (msg u value : pyval)
  (desc : dict) (n : string) :
  item msg "uid" = inr u ->
  item msg "value" = inr value ->
  dict_get (KStr (py_str u)) cat = Some (PDict desc) ->
  dict_get (KStr "name") desc = Some (PStr n) ->
  parse_value (PDict cat) result msg =
  match dict_get (KStr "values") desc with
  | Some vs =>
      match str_in (py_str value) vs with
      | inr true =>
          match getitem vs (PStr (py_str value)) with
          | inr label => inr (dict_set (KStr (re_sub_trim n)) label result)
          | inl e => inl e
          end
      | inr false => inr (dict_set (KStr (re_sub_trim n)) value result)
      | inl e => inl e
      end
  | None => inr (dict_set (KStr (re_sub_trim n)) value result)
  end.
Proof.
  intros Hu Hv Hd Hn. unfold parse_value, ebind.
  rewrite Hu, Hv, str_in_dict, (dict_mem_get _ _ _ Hd), getitem_dict_str, Hd.
  assert (Ht : truthy (PDict desc) = true).
  { destruct desc; [discriminate | reflexivity]. }
  rewrite Ht, item_dict, Hn, str_in_dict. unfold dict_mem.
  destruct (dict_get (KStr "values") desc) as [vs |] eqn:Hvs.
  - rewrite item_dict, Hvs.
    destruct (str_in (py_str value) vs) as [e | [|]]; try reflexivity.
    destruct (getitem vs (PStr (py_str value))); reflexivity.
  - reflexivity.
Qed.

(** A record without descriptor, or with an empty one. *)
Lemma parse_value_unnamed (cat result : dict) (msg u value : pyval) :
  item msg "uid" = inr u ->
  item msg "value" = inr value ->
  dict_get (KStr (py_str u)) cat = None
  \/ dict_get (KStr (py_str u)) cat = Some (PDict []) ->
  parse_value (PDict cat) result msg =
  inr (dict_set (KStr (re_sub_trim (py_str u))) value result).
Proof.
  intros Hu Hv [Hd | Hd]; unfold parse_value, ebind;
    rewrite Hu, Hv, str_in_dict.
  - rewrite (dict_mem_none _ _ Hd). reflexivity.
  - rewrite (dict_mem_get _ _ _ Hd), getitem_dict_str, Hd. reflexivity.
Qed.

(** C5 (amended): a record [{uid, value}] is normalised against the catalog
    as follows.  When the catalog holds a descriptor with a name for the
    stringified uid, the key is the name as [re.sub] trims it, which for a
    name of one line is what follows its last dot; the value is the label
    when the descriptor enumerates values and the stringified value is one
    of the keys, and the value unchanged otherwise.  When the catalog holds
    no descriptor, or an empty one, the key is the stringified uid, trimmed
    the same way (an integer uid is its decimal string), and the value is
    unchanged.  Without catalog the records come back as they are. *)
Theorem parse_value_normalises (cat result : dict) (msg u value : pyval) :
  item msg "uid" = inr u ->
  item msg "value" = inr value ->
  (forall desc n vs label,
      dict_get (KStr (py_str u)) cat = Some (PDict desc) ->
      dict_get (KStr "name") desc = Some (PStr n) ->
      dict_get (KStr "values") desc = Some (PDict vs) ->
      dict_get (KStr (py_str value)) vs = Some label ->
      parse_value (PDict cat) result msg
      = inr (dict_set (KStr (re_sub_trim n)) label result))
  /\ (forall desc n,
        dict_get (KStr (py_str u)) cat = Some (PDict desc) ->
        dict_get (KStr "name") desc = Some (PStr n) ->
        dict_get (KStr "values") desc = None
        \/ (exists vs, dict_get (KStr "values") desc = Some (PDict vs)
                       /\ dict_get (KStr (py_str value)) vs = None) ->
        parse_value (PDict cat) result msg
        = inr (dict_set (KStr (re_sub_trim n)) value result))
  /\ (forall n, single_line n = true -> re_sub_trim n = last_segment n)
  /\ (dict_get (KStr (py_str u)) cat = None
      \/ dict_get (KStr (py_str u)) cat = Some (PDict []) ->
      parse_value (PDict cat) result msg
      = inr (dict_set (KStr (re_sub_trim (py_str u))) value result))
  /\ (isinstance_int u = true -> re_sub_trim (py_str u) = py_str u)
  /\ (forall features values,
        truthy features = false -> parse_values features values = inr values)
  /\ (forall msgs,
        truthy (PDict cat) = true ->
        parse_values (PDict cat) (PList msgs) =
        match parse_values_loop (PDict cat) msgs [] with
        | inr normalized => inr (PDict normalized)
        | inl e => inl e
        end).
Proof.
  intros Hu Hv.
  repeat match goal with |- _ /\ _ => split end.
  - intros desc n vs label Hd Hn Hvs Hl.
    rewrite (parse_value_named _ _ _ _ _ _ _ Hu Hv Hd Hn), Hvs.
    rewrite str_in_dict, (dict_mem_get _ _ _ Hl), getitem_dict_str, Hl.
    reflexivity.
  - intros desc n Hd Hn [Hvs | (vs & Hvs & Hl)];
      rewrite (parse_value_named _ _ _ _ _ _ _ Hu Hv Hd Hn), Hvs.
    + reflexivity.
    + rewrite str_in_dict, (dict_mem_none _ _ Hl). reflexivity.
  - apply re_sub_trim_single_line.
  - apply parse_value_unnamed; assumption.
  - intros Hi. apply re_sub_trim_dotless, dotless_int, Hi.
  - intros features values Ht. unfold parse_values. rewrite Ht. reflexivity.
  - intros msgs Ht. unfold parse_values. rewrite Ht. reflexivity.
Qed.

End Normaliser.

Lemma parse_value_normalises_witness :
  parse_value (B := demo_builtins) demo_features []
    (PDict [(KStr "uid", PInt 539); (KStr "value", PInt 1)])
  = inr [(KStr "PowerState", PStr "On")].
Proof.
  exact (proj1 (parse_value_normalises (B := demo_builtins) demo_catalog []
                  (PDict [(KStr "uid", PInt 539); (KStr "value", PInt 1)])
                  (PInt 539) (PInt 1) eq_refl eq_refl)
           [ (KStr "name", PStr "BSH.Common.Setting.PowerState");
             (KStr "access", PStr "readWrite");
             (KStr "values",
              PDict [ (KStr "0", PStr "Off"); (KStr "1", PStr "On") ]) ]
           "BSH.Common.Setting.PowerState"
           [ (KStr "0", PStr "Off"); (KStr "1", PStr "On") ]
           (PStr "On") eq_refl eq_refl eq_refl eq_refl).
Defined.

(** A uid that is a dotted string and has no descriptor is trimmed like a
    name: the key is neither the uid nor its string.  An integer uid
    without descriptor gives its decimal string as key. *)
Lemma parse_values_trims_uid :
  parse_values (B := demo_builtins) demo_features
    (PList [PDict [ (KStr "uid", PStr "BSH.Common.Status.Unknown");
                    (KStr "value", PInt 1) ]])
  = inr (PDict [(KStr "Unknown", PInt 1)])
  /\ parse_values (B := demo_builtins) demo_features
       (PList [PDict [(KStr "uid", PInt 4242); (KStr "value", PInt 1)]])
     = inr (PDict [(KStr "4242", PInt 1)]).
Proof. split; reflexivity. Qed.

(** ** Value writes *)

Ltac lift_step := erewrite bind_lift_inr by reflexivity; cbn [negb].

Ltac norm :=
  repeat first
    [ rewrite bind_assoc | rewrite bind_ret_l | rewrite bind_raise
    | lift_step ].


Section Writes.
Context {B : Builtins}.


(** A record that passes the checks on uid, value, catalog, access and
    enumeration comes to the check of the range. *)
Lemma test_feature_record_to_range (w : World) (cat rec desc : dict)
  (u value fname : pyval) :
  features (dev w) = PDict cat ->
  dict_get (KStr "uid") rec = Some u ->
  isinstance_int u = true ->
  dict_get (KStr "value") rec = Some value ->
  dict_get (KStr (py_str u)) cat = Some (PDict desc) ->
  dict_get (KStr "name") desc = Some fname ->
  access_ok desc = true ->
  enum_ok desc value = true ->
  test_feature_record (PDict rec) w =
  range_block (PDict desc) value
    (log_line (LogProcessingFeature (py_str fname) (py_str u)) w).
Proof.
  intros Hcat Hu Hint Hval Hfeat Hname Hacc Henum.
  unfold test_feature_record, range_block.
  rewrite !str_in_dict, !item_dict. unfold dict_mem.
  rewrite Hu, Hval. do 2 lift_step. rewrite Hint. cbn [negb]. lift_step.
  unfold bind at 1. unfold self at 1. rewrite Hcat, str_in_dict.
  unfold dict_mem. rewrite Hfeat. lift_step.
  rewrite getitem_dict_str, Hfeat. lift_step.
  rewrite item_dict, Hname. lift_step.
  unfold bind at 1. unfold print at 1.
  unfold access_ok in Hacc. rewrite str_in_dict. unfold dict_mem.
  destruct (dict_get (KStr "access") desc) as [[| | | access | |] |] eqn:Ha;
    try discriminate.
  lift_step. rewrite item_dict, Ha. do 2 lift_step.
  rewrite <- negb_orb, Hacc. cbn [negb]. lift_step.
  unfold enum_ok in Henum. rewrite str_in_dict. unfold dict_mem.
  destruct (dict_get (KStr "values") desc) as [values |] eqn:Hvs.
  - apply andb_prop in Henum as [Hvint Hlisted].
    destruct (str_in (py_str value) values) as [e | listed] eqn:Hin;
      [discriminate |].
    subst listed.
    norm. rewrite item_dict, Hvs. norm. rewrite Hvint. cbn [negb].
    norm. rewrite Hin. norm. reflexivity.
  - norm. reflexivity.
Qed.



End Writes.

Section WriteClaims.
Context {B : Builtins}.





(** C10 (amended): a record that passes the checks on uid, value, catalog,
    access and enumeration comes to the check of the range, which is made
    exactly when the descriptor holds [min]: with a [min] that [int] reads
    and no [max], the check raises [KeyError('max')], and without [min] the
    record is accepted, whether the descriptor holds [max] or not. *)
Theorem range_check_reads_max (w : World) (cat rec desc : dict)
  (u value fname : pyval) :
  features (dev w) = PDict cat ->
  dict_get (KStr "uid") rec = Some u ->
  isinstance_int u = true ->
  dict_get (KStr "value") rec = Some value ->
  dict_get (KStr (py_str u)) cat = Some (PDict desc) ->
  dict_get (KStr "name") desc = Some fname ->
  access_ok desc = true ->
  enum_ok desc value = true ->
  (forall lo min,
      dict_get (KStr "min") desc = Some lo ->
      py_int lo = inr min ->
      dict_get (KStr "max") desc = None ->
      test_feature_record (PDict rec) w
      = Raise (KeyError (KStr "max"))
              (log_line (LogProcessingFeature (py_str fname) (py_str u)) w))
  /\ (dict_get (KStr "min") desc = None ->
      test_feature_record (PDict rec) w
      = Ret tt (log_line (LogProcessingFeature (py_str fname) (py_str u)) w)).
Proof.
  intros Hcat Hu Hint Hval Hfeat Hname Hacc Henum.
  rewrite (test_feature_record_to_range w cat rec desc u value fname)
    by assumption.
  unfold range_block. rewrite str_in_dict. unfold dict_mem. split.
  - intros lo mn Hlo Hmn Hmax. rewrite Hlo. lift_step.
    rewrite item_dict, Hlo. lift_step. rewrite Hmn. lift_step.
    rewrite item_dict, Hmax. reflexivity.
  - intros Hlo. rewrite Hlo. lift_step. reflexivity.
Qed.

End WriteClaims.



Lemma range_check_reads_max_witness :
  test_feature_record (B := demo_builtins)
    (PDict [(KStr "uid", PInt 4100); (KStr "value", PInt 3)]) halved_world
  = Raise (KeyError (KStr "max"))
          (log_line (LogProcessingFeature "Cooking.Hood.Setting.Level" "4100")
                    halved_world).
Proof.
  exact (proj1 (range_check_reads_max (B := demo_builtins) halved_world
                  halved_catalog
                  [(KStr "uid", PInt 4100); (KStr "value", PInt 3)]
                  [ (KStr "name", PStr "Cooking.Hood.Setting.Level");
                    (KStr "access", PStr "readWrite");
                    (KStr "min", PStr "0") ]
                  (PInt 4100) (PInt 3) (PStr "Cooking.Hood.Setting.Level")
                  eq_refl eq_refl eq_refl eq_refl eq_refl eq_refl eq_refl
                  eq_refl)
           (PStr "0") 0%Z eq_refl eq_refl eq_refl).
Defined.

(** The descriptor 4101 declares [min] and no [max] as well, and its
    access level is [read]: the write is refused for the access level, with
    a reason, before the range is looked at. *)
Lemma range_without_max_refused_earlier :
  test_feature_record (B := demo_builtins)
    (PDict [(KStr "uid", PInt 4101); (KStr "value", PInt 3)]) halved_world
  = Raise (PyException
             ("Unable to configure appliance. Feature Cooking.Hood.Status.Level"
                ++ " with uid 4101 has got access read."))
          (log_line (LogProcessingFeature "Cooking.Hood.Status.Level" "4101")
                    halved_world).
Proof. reflexivity. Qed.

(** ** The handshake *)

#[local] Instance received_pre : PreOrder received.
Proof.
  split.
  - intros w. repeat split. auto.
  - intros a b c (H1 & H2 & H3 & H4 & H5) (K1 & K2 & K3 & K4 & K5).
    repeat split; try congruence. auto.
Qed.

#[local] Instance same_flag_pre : PreOrder same_flag.
Proof.
  split.
  - intros w. reflexivity.
  - intros a b c H K. unfold same_flag in *. congruence.
Qed.

Lemma holds_bind_lift {A C : Type} (blocking : bool)
  (R : World -> World -> Prop) {R_pre : PreOrder R} (c : E A) (k : A -> M C) :
  (forall a, c = inr a -> holds blocking R (k a)) ->
  holds blocking R (bind (lift c) k).
Proof.
  intros Hk w. unfold bind, lift.
  destruct c as [e | a]; [reflexivity |].
  exact (Hk a eq_refl w).
Qed.

Section Handshake.
Context {B : Builtins}.

Lemma handled_received (w w' : World) :
  handled (pop_rx w) w' -> received w w'.
Proof.
  intros (H1 & H2 & H3 & H4 & H5 & H6). repeat split; assumption.
Qed.

Lemma recv_received : holds true received recv.
Proof.
  intros w. rewrite recv_unfold.
  destruct (rx (ws w)) as [| [buf | | e] rest] eqn:Hrx.
  - reflexivity.
  - pose proof (handle_message_handled buf (pop_rx w)) as Hh.
    destruct (handle_message buf (pop_rx w)) as [v w1 | e w1 | w1];
      try contradiction; apply handled_received in Hh.
    + exact Hh.
    + destruct Hh as (H1 & H2 & H3 & H4 & H5). repeat split; assumption.
  - repeat split. auto.
  - repeat split. auto.
Qed.

(** [recv] reads exactly one event, and returns as soon as there is one. *)
Lemma recv_reads_one (w : World) (ev : rx_event) (rest : list rx_event) :
  rx (ws w) = ev :: rest ->
  exists v w', recv w = Ret v w' /\ rx (ws w') = rest.
Proof.
  intros Hrx. rewrite recv_unfold, Hrx.
  assert (Hpop : rx (ws (pop_rx w)) = rest) by (cbn; rewrite Hrx; reflexivity).
  destruct ev as [buf | | e].
  - pose proof (handle_message_handled buf (pop_rx w)) as Hh.
    destruct (handle_message buf (pop_rx w)) as [v w1 | e w1 | w1];
      try contradiction; destruct Hh as (H1 & _).
    + exists v, w1. split; [reflexivity | congruence].
    + eexists; eexists. split; [reflexivity |]. cbn. congruence.
  - eexists; eexists. split; [reflexivity | exact Hpop].
  - eexists; eexists. split; [reflexivity | exact Hpop].
Qed.

Lemma recv_ret_reads (w w' : World) (v : pyval) :
  recv w = Ret v w' ->
  exists ev, rx (ws w) = ev :: rx (ws w').
Proof.
  intros Hrun. destruct (rx (ws w)) as [| ev rest] eqn:Hrx.
  - rewrite recv_unfold, Hrx in Hrun. discriminate.
  - destruct (recv_reads_one w ev rest Hrx) as (v' & w1 & Hrun' & Hrest).
    rewrite Hrun in Hrun'. injection Hrun' as <- <-.
    exists ev. rewrite Hrest. reflexivity.
Qed.

End Handshake.


Ltac frame_eq_step leaf :=
  lazymatch goal with
  | |- holds _ _ (ret _) => apply holds_ret; exact _
  | |- holds _ _ (raise _) => apply holds_raise; exact _
  | |- holds _ _ (bind (lift _) _) => apply holds_bind_lift; [exact _ | intros ? ?]
  | |- holds _ _ (lift _) => apply holds_lift; exact _
  | |- holds _ _ self => apply holds_self; exact _
  | |- holds _ _ (bind _ _) => apply holds_bind; [exact _ | | intros ? ]
  | |- holds _ _ (for_each _ _) => apply holds_for_each; [exact _ | intros ? ]
  | |- holds _ _ (print _) => apply holds_print; intros ?; leaf
  | |- holds _ _ (update _) => apply holds_update; intros ?; leaf
  | |- holds _ _ (ws_send _) => apply holds_ws_send; intros ? ?; leaf
  | |- holds _ _ (if ?b then _ else _) => destruct b eqn:?
  | |- holds _ _ (match ?x with _ => _ end) => destruct x eqn:?
  end.

Section Discovery.
Context {B : Builtins}.





Lemma registered_wf (records : list pyval) :
  forall table,
    services_wf records = true ->
    exists table', registered records table = Some table'.
Proof.
  unfold services_wf.
  induction records as [| service rest IH]; intros table H; cbn in H |- *.
  - exists table. reflexivity.
  - destruct (service_record service) as [[key entry] |]; [| discriminate].
    apply IH. exact H.
Qed.



End Discovery.

(** ** Reconnecting *)

#[local] Instance same_dev_pre : PreOrder same_dev.
Proof.
  split.
  - intros w. reflexivity.
  - intros a b c H K. unfold same_dev in *. congruence.
Qed.

Lemma bind_ret_inv {A C : Type} (c : M A) (k : A -> M C) (w w' : World)
  (r : C) :
  bind c k w = Ret r w' ->
  exists a w1, c w = Ret a w1 /\ k a w1 = Ret r w'.
Proof.
  unfold bind. destruct (c w) as [a w1 | e w1 | w1]; try discriminate.
  intros H. exists a, w1. split; [reflexivity | exact H].
Qed.

Section Reconnect.
Context {B : Builtins}.

Lemma reply_same_dev (msg answer : pyval) :
  holds false same_dev (reply msg answer).
Proof. unfold reply. frame ltac:(reflexivity). Qed.

(** One turn of the loop. *)
Lemma services_loop_unfold (fuel : nat) (w : World) :
  services_loop fuel w =
  match recv w with
  | Ret _ w1 =>
      if services_initialized (dev w1) then Ret tt w1
      else match fuel with
           | O => Blocked w1
           | S fuel' => services_loop fuel' w1
           end
  | Raise e w1 => Raise e w1
  | Blocked w1 => Blocked w1
  end.
Proof.
  destruct fuel; cbn [services_loop]; unfold bind, self;
    destruct (recv w) as [v w1 | e w1 | w1]; try reflexivity;
    destruct (services_initialized (dev w1)); reflexivity.
Qed.

Lemma services_loop_one_more (fuel : nat) :
  forall w,
    (length (rx (ws w)) <= fuel)%nat ->
    services_loop (S fuel) w = services_loop fuel w.
Proof.
  induction fuel as [| fuel IH]; intros w Hlen;
    rewrite (services_loop_unfold (S _) w), (services_loop_unfold _ w);
    destruct (recv w) as [v w1 | e w1 | w1] eqn:Hrecv; try reflexivity;
    destruct (recv_ret_reads _ _ _ Hrecv) as (ev & Hrx);
    rewrite Hrx in Hlen; cbn in Hlen;
    destruct (services_initialized (dev w1)); try reflexivity.
  - lia.
  - apply IH. lia.
Qed.

(** Any fuel that covers the events left to read gives the same run: the
    loop waits in [ws.recv] before the fuel is used up. *)
Lemma services_loop_fuel (fuel : nat) (w : World) :
  (length (rx (ws w)) <= fuel)%nat ->
  services_loop fuel w = services_loop (length (rx (ws w))) w.
Proof.
  intros Hlen. induction Hlen as [| fuel Hlen IH]; [reflexivity |].
  rewrite services_loop_one_more by exact Hlen. exact IH.
Qed.

Lemma services_loop_received (fuel : nat) :
  holds true received (services_loop fuel).
Proof.
  induction fuel as [| fuel IH]; cbn [services_loop].
  - apply holds_bind; [exact _ | apply recv_received |]. intros _.
    apply holds_bind; [exact _ | apply holds_self; exact _ |]. intros d.
    destruct (services_initialized d); [apply holds_ret; exact _ |].
    intros w. reflexivity.
  - apply holds_bind; [exact _ | apply recv_received |]. intros _.
    apply holds_bind; [exact _ | apply holds_self; exact _ |]. intros d.
    destruct (services_initialized d); [apply holds_ret; exact _ | exact IH].
Qed.

Lemma ret_world {A : Type} (blocking : bool) (R : World -> World -> Prop)
  (c : M A) (w w' : World) (a : A) :
  holds blocking R c -> c w = Ret a w' -> R w w'.
Proof. intros H Hrun. specialize (H w). rewrite Hrun in H. exact H. Qed.

Lemma get_ret_keeps (resource : string) (version : option pyval)
  (action : option string) (data : pyval) (w w' : World) :
  get resource version action data w = Ret tt w' ->
  token (dev w') = token (dev w)
  /\ entropy w' = entropy w /\ draws w' = draws w.
Proof.
  intros Hrun.
  destruct (ret_world _ _ _ _ _ _ (get_requested resource version action data)
              Hrun) as (Hd & _ & _ & He & Hn).
  repeat split; try assumption.
  apply (f_equal token) in Hd. exact Hd.
Qed.

(** The token with which [reconnect] ends is the one it has drawn. *)
Lemma reconnect_token (w w' : World) :
  reconnect w = Ret tt w' ->
  token (dev w') = PStr (re_sub_eq (entropy w (draws w))).
Proof.
  unfold reconnect. intros H.
  apply bind_ret_inv in H as ([] & w0 & H0 & H).
  apply bind_ret_inv in H as (v1 & w1 & H1 & H).
  apply bind_ret_inv in H as ([] & w2 & H2 & H).
  apply bind_ret_inv in H as ([] & w3 & H3 & H).
  apply bind_ret_inv in H as (tok & w4 & H4 & H).
  apply bind_ret_inv in H as ([] & w5 & H5 & H).
  apply bind_ret_inv in H as ([] & w6 & H6 & H).
  apply bind_ret_inv in H as (d & w7 & H7 & H).
  apply bind_ret_inv in H as ([] & w8 & H8 & H).
  apply bind_ret_inv in H as ([] & w9 & H9 & H).
  apply bind_ret_inv in H as ([] & w10 & H10 & H).
  apply bind_ret_inv in H as ([] & w11 & H11 & H).
  apply bind_ret_inv in H as ([] & w12 & H12 & H).
  apply bind_ret_inv in H as ([] & w13 & H13 & H).
  apply get_ret_keeps in H8 as (T8 & _), H9 as (T9 & _), H10 as (T10 & _),
    H11 as (T11 & _), H12 as (T12 & _), H13 as (T13 & _),
    H as (T14 & _).
  rewrite T14, T13, T12, T11, T10, T9, T8.
  injection H7 as _ <-. injection H6 as <-. injection H5 as <-.
  injection H4 as <- <-. cbn.
  assert (E0 : entropy w0 = entropy w /\ draws w0 = draws w).
  { unfold ws_reconnect in H0.
    destruct (conns (ws w)) as [| [frames | e] rest]; try discriminate.
    injection H0 as <-. split; reflexivity. }
  destruct (ret_world _ _ _ _ _ _ recv_received H1) as (_ & E1 & N1 & _).
  apply get_ret_keeps in H2 as (_ & E2 & N2).
  destruct (ret_world _ _ _ _ _ _
              (services_loop_received (length (rx (ws w2)))) H3)
    as (_ & E3 & N3 & _).
  destruct E0 as (E0 & N0).
  rewrite E3, E2, E1, E0, N3, N2, N1, N0. reflexivity.
Qed.


End Reconnect.

Section ReconnectClaim.
Context {B : Builtins}.


End ReconnectClaim.




(** A new device object goes through the whole of [reconnect]: the first
    message gives session 77 and counter 20, the notice of registered
    devices is read and dropped, the services list ends the loop, and the
    seven requests that follow leave the counter at 28. *)
Lemma reconnect_new_device :
  reconnect (B := demo_builtins) new_world
  = Ret tt (world_of (reconnect (B := demo_builtins) new_world))
  /\ session_id (dev (world_of (reconnect (B := demo_builtins) new_world)))
     = PInt 77
  /\ tx_msg_id (dev (world_of (reconnect (B := demo_builtins) new_world)))
     = PInt 28
  /\ services (dev (world_of (reconnect (B := demo_builtins) new_world)))
     = [(KStr "ci", {| entry_version := PInt 3 |})]
  /\ token (dev (world_of (reconnect (B := demo_builtins) new_world)))
     = PStr "c2Vzc2lvbi1ub25jZQ"
  /\ rx (ws (world_of (reconnect (B := demo_builtins) new_world))) = []
  /\ length (sent (ws (world_of (reconnect (B := demo_builtins) new_world))))
     = 9%nat.
Proof.
  repeat match goal with |- _ /\ _ => split end; vm_compute; reflexivity.
Qed.

(** * Further properties of the session handler *)

(** ** Keys and dictionaries *)

Lemma key_eqb_sym (a b : pykey) : key_eqb a b = key_eqb b a.
Proof.
  destruct a, b; cbn; try reflexivity;
    first [apply Z.eqb_sym | apply String.eqb_sym | idtac].
  all: destruct b, b0; reflexivity.
Qed.

Lemma key_eqb_trans (a b c : pykey) :
  key_eqb a b = true -> key_eqb b c = true -> key_eqb a c = true.
Proof.
  destruct a, b; cbn; try discriminate; destruct c; cbn; try discriminate;
    rewrite ?Z.eqb_eq, ?String.eqb_eq; congruence.
Qed.

Lemma key_eqb_congr (a b c : pykey) :
  key_eqb a b = true -> key_eqb c a = key_eqb c b.
Proof.
  intros Hab. destruct (key_eqb c b) eqn:Hcb.
  - apply (key_eqb_trans c b a); [exact Hcb |].
    rewrite key_eqb_sym. exact Hab.
  - destruct (key_eqb c a) eqn:Hca; [| reflexivity].
    rewrite <- Hcb. symmetry. apply (key_eqb_trans c a b); assumption.
Qed.

(** Lookup after assignment. *)
Lemma dict_get_set {V : Type} (k k' : pykey) (v : V) (d : list (pykey * V)) :
  dict_get k (dict_set k' v d)
  = if key_eqb k k' then Some v else dict_get k d.
Proof.
  induction d as [| [k1 v1] d IH]; cbn [dict_set dict_get]; [reflexivity |].
  destruct (key_eqb k' k1) eqn:H1; cbn [dict_get].
  - rewrite (key_eqb_congr k' k1 k H1).
    destruct (key_eqb k k1); reflexivity.
  - rewrite IH.
    destruct (key_eqb k k1) eqn:H2, (key_eqb k k') eqn:H3; try reflexivity.
    rewrite key_eqb_sym in H3.
    rewrite (key_eqb_trans k' k k1 H3 H2) in H1. discriminate.
Qed.

Lemma dict_mem_set {V : Type} (k k' : pykey) (v : V) (d : list (pykey * V)) :
  dict_mem k (dict_set k' v d) = key_eqb k k' || dict_mem k d.
Proof.
  unfold dict_mem. rewrite dict_get_set.
  destruct (key_eqb k k'); reflexivity.
Qed.

Lemma dict_set_length {V : Type} (k : pykey) (v : V) (d : list (pykey * V)) :
  length (dict_set k v d)
  = if dict_mem k d then length d else S (length d).
Proof.
  unfold dict_mem.
  induction d as [| [k1 v1] d IH]; cbn [dict_set dict_get]; [reflexivity |].
  destruct (key_eqb k k1); [reflexivity |].
  cbn [length]. rewrite IH. destruct (dict_get k d); reflexivity.
Qed.

Lemma dict_set_distinct {V : Type} (k : pykey) (v : V) (d : list (pykey * V)) :
  distinct_keys d = true -> distinct_keys (dict_set k v d) = true.
Proof.
  induction d as [| [k1 v1] d IH]; cbn [dict_set distinct_keys];
    [reflexivity |].
  intros H. apply andb_prop in H as [Hk1 Hd].
  destruct (key_eqb k k1) eqn:H1; cbn [distinct_keys].
  - rewrite Hk1, Hd. reflexivity.
  - rewrite dict_mem_set, key_eqb_sym, H1, (IH Hd). cbn [orb].
    rewrite Hk1. reflexivity.
Qed.

Lemma dict_set_string_keys {V : Type} (s : string) (v : V)
  (d : list (pykey * V)) :
  string_keys d = true -> string_keys (dict_set (KStr s) v d) = true.
Proof.
  unfold string_keys.
  induction d as [| [k1 v1] d IH]; cbn [dict_set forallb fst];
    [reflexivity |].
  intros H. apply andb_prop in H as [Hk1 Hd].
  destruct (key_eqb (KStr s) k1); cbn [forallb fst]; rewrite Hk1; cbn [andb].
  - exact Hd.
  - exact (IH Hd).
Qed.

(** ** Messages the dispatcher answers *)

Lemma debug_line {B : Builtins} (msg : pyval) (w : World) :
  (if debug (dev w) then print (LogRX msg) else ret tt) w
  = Ret tt (after_rx msg w).
Proof. unfold after_rx. destruct (debug (dev w)); reflexivity. Qed.

Lemma after_rx_dev (msg : pyval) (w : World) : dev (after_rx msg w) = dev w.
Proof. unfold after_rx. destruct (debug (dev w)); reflexivity. Qed.

Lemma after_rx_ws (msg : pyval) (w : World) : ws (after_rx msg w) = ws w.
Proof. unfold after_rx. destruct (debug (dev w)); reflexivity. Qed.

(** The start of [handle_message]: the message is decoded and printed. *)
Ltac decode_message Hbuf :=
  unfold handle_message; rewrite Hbuf;
  rewrite (bind_lift_inr _ _ _ _ eq_refl);
  unfold bind at 1; unfold self at 1;
  unfold bind at 1; rewrite debug_line.

(** And its resource, its action and the absence of [code] are read. *)
Ltac enter_handler Hbuf Hres Hact Hcode :=
  decode_message Hbuf;
  erewrite bind_lift_inr by (rewrite item_dict, Hres; reflexivity);
  erewrite bind_lift_inr by (rewrite item_dict, Hact; reflexivity);
  erewrite bind_lift_inr
    by (rewrite str_in_dict, (dict_mem_none _ _ Hcode); reflexivity).

Ltac pick_string H :=
  repeat (destruct H as [<- | H]); [.. | destruct H].

Section Answers.
Context {B : Builtins}.

(** X1: a message that lacks [resource], or holds [resource] and lacks
    [action], makes [handle_message] raise [KeyError] for the missing key,
    also when the message carries a [code]; a decoded text that is a list
    and no dictionary raises [TypeError].  In each case the device object
    and the socket are as before. *)
Theorem handle_message_missing_key (w : World) (buf : string) :
  (forall m,
      json_loads buf = Some (PDict m) ->
      dict_get (KStr "resource") m = None ->
      handle_message buf w
      = Raise (KeyError (KStr "resource")) (after_rx (PDict m) w))
  /\ (forall m resource,
        json_loads buf = Some (PDict m) ->
        dict_get (KStr "resource") m = Some resource ->
        dict_get (KStr "action") m = None ->
        handle_message buf w
        = Raise (KeyError (KStr "action")) (after_rx (PDict m) w))
  /\ (forall l,
        json_loads buf = Some (PList l) ->
        exists text,
          handle_message buf w = Raise (TypeError text) (after_rx (PList l) w))
  /\ (forall msg,
        dev (after_rx msg w) = dev w /\ ws (after_rx msg w) = ws w).
Proof.
  repeat match goal with |- _ /\ _ => split end.
  - intros m Hbuf Hres. decode_message Hbuf.
    erewrite bind_lift_inl by (rewrite item_dict, Hres; reflexivity).
    reflexivity.
  - intros m resource Hbuf Hres Hact. decode_message Hbuf.
    erewrite bind_lift_inr by (rewrite item_dict, Hres; reflexivity).
    erewrite bind_lift_inl by (rewrite item_dict, Hact; reflexivity).
    reflexivity.
  - intros l Hbuf. decode_message Hbuf. eexists. reflexivity.
  - intros msg. split; [apply after_rx_dev | apply after_rx_ws].
Qed.

(** X2: a RESPONSE or NOTIFY for [/iz/info], [/ci/info] or [/ni/info]
    returns the first record of [data]; without [data], or with an empty
    list, it returns the empty dictionary; and a [data] that is a number
    raises [TypeError], as [len] does. *)
Theorem handle_message_info (w : World) (buf : string) (m : dict)
  (r a : string) :
  json_loads buf = Some (PDict m) ->
  dict_get (KStr "resource") m = Some (PStr r) ->
  In r ["/iz/info"; "/ci/info"; "/ni/info"] ->
  dict_get (KStr "action") m = Some (PStr a) ->
  In a ["RESPONSE"; "NOTIFY"] ->
  dict_get (KStr "code") m = None ->
  (forall first rest,
      dict_get (KStr "data") m = Some (PList (first :: rest)) ->
      handle_message buf w = Ret first (after_rx (PDict m) w))
  /\ (dict_get (KStr "data") m = None
      \/ dict_get (KStr "data") m = Some (PList []) ->
      handle_message buf w = Ret (PDict []) (after_rx (PDict m) w))
  /\ (forall z,
        dict_get (KStr "data") m = Some (PInt z) ->
        exists text,
          handle_message buf w = Raise (TypeError text) (after_rx (PDict m) w)).
Proof.
  intros Hbuf Hres Hr Hact Ha Hcode.
  assert (Hrun : handle_message buf w
                 = lift (first_record (PDict m)) (after_rx (PDict m) w)).
  { enter_handler Hbuf Hres Hact Hcode.
    pick_string Hr; pick_string Ha; reflexivity. }
  rewrite Hrun. unfold first_record, lift, ebind.
  rewrite str_in_dict, item_dict. unfold dict_mem.
  repeat match goal with |- _ /\ _ => split end.
  - intros first rest ->. reflexivity.
  - intros [-> | ->]; reflexivity.
  - intros z ->. eexists. reflexivity.
Qed.

(** X3: a RESPONSE or NOTIFY for [/ro/values] or [/ro/allMandatoryValues]
    returns what [parse_values] makes of its [data] with the catalog of the
    device object, and raises what [parse_values] raises; without [data] it
    prints the message and returns the empty dictionary.  The device
    object and the socket are as before. *)
Theorem handle_message_values (w : World) (buf : string) (m : dict)
  (r a : string) :
  json_loads buf = Some (PDict m) ->
  dict_get (KStr "resource") m = Some (PStr r) ->
  In r ["/ro/allMandatoryValues"; "/ro/values"] ->
  dict_get (KStr "action") m = Some (PStr a) ->
  In a ["RESPONSE"; "NOTIFY"] ->
  dict_get (KStr "code") m = None ->
  handle_message buf w
  = match dict_get (KStr "data") m with
    | Some data =>
        match parse_values (features (dev w)) data with
        | inr values => Ret values (after_rx (PDict m) w)
        | inl e => Raise e (after_rx (PDict m) w)
        end
    | None =>
        Ret (PDict []) (log_line (LogReceived (PDict m)) (after_rx (PDict m) w))
    end
  /\ dev (world_of (handle_message buf w)) = dev w
  /\ ws (world_of (handle_message buf w)) = ws w.
Proof.
  intros Hbuf Hres Hr Hact Ha Hcode.
  assert (Hrun : handle_message buf w
    = match dict_get (KStr "data") m with
      | Some data =>
          match parse_values (features (dev w)) data with
          | inr values => Ret values (after_rx (PDict m) w)
          | inl e => Raise e (after_rx (PDict m) w)
          end
      | None =>
          Ret (PDict [])
              (log_line (LogReceived (PDict m)) (after_rx (PDict m) w))
      end).
  { enter_handler Hbuf Hres Hact Hcode.
    pick_string Hr; pick_string Ha;
      cbn [eq_str String.eqb Ascii.eqb Bool.eqb orb];
      rewrite str_in_dict, item_dict; unfold dict_mem;
      (destruct (dict_get (KStr "data") m) as [data |];
       [ rewrite (bind_lift_inr _ _ _ _ eq_refl);
         rewrite (bind_lift_inr _ _ _ _ eq_refl);
         unfold lift; destruct (parse_values (features (dev w)) data);
         reflexivity
       | reflexivity ]). }
  split; [exact Hrun |]. rewrite Hrun.
  destruct (dict_get (KStr "data") m) as [data |];
    [destruct (parse_values (features (dev w)) data) |];
    cbn [world_of]; split;
    first [apply after_rx_dev | apply after_rx_ws].
Qed.

(** X4: a RESPONSE or NOTIFY for [/ci/authentication] whose [data] starts
    with a record that holds [response] stores it as the token of the
    device object, and changes nothing else; without [data], or with an
    empty list, nothing changes.  The empty dictionary is returned. *)
Theorem handle_message_authentication (w : World) (buf : string) (m : dict)
  (a : string) :
  json_loads buf = Some (PDict m) ->
  dict_get (KStr "resource") m = Some (PStr "/ci/authentication") ->
  dict_get (KStr "action") m = Some (PStr a) ->
  In a ["RESPONSE"; "NOTIFY"] ->
  dict_get (KStr "code") m = None ->
  (forall first rest response,
      dict_get (KStr "data") m = Some (PList (first :: rest)) ->
      item first "response" = inr response ->
      handle_message buf w
      = Ret (PDict [])
            (with_dev (set_token response (dev (after_rx (PDict m) w)))
                      (after_rx (PDict m) w)))
  /\ (dict_get (KStr "data") m = None
      \/ dict_get (KStr "data") m = Some (PList []) ->
      handle_message buf w = Ret (PDict []) (after_rx (PDict m) w)).
Proof.
  intros Hbuf Hres Hact Ha Hcode. split.
  - intros first rest response Hdata Hresp.
    enter_handler Hbuf Hres Hact Hcode.
    pick_string Ha;
      cbn [eq_str String.eqb Ascii.eqb Bool.eqb orb];
      rewrite str_in_dict, !item_dict; unfold dict_mem; rewrite Hdata;
      norm; cbn [Nat.ltb Nat.leb length]; norm;
      rewrite (bind_lift_inr _ response) by exact Hresp;
      reflexivity.
  - intros Hdata.
    enter_handler Hbuf Hres Hact Hcode.
    pick_string Ha;
      cbn [eq_str String.eqb Ascii.eqb Bool.eqb orb];
      rewrite str_in_dict, ?item_dict; unfold dict_mem;
      destruct Hdata as [-> | ->]; reflexivity.
Qed.

(** X5: the first message of a device, a POST for [/ei/initialValues]
    that holds [sID], [msgID], [version] and a counter under
    [data[0]["edMsgID"]], sets the session id and the message counter of the
    device object and is answered at once: the answer carries the ids, the
    resource and the version of the message itself, the action RESPONSE,
    and the type, name and id of this client.  When [ws.send] raises, the
    exception leaves [handle_message], with the session id and the counter
    set all the same. *)
Theorem handle_message_first_message (w : World) (buf : string) (m : dict)
  (sID msgID version edMsgID : pyval) :
  json_loads buf = Some (PDict m) ->
  dict_get (KStr "resource") m = Some (PStr "/ei/initialValues") ->
  dict_get (KStr "action") m = Some (PStr "POST") ->
  dict_get (KStr "code") m = None ->
  dict_get (KStr "sID") m = Some sID ->
  dict_get (KStr "msgID") m = Some msgID ->
  dict_get (KStr "version") m = Some version ->
  first_counter (PDict m) = inr edMsgID ->
  handle_message buf w
  = match tx_faults (ws w) with
    | Some e :: _ =>
        Raise e
          (after_send None
             (with_dev (set_tx_msg_id edMsgID (set_session_id sID (dev w)))
                       (after_rx (PDict m) w)))
    | _ =>
        Ret (PDict [])
          (after_send
             (Some (first_answer (dev w) sID msgID (PStr "/ei/initialValues")
                                 version))
             (with_dev (set_tx_msg_id edMsgID (set_session_id sID (dev w)))
                       (after_rx (PDict m) w)))
    end.
Proof.
  intros Hbuf Hres Hact Hcode HsID HmsgID Hver Hed.
  unfold first_counter, ebind in Hed.
  destruct (item (PDict m) "data") as [e | data] eqn:Hdata; [discriminate |].
  destruct (getitem data (PInt 0)) as [e | first] eqn:Hfirst; [discriminate |].
  enter_handler Hbuf Hres Hact Hcode.
  cbn [eq_str String.eqb Ascii.eqb Bool.eqb].
  rewrite (bind_lift_inr _ sID) by (rewrite item_dict, HsID; reflexivity).
  unfold bind at 1. unfold update at 1.
  rewrite (bind_lift_inr _ data) by exact Hdata.
  rewrite (bind_lift_inr _ first) by exact Hfirst.
  rewrite (bind_lift_inr _ edMsgID) by exact Hed.
  unfold bind at 1. unfold update at 1.
  unfold bind at 1. unfold self at 1.
  unfold reply.
  rewrite bind_assoc.
  rewrite (bind_lift_inr _ sID) by (rewrite item_dict, HsID; reflexivity).
  rewrite bind_assoc.
  rewrite (bind_lift_inr _ msgID) by (rewrite item_dict, HmsgID; reflexivity).
  rewrite bind_assoc.
  rewrite (bind_lift_inr _ (PStr "/ei/initialValues"))
    by (rewrite item_dict, Hres; reflexivity).
  rewrite bind_assoc.
  rewrite (bind_lift_inr _ version) by (rewrite item_dict, Hver; reflexivity).
  unfold bind, ws_send, first_answer, after_rx.
  destruct (debug (dev w)); cbn [dev ws with_dev log_line tx_faults];
    destruct (tx_faults (ws w)) as [| [e |] faults]; reflexivity.
Qed.

(** X6: the first message is taken in steps.  Without [sID] nothing is
    set.  With [sID] and without a counter to read, because [data] is
    missing or empty or its first record holds no [edMsgID], the session id
    of the device object has been replaced when the exception is raised,
    and the message counter has not; nothing is sent. *)
Theorem handle_message_first_message_fails (w : World) (buf : string)
  (m : dict) :
  json_loads buf = Some (PDict m) ->
  dict_get (KStr "resource") m = Some (PStr "/ei/initialValues") ->
  dict_get (KStr "action") m = Some (PStr "POST") ->
  dict_get (KStr "code") m = None ->
  (dict_get (KStr "sID") m = None ->
   handle_message buf w
   = Raise (KeyError (KStr "sID")) (after_rx (PDict m) w))
  /\ (forall sID e,
        dict_get (KStr "sID") m = Some sID ->
        first_counter (PDict m) = inl e ->
        handle_message buf w
        = Raise e (with_dev (set_session_id sID (dev (after_rx (PDict m) w)))
                            (after_rx (PDict m) w))
        /\ session_id (dev (world_of (handle_message buf w))) = sID
        /\ tx_msg_id (dev (world_of (handle_message buf w)))
           = tx_msg_id (dev w)
        /\ ws (world_of (handle_message buf w)) = ws w).
Proof.
  intros Hbuf Hres Hact Hcode. split.
  - intros HsID. enter_handler Hbuf Hres Hact Hcode.
    cbn [eq_str String.eqb Ascii.eqb Bool.eqb].
    erewrite bind_lift_inl by (rewrite item_dict, HsID; reflexivity).
    reflexivity.
  - intros sID e HsID Hed.
    assert (Hrun : handle_message buf w
                   = Raise e (with_dev (set_session_id sID
                                          (dev (after_rx (PDict m) w)))
                                       (after_rx (PDict m) w))).
    { unfold first_counter, ebind in Hed.
      enter_handler Hbuf Hres Hact Hcode.
      cbn [eq_str String.eqb Ascii.eqb Bool.eqb].
      rewrite (bind_lift_inr _ sID) by (rewrite item_dict, HsID; reflexivity).
      unfold bind at 1. unfold update at 1.
      destruct (item (PDict m) "data") as [e1 | data].
      { injection Hed as <-. reflexivity. }
      rewrite (bind_lift_inr _ data) by reflexivity.
      destruct (getitem data (PInt 0)) as [e1 | first].
      { injection Hed as <-. reflexivity. }
      rewrite (bind_lift_inr _ first) by reflexivity.
      rewrite (bind_lift_inl _ e) by exact Hed. reflexivity. }
    split; [exact Hrun |]. rewrite Hrun. cbn [world_of dev ws with_dev].
    rewrite after_rx_dev, after_rx_ws. repeat split.
Qed.

#[local] Instance same_ws_pre : PreOrder same_ws.
Proof.
  split.
  - intros w. reflexivity.
  - intros a b c H K. unfold same_ws in *. congruence.
Qed.

(** What the branch taken says about the message. *)
Ltac wrong_kind Hkind :=
  exfalso;
  match goal with
  | Hr : item ?msg "resource" = inr ?r,
    Ha : item ?msg "action" = inr ?a,
    Hc : str_in "code" ?msg = inr false |- _ =>
      apply item_inr_dict in Hr as (m & -> & Hres);
      apply item_inr_dict in Ha as (m' & [= <-] & Hact);
      rewrite str_in_dict in Hc; injection Hc as Hc;
      specialize (Hkind m eq_refl);
      unfold first_message in Hkind; try unfold response_for in Hkind;
      rewrite Hres, Hact, Hc in Hkind; cbn [existsb negb andb] in Hkind;
      repeat match goal with
             | Hx : eq_str _ _ = _ |- _ => rewrite Hx in Hkind; clear Hx
             | Hx : orb _ _ = _ |- _ => rewrite Hx in Hkind; clear Hx
             end;
      cbn [orb andb negb] in Hkind;
      repeat match type of Hkind with
             | _ /\ _ => destruct Hkind as [? Hkind]
             end;
      discriminate
  end.

Lemma handle_message_same_dev (buf : string) (msg : pyval) :
  json_loads buf = Some msg ->
  (forall m, msg = PDict m ->
             first_message m = false
             /\ response_for ["/ci/authentication"; "/ci/services"] m
                = false) ->
  holds false same_dev (handle_message buf).
Proof.
  intros Hbuf Hkind. unfold handle_message. rewrite Hbuf.
  apply holds_bind_lift; [exact _ |]. intros ? [= <-].
  repeat first
    [ apply reply_same_dev
    | frame_eq_step ltac:(reflexivity) ].
  all: wrong_kind Hkind.
Qed.

Lemma handle_message_same_ws (buf : string) (msg : pyval) :
  json_loads buf = Some msg ->
  (forall m, msg = PDict m -> first_message m = false) ->
  holds false same_ws (handle_message buf).
Proof.
  intros Hbuf Hkind. unfold handle_message. rewrite Hbuf.
  apply holds_bind_lift; [exact _ |]. intros ? [= <-].
  repeat first
    [ apply holds_for_each;
      [ exact _
      | intros ?; unfold register_service;
        repeat frame_eq_step ltac:(reflexivity) ]
    | frame_eq_step ltac:(reflexivity) ].
  all: wrong_kind Hkind.
Qed.

(** X7: [handle_message] changes the device object for three kinds of
    messages only, the first message of a device, an answer to the
    authentication and a services list; and it uses the socket for the
    first message only.  Whatever else arrives, decoded or not, leaves the
    device object, respectively the socket, as it was. *)
Theorem handle_message_changes (w : World) (buf : string) :
  ((forall m, json_loads buf = Some (PDict m) ->
              first_message m = false
              /\ response_for ["/ci/authentication"; "/ci/services"] m
                 = false) ->
   dev (world_of (handle_message buf w)) = dev w)
  /\ ((forall m, json_loads buf = Some (PDict m) ->
                 first_message m = false) ->
      ws (world_of (handle_message buf w)) = ws w).
Proof.
  split; intros Hkind.
  - destruct (json_loads buf) as [msg |] eqn:Hbuf.
    + apply (holds_world false same_dev _
               (handle_message_same_dev buf msg Hbuf
                  (fun m Hm => Hkind m (f_equal Some Hm)))).
    + unfold handle_message. rewrite Hbuf. reflexivity.
  - destruct (json_loads buf) as [msg |] eqn:Hbuf.
    + apply (holds_world false same_ws _
               (handle_message_same_ws buf msg Hbuf
                  (fun m Hm => Hkind m (f_equal Some Hm)))).
    + unfold handle_message. rewrite Hbuf. reflexivity.
Qed.

Lemma returns_ret {A : Type} (P : A -> Prop) (a : A) :
  P a -> returns P (ret a).
Proof. intros H w. exact H. Qed.

Lemma returns_bind {A C : Type} (P : C -> Prop) (c : M A) (k : A -> M C) :
  (forall a, returns P (k a)) -> returns P (bind c k).
Proof.
  intros Hk w. unfold bind. destruct (c w) as [a w1 | e w1 | w1];
    [apply Hk | exact I | exact I].
Qed.

Lemma returns_bind_lift {A C : Type} (P : C -> Prop) (c : E A)
  (k : A -> M C) :
  (forall a, c = inr a -> returns P (k a)) -> returns P (bind (lift c) k).
Proof.
  intros Hk w. unfold bind, lift. destruct c as [e | a]; [exact I |].
  exact (Hk a eq_refl w).
Qed.

Ltac returns_step :=
  lazymatch goal with
  | |- returns _ (ret _) => apply returns_ret; try reflexivity
  | |- returns _ (bind (lift _) _) => apply returns_bind_lift; intros ? ?
  | |- returns _ (bind _ _) => apply returns_bind; intros ?
  | |- returns _ (if ?b then _ else _) => destruct b eqn:?
  | |- returns _ (match ?x with _ => _ end) => destruct x eqn:?
  end.

(** What the branch taken says about a message that is none of the kinds
    [Hkind] names. *)
Ltac wrong_message Hkind :=
  exfalso;
  match goal with
  | Hr : item ?msg "resource" = inr ?r,
    Ha : item ?msg "action" = inr ?a,
    Hc : str_in "code" ?msg = inr _ |- _ =>
      apply item_inr_dict in Hr as (m & -> & Hres);
      apply item_inr_dict in Ha as (m' & [= <-] & Hact);
      rewrite str_in_dict in Hc; injection Hc as Hc;
      destruct (Hkind m eq_refl) as (Hcode & Hresp);
      try congruence;
      unfold response_for in Hresp;
      rewrite Hres, Hact, Hcode in Hresp;
      cbn [existsb negb andb] in Hresp;
      repeat match goal with
             | Hx : orb _ _ = true |- _ =>
                 apply orb_true_iff in Hx; destruct Hx as [Hx | Hx]
             end;
      repeat match goal with
             | Hx : eq_str _ _ = _ |- _ => rewrite Hx in Hresp; clear Hx
             end;
      rewrite ?orb_true_r in Hresp; cbn [orb andb negb] in Hresp;
      discriminate
  end.

Lemma handle_message_returns (buf : string) (msg : pyval) :
  json_loads buf = Some msg ->
  (forall m, msg = PDict m ->
             dict_mem (KStr "code") m = false
             /\ response_for [ "/iz/info"; "/ci/info"; "/ni/info";
                               "/ro/allMandatoryValues"; "/ro/values" ] m
                = false) ->
  returns (fun values => values = PDict []) (handle_message buf).
Proof.
  intros Hbuf Hkind. unfold handle_message. rewrite Hbuf.
  apply returns_bind_lift. intros ? [= <-].
  repeat returns_step.
  all: wrong_message Hkind.
Qed.

(** X8: [handle_message] returns something else than the empty
    dictionary for three kinds of messages only: an error of the device,
    which holds [code], an answer with device or network information, and
    an answer with values.  For every other message it returns, the first
    message of a device, the services list, the answer to the
    authentication and the messages it does not know, it returns the empty
    dictionary. *)
Theorem handle_message_returns_empty (w w' : World) (buf : string)
  (values : pyval) :
  handle_message buf w = Ret values w' ->
  (forall m, json_loads buf = Some (PDict m) ->
             dict_mem (KStr "code") m = false
             /\ response_for [ "/iz/info"; "/ci/info"; "/ni/info";
                               "/ro/allMandatoryValues"; "/ro/values" ] m
                = false) ->
  values = PDict [].
Proof.
  intros Hrun Hkind.
  destruct (json_loads buf) as [msg |] eqn:Hbuf.
  - pose proof (handle_message_returns buf msg Hbuf
                  (fun m Hm => Hkind m (f_equal Some Hm)) w) as H.
    rewrite Hrun in H. exact H.
  - unfold handle_message in Hrun. rewrite Hbuf in Hrun. discriminate.
Qed.

End Answers.

(** A message with a code and no action is not reported as an error of
    the device: it raises. *)
Lemma handle_message_missing_key_witness :
  handle_message (B := tour_builtins) "noAction" session_world
  = Raise (KeyError (KStr "action")) session_world.
Proof.
  exact (proj1 (proj2 (handle_message_missing_key (B := tour_builtins)
                         session_world "noAction"))
           (items msg_no_action) (PStr "/ro/values")
           eq_refl eq_refl eq_refl).
Defined.

Lemma handle_message_info_witness :
  handle_message (B := tour_builtins) "info" session_world
  = Ret (PDict [ (KStr "deviceID", PStr "SN-0042");
                 (KStr "brand", PStr "BOSCH") ])
        session_world.
Proof.
  exact (proj1 (handle_message_info (B := tour_builtins) session_world "info"
                  (items msg_info) "/ci/info" "RESPONSE"
                  eq_refl eq_refl (or_intror (or_introl eq_refl))
                  eq_refl (or_introl eq_refl) eq_refl)
           _ [] eq_refl).
Defined.

(** The power state is reported twice: the later value, On, is kept, at
    the place of the first. *)
Lemma handle_message_values_witness :
  handle_message (B := tour_builtins) "values" session_world
  = Ret (PDict [ (KStr "PowerState", PStr "On");
                 (KStr "DoorState", PInt 2) ])
        session_world.
Proof.
  exact (proj1 (handle_message_values (B := tour_builtins) session_world
                  "values" (items msg_values) "/ro/values" "NOTIFY"
                  eq_refl eq_refl (or_intror (or_introl eq_refl))
                  eq_refl (or_intror (or_introl eq_refl)) eq_refl)).
Defined.

Lemma handle_message_authentication_witness :
  handle_message (B := tour_builtins) "authentication" session_world
  = Ret (PDict [])
        (with_dev (set_token (PStr "dG9rZW4") session_device) session_world).
Proof.
  exact (proj1 (handle_message_authentication (B := tour_builtins)
                  session_world "authentication" (items msg_authentication)
                  "RESPONSE" eq_refl eq_refl eq_refl (or_introl eq_refl)
                  eq_refl)
           _ [] (PStr "dG9rZW4") eq_refl eq_refl).
Defined.

(** A new device object takes session 77 and counter 20 from the first
    message, and its answer carries the message id 1 of that message. *)
Lemma handle_message_first_message_witness :
  handle_message (B := demo_builtins) "initialValues" fresh_world
  = Ret (PDict [])
        (after_send
           (Some (first_answer (dev fresh_world) (PInt 77) (PInt 1)
                               (PStr "/ei/initialValues") (PInt 2)))
           (with_dev (set_tx_msg_id (PInt 20)
                        (set_session_id (PInt 77) (dev fresh_world)))
                     fresh_world)).
Proof.
  exact (handle_message_first_message (B := demo_builtins) fresh_world
           "initialValues" (items msg_initial_values)
           (PInt 77) (PInt 1) (PInt 2) (PInt 20)
           eq_refl eq_refl eq_refl eq_refl eq_refl eq_refl eq_refl eq_refl).
Defined.

(** In the middle of session 77 a first message names session 78 and no
    counter: the device object is left with session 78 and the counter 25
    of session 77. *)
Lemma handle_message_first_message_fails_witness :
  handle_message (B := tour_builtins) "noCounter" session_world
  = Raise IndexError
          (with_dev (set_session_id (PInt 78) session_device) session_world)
  /\ session_id (dev (world_of (handle_message (B := tour_builtins)
                                  "noCounter" session_world)))
     = PInt 78
  /\ tx_msg_id (dev (world_of (handle_message (B := tour_builtins)
                                 "noCounter" session_world)))
     = PInt 25
  /\ ws (world_of (handle_message (B := tour_builtins)
                     "noCounter" session_world))
     = quiet_socket.
Proof.
  exact (proj2 (handle_message_first_message_fails (B := tour_builtins)
                  session_world "noCounter" (items msg_no_counter)
                  eq_refl eq_refl eq_refl eq_refl)
           (PInt 78) IndexError eq_refl eq_refl).
Defined.

(** A notice of registered devices changes neither the device object nor
    the socket. *)
Lemma handle_message_changes_witness :
  dev (world_of (handle_message (B := demo_builtins) "registeredDevices"
                   session_world))
  = session_device
  /\ ws (world_of (handle_message (B := demo_builtins) "registeredDevices"
                     session_world))
     = quiet_socket.
Proof.
  split.
  - apply (proj1 (handle_message_changes (B := demo_builtins) session_world
                    "registeredDevices")).
    intros m [= <-]. split; reflexivity.
  - apply (proj2 (handle_message_changes (B := demo_builtins) session_world
                    "registeredDevices")).
    intros m [= <-]. reflexivity.
Defined.

(** The services list is answered with the empty dictionary. *)
Lemma handle_message_returns_empty_witness :
  exists values w',
    handle_message (B := demo_builtins) "services" session_world
    = Ret values w'
    /\ values = PDict [].
Proof.
  assert (H : handle_message (B := demo_builtins) "services" session_world
              = Ret (PDict [])
                    (world_of (handle_message (B := demo_builtins) "services"
                                 session_world)))
    by (vm_compute; reflexivity).
  exists (PDict []), (world_of (handle_message (B := demo_builtins)
                                  "services" session_world)).
  split; [exact H |].
  apply (handle_message_returns_empty (B := demo_builtins) session_world _
           "services" (PDict []) H).
  intros m [= <-]. split; reflexivity.
Defined.

(** ** The services table *)

Lemma for_each_app {A : Type} (l1 l2 : list A) (body : A -> M unit)
  (w : World) :
  for_each (l1 ++ l2) body w
  = bind (for_each l1 body) (fun _ => for_each l2 body) w.
Proof.
  revert w. induction l1 as [| a l1 IH]; intros w; cbn [app for_each].
  - reflexivity.
  - unfold bind in *.
    destruct (body a w); [apply IH | reflexivity | reflexivity].
Qed.

Lemma registered_lookup (records : list pyval) :
  forall table table',
    registered records table = Some table' ->
    forall k,
      dict_get k table'
      = match latest k records with
        | Some entry => Some entry
        | None => dict_get k table
        end.
Proof.
  induction records as [| service rest IH]; intros table table' H k;
    cbn [registered latest] in *.
  - injection H as <-. reflexivity.
  - destruct (service_record service) as [[key entry] |]; [| discriminate].
    rewrite (IH _ _ H k), dict_get_set.
    destruct (latest k rest); [reflexivity |].
    destruct (key_eqb k key); reflexivity.
Qed.

Section ServicesTable.
Context {B : Builtins}.

Lemma register_service_raises (service : pyval) (w : World) :
  service_record service = None ->
  exists e, register_service service w = Raise e w.
Proof.
  unfold service_record, register_service. intros H.
  destruct (item service "version") as [e | version];
    [exists e; reflexivity |].
  destruct (item service "service") as [e | sname];
    [exists e; reflexivity |].
  destruct (key_of sname) as [e | k] eqn:Hk; [| discriminate].
  exists e.
  rewrite (bind_lift_inr _ version) by reflexivity.
  rewrite (bind_lift_inr _ sname) by reflexivity.
  rewrite (bind_lift_inl _ e) by exact Hk. reflexivity.
Qed.

(** A services list comes down to the loop over its records. *)
Lemma handle_message_services_run (w : World) (buf : string) (m : dict)
  (data : pyval) (records : list pyval) :
  json_loads buf = Some (PDict m) ->
  services_message m = true ->
  dict_get (KStr "data") m = Some data ->
  iter data = inr records ->
  handle_message buf w
  = bind (for_each records register_service)
         (fun _ => bind (update (set_services_initialized true))
                        (fun _ => ret (PDict [])))
         (after_rx (PDict m) w).
Proof.
  intros Hbuf Hmsg Hdata Hiter.
  unfold services_message in Hmsg.
  destruct (dict_get (KStr "resource") m) as [resource |] eqn:Hres;
    [| discriminate].
  destruct (dict_get (KStr "action") m) as [action |] eqn:Hact;
    [| discriminate].
  apply andb_prop in Hmsg as [Hmsg Hci].
  apply andb_prop in Hmsg as [Hmsg Hresp].
  apply andb_prop in Hmsg as [Hcode Hpost].
  apply negb_true_iff in Hcode, Hpost.
  decode_message Hbuf.
  rewrite (bind_lift_inr _ resource) by (rewrite item_dict, Hres; reflexivity).
  rewrite (bind_lift_inr _ action) by (rewrite item_dict, Hact; reflexivity).
  rewrite (bind_lift_inr _ false) by (rewrite str_in_dict, Hcode; reflexivity).
  rewrite Hpost, Hresp.
  assert (Hr : forall s, negb (String.eqb s "/ci/services") = true ->
                         eq_str resource s = false).
  { intros s Hs. destruct resource; try reflexivity. cbn in Hci |- *.
    apply String.eqb_eq in Hci. subst s0.
    apply negb_true_iff in Hs. rewrite String.eqb_sym. exact Hs. }
  rewrite !Hr by reflexivity. rewrite Hci. cbn [orb].
  rewrite (bind_lift_inr _ data) by (rewrite item_dict, Hdata; reflexivity).
  rewrite (bind_lift_inr _ records) by exact Hiter.
  reflexivity.
Qed.

(** X9: after a well-formed services list the services are discovered
    and the table answers, for every service, with the entry of the last
    record of the list that names it; a service the list does not name
    keeps the entry it had, so the table never loses a service. *)
Theorem services_list_lookup (w : World) (buf : string) (m : dict)
  (data : pyval) (records : list pyval) :
  json_loads buf = Some (PDict m) ->
  services_message m = true ->
  dict_get (KStr "data") m = Some data ->
  iter data = inr records ->
  services_wf records = true ->
  exists w',
    handle_message buf w = Ret (PDict []) w'
    /\ services_initialized (dev w') = true
    /\ (forall k,
          dict_get k (services (dev w'))
          = match latest k records with
            | Some entry => Some entry
            | None => dict_get k (services (dev w))
            end)
    /\ ws w' = ws w.
Proof.
  intros Hbuf Hmsg Hdata Hiter Hwf.
  destruct (registered_wf records (services (dev w)) Hwf) as (table & Hreg).
  destruct (handle_message_services w buf m data records table
              Hbuf Hmsg Hdata Hiter Hreg) as (w' & Hrun & Hdev & Hws).
  exists w'. split; [exact Hrun |].
  rewrite Hdev. cbn [services_initialized services set_services_initialized
                       set_services].
  split; [reflexivity |]. split; [| exact Hws].
  intros k. apply (registered_lookup records _ _ Hreg).
Qed.

(** X10: a services list with a record that lacks [service] or [version],
    or names the service by a list or a dictionary, makes
    [handle_message] raise at that record: the records before it are in
    the table, the records after it are not looked at, and
    [services_initialized] is as before. *)
Theorem services_list_partial (w : World) (buf : string) (m : dict)
  (data : pyval) (good rest : list pyval) (bad : pyval)
  (table : list (pykey * service_entry)) :
  json_loads buf = Some (PDict m) ->
  services_message m = true ->
  dict_get (KStr "data") m = Some data ->
  iter data = inr (good ++ bad :: rest) ->
  registered good (services (dev w)) = Some table ->
  service_record bad = None ->
  exists e w',
    handle_message buf w = Raise e w'
    /\ services (dev w') = table
    /\ services_initialized (dev w') = services_initialized (dev w)
    /\ ws w' = ws w.
Proof.
  intros Hbuf Hmsg Hdata Hiter Hreg Hbad.
  rewrite (handle_message_services_run w buf m data _ Hbuf Hmsg Hdata Hiter).
  set (w1 := after_rx (PDict m) w).
  assert (Hreg1 : registered good (services (dev w1)) = Some table)
    by (unfold w1; rewrite after_rx_dev; exact Hreg).
  destruct (register_service_raises bad
              (with_dev (set_services table (dev w1)) w1) Hbad) as (e & He).
  exists e, (with_dev (set_services table (dev w1)) w1).
  split.
  - unfold bind at 1. rewrite for_each_app. unfold bind at 1.
    rewrite (for_each_register good w1 table Hreg1).
    cbn [for_each]. unfold bind at 1. rewrite He. reflexivity.
  - cbn [dev ws with_dev services services_initialized set_services].
    unfold w1. rewrite after_rx_dev, after_rx_ws. repeat split.
Qed.

End ServicesTable.

(** The list names [ci] twice, with versions 1 and 2, and [ni] once: the
    table answers 2 for [ci], which keeps its place, and 1 for [ni]. *)
Lemma services_list_lookup_witness :
  exists w',
    handle_message (B := tour_builtins) "servicesTwice" session_world
    = Ret (PDict []) w'
    /\ services_initialized (dev w') = true
    /\ (forall k,
          dict_get k (services (dev w'))
          = match latest k [ PDict [ (KStr "service", PStr "ci");
                                     (KStr "version", PInt 1) ];
                             PDict [ (KStr "service", PStr "ni");
                                     (KStr "version", PInt 1) ];
                             PDict [ (KStr "service", PStr "ci");
                                     (KStr "version", PInt 2) ] ] with
            | Some entry => Some entry
            | None => dict_get k (services (dev session_world))
            end)
    /\ ws w' = ws session_world.
Proof.
  exact (services_list_lookup (B := tour_builtins) session_world
           "servicesTwice" (items msg_services_twice) _ _
           eq_refl eq_refl eq_refl eq_refl eq_refl).
Defined.

(** The second record has no version: [ci] is in the table, and the
    services of the new device object are not discovered. *)
Lemma services_list_partial_witness :
  exists e w',
    handle_message (B := tour_builtins) "servicesShort" fresh_world
    = Raise e w'
    /\ services (dev w') = [(KStr "ci", {| entry_version := PInt 3 |})]
    /\ services_initialized (dev w') = services_initialized (dev fresh_world)
    /\ ws w' = ws fresh_world.
Proof.
  exact (services_list_partial (B := tour_builtins) fresh_world
           "servicesShort" (items msg_services_short) _
           [PDict [(KStr "service", PStr "ci"); (KStr "version", PInt 3)]]
           [] (PDict [(KStr "service", PStr "iz")])
           [(KStr "ci", {| entry_version := PInt 3 |})]
           eq_refl eq_refl eq_refl eq_refl eq_refl eq_refl).
Defined.

(** ** Reading one event *)

Section Reading.
Context {B : Builtins}.

(** X11: [recv] waits exactly when the connection has no event left, and
    then changes nothing; otherwise it returns, and it has read exactly
    one event, also when the frame made [handle_message] raise: the frame
    is not read again.  The connections to come, the random source and the
    catalog are as before, and the services, once discovered, stay so.
    What [handle_message] returns for a frame is what [recv] returns. *)
Theorem recv_reads_exactly_one (w : World) :
  (rx (ws w) = [] -> recv w = Blocked w)
  /\ (forall ev rest,
        rx (ws w) = ev :: rest ->
        exists v w',
          recv w = Ret v w' /\ rx (ws w') = rest /\ received w w')
  /\ (forall buf rest v w',
        rx (ws w) = RxFrame buf :: rest ->
        handle_message buf (pop_rx w) = Ret v w' ->
        recv w = Ret v w').
Proof.
  split; [| split].
  - intros Hrx. rewrite recv_unfold, Hrx. reflexivity.
  - intros ev rest Hrx.
    destruct (recv_reads_one w ev rest Hrx) as (v & w' & Hrun & Hrest).
    exists v, w'. split; [exact Hrun |]. split; [exact Hrest |].
    exact (ret_world _ _ _ _ _ _ recv_received Hrun).
  - intros buf rest v w' Hrx Hrun.
    rewrite recv_unfold, Hrx, Hrun. reflexivity.
Qed.

End Reading.

(** A frame that is no JSON text is read once: the frame after it is the
    next to be read. *)
Lemma recv_reads_exactly_one_witness :
  exists v w',
    recv (B := demo_builtins)
         (with_ws (with_rx [RxFrame "not json"; RxFrame "services"]
                           quiet_socket) session_world)
    = Ret v w'
    /\ rx (ws w') = [RxFrame "services"]
    /\ received (with_ws (with_rx [RxFrame "not json"; RxFrame "services"]
                                  quiet_socket) session_world) w'.
Proof.
  exact (proj1 (proj2 (recv_reads_exactly_one (B := demo_builtins)
                         (with_ws (with_rx [ RxFrame "not json";
                                             RxFrame "services" ]
                                           quiet_socket) session_world)))
           (RxFrame "not json") [RxFrame "services"] eq_refl).
Defined.

(** ** Requests and the message counter *)

Lemma ids_from_S (n : Z) (k : nat) :
  ids_from n (S k) = Some (PInt n) :: ids_from (n + 1) k.
Proof.
  unfold ids_from. cbn [seq map]. f_equal.
  - do 2 f_equal. lia.
  - rewrite <- seq_shift, map_map. apply map_ext. intros i.
    do 2 f_equal. lia.
Qed.

#[local] Instance accepting_pre : PreOrder accepting.
Proof.
  split.
  - intros w H. exact H.
  - intros a b c H K Ha. apply K, H, Ha.
Qed.

Section Counting.
Context {B : Builtins}.

Lemma send_counted_unset (msg : dict) (w : World) :
  int_value (tx_msg_id (dev w)) = None ->
  send_counted msg w = Raise counter_unset (after_try_send (PDict msg) w).
Proof.
  intros Hn. unfold send_counted, after_try_send, bind, try_except, ws_send.
  destruct (tx_faults (ws w)) as [| [e |] rest]; cbn;
    unfold lift, add_one; rewrite Hn; reflexivity.
Qed.

(** The checks of [get] are made for a POST to one of two resources. *)
Lemma validate_skips (resource action : string) (data : pyval) (w : World) :
  action <> "POST"
  \/ (resource <> "/ro/values" /\ resource <> "/ro/activeProgram") ->
  validate resource action data w = Ret tt w.
Proof.
  unfold validate. intros [Ha | [Hr1 Hr2]].
  - apply String.eqb_neq in Ha. rewrite Ha. reflexivity.
  - apply String.eqb_neq in Hr1, Hr2. rewrite Hr1, Hr2.
    destruct (String.eqb action "POST"); reflexivity.
Qed.

Lemma after_try_send_accepted (msg : pyval) (w : World) :
  tx_faults (ws w) = [] ->
  after_try_send msg w = after_send (Some msg) w.
Proof. unfold after_try_send. intros ->. reflexivity. Qed.

(** What a call of [get] that returns has done, on a socket that accepts
    every message. *)
Lemma get_ret_inv (resource : string) (version : option pyval)
  (action : option string) (data : pyval) (w w' : World) :
  get resource version action data w = Ret tt w' ->
  tx_faults (ws w) = [] ->
  exists n v,
    int_value (tx_msg_id (dev w)) = Some n
    /\ dev w' = set_tx_msg_id (PInt (n + 1)) (dev w)
    /\ sent (ws w')
       = sent (ws w)
           ++ [PDict (request (dev w) resource v (action_arg action) data)]
    /\ tx_faults (ws w') = []
    /\ rx (ws w') = rx (ws w).
Proof.
  intros Hrun Hquiet.
  destruct (resolve_version_ret resource (version_arg version) w)
    as (v & w1 & Hv & (D1 & S1 & _)).
  assert (Hpass : exists w2,
             match data with
             | PNone => w2 = w1
             | _ => validate resource (action_arg action) (as_list data) w1
                    = Ret tt w2
             end
             /\ dev w2 = dev w /\ ws w2 = ws w).
  { rewrite (get_run _ _ _ _ _ _ _ Hv) in Hrun.
    destruct data as [| b | z | s | l | d];
      try (exists w1; repeat split; assumption);
      match type of Hrun with
      | context [validate ?r ?a ?p w1] =>
          pose proof (validate_printed r a p w1) as Hp;
          destruct (validate r a p w1) as [[] w2 | e w2 | w2];
          try discriminate;
          destruct Hp as (D2 & S2 & _);
          exists w2; repeat split; congruence
      end. }
  destruct Hpass as (w2 & Hpass & D2 & S2).
  destruct (int_value (tx_msg_id (dev w))) as [n |] eqn:Hn.
  - rewrite (get_passes w w1 w2 _ _ _ _ v n Hn Hv Hpass) in Hrun.
    injection Hrun as <-. exists n, v.
    rewrite after_try_send_accepted by (rewrite S2; exact Hquiet).
    cbn [dev ws with_dev with_ws after_send sent tx_faults rx].
    rewrite S2, Hquiet. repeat split.
  - exfalso. rewrite (get_run _ _ _ _ _ _ _ Hv) in Hrun.
    assert (Hn2 : int_value (tx_msg_id (dev w2)) = None)
      by (rewrite D2; exact Hn).
    destruct data; try rewrite Hpass in Hrun; try subst w2;
      rewrite send_counted_unset in Hrun by assumption; discriminate.
Qed.

(** A call of [get] whose payload passes the checks, on a counter that is
    no integer. *)
Lemma get_raises_unset (w w1 w2 : World) (resource : string)
  (version : option pyval) (action : option string) (data v : pyval) :
  int_value (tx_msg_id (dev w)) = None ->
  resolve_version resource (version_arg version) w = Ret v w1 ->
  match data with
  | PNone => w2 = w1
  | _ => validate resource (action_arg action) (as_list data) w1 = Ret tt w2
  end ->
  get resource version action data w
  = Raise counter_unset
      (after_try_send
         (PDict (request (dev w) resource v (action_arg action) data)) w2)
  /\ dev w2 = dev w.
Proof.
  intros Hn Hv Hpass.
  destruct (resolve_version_ret resource (version_arg version) w)
    as (v' & w1' & Hv' & (D1 & S1 & _)).
  rewrite Hv in Hv'. injection Hv' as <- <-.
  assert (D2 : dev w2 = dev w).
  { destruct data as [| b | z | s | l | d]; try (subst w2; exact D1);
      match type of Hpass with
      | validate _ _ ?p _ = _ =>
          pose proof (validate_printed resource (action_arg action) p w1) as Hp
      end;
      rewrite Hpass in Hp; destruct Hp as (D2 & _); congruence. }
  assert (Hn2 : int_value (tx_msg_id (dev w2)) = None)
    by (rewrite D2; exact Hn).
  split; [| exact D2].
  rewrite (get_run _ _ _ _ _ _ _ Hv). unfold request.
  destruct data; try rewrite Hpass; try subst w2;
    rewrite send_counted_unset by assumption;
    rewrite ?D1; reflexivity.
Qed.

(** X12: as long as the message counter of the device object is no
    integer, as after construction, a call of [get] whose payload passes
    the checks hands its message to the socket all the same, with the
    counter as it is for [msgID], and then raises [TypeError] at the
    increment; the device object is unchanged. *)
Theorem get_unset_counter (w w1 w2 : World) (resource : string)
  (version : option pyval) (action : option string) (data v : pyval) :
  int_value (tx_msg_id (dev w)) = None ->
  resolve_version resource (version_arg version) w = Ret v w1 ->
  match data with
  | PNone => w2 = w1
  | _ => validate resource (action_arg action) (as_list data) w1 = Ret tt w2
  end ->
  (exists text,
      get resource version action data w
      = Raise (TypeError text)
          (after_try_send
             (PDict (request (dev w) resource v (action_arg action) data)) w2))
  /\ field "msgID"
       (PDict (request (dev w) resource v (action_arg action) data))
     = Some (tx_msg_id (dev w))
  /\ dev (world_of (get resource version action data w)) = dev w.
Proof.
  intros Hn Hv Hpass.
  destruct (get_raises_unset w w1 w2 resource version action data v
              Hn Hv Hpass) as (Hrun & D2).
  split; [eexists; exact Hrun |]. split; [apply request_ids |].
  rewrite Hrun. cbn [world_of]. unfold after_try_send.
  destruct (tx_faults (ws w2)) as [| [e |] rest]; exact D2.
Qed.

(** X13: the payload of a request is checked only when the action is
    POST, spelled so, and the resource is [/ro/values] or
    [/ro/activeProgram].  Any other request with a payload goes out
    unchecked: the payload, wrapped in a list unless it is one, is the
    [data] of the message, and the counter moves on. *)
Theorem get_unchecked_payload (w : World) (resource : string)
  (version : option pyval) (action : option string) (data : pyval) (n : Z) :
  data <> PNone ->
  int_value (tx_msg_id (dev w)) = Some n ->
  action_arg action <> "POST"
  \/ (resource <> "/ro/values" /\ resource <> "/ro/activeProgram") ->
  exists v w1,
    resolve_version resource (version_arg version) w = Ret v w1
    /\ get resource version action data w
       = Ret tt (with_dev (set_tx_msg_id (PInt (n + 1)) (dev w))
                   (after_try_send
                      (PDict (request (dev w) resource v (action_arg action)
                                      data)) w1))
    /\ field "data"
         (PDict (request (dev w) resource v (action_arg action) data))
       = Some (as_list data).
Proof.
  intros Hdata Hn Hskip.
  destruct (resolve_version_ret resource (version_arg version) w)
    as (v & w1 & Hv & _).
  exists v, w1. split; [exact Hv |]. split.
  - apply (get_passes w w1 w1 _ _ _ _ v n Hn Hv).
    destruct data; try contradiction; apply validate_skips; exact Hskip.
  - unfold request, field.
    destruct data; try contradiction; rewrite dict_get_set; reflexivity.
Qed.

(** X14: a run of requests without payload, on a socket that accepts
    every message, adds one message per call to the messages sent, in the
    order of the calls; their message ids are [n], [n + 1], ... without gap
    or repeat, where [n] is the counter before the run, they all carry the
    session id of the device object, and the counter ends at [n] plus the
    number of calls. *)
Theorem gets_consecutive_ids
  (calls : list (string * option pyval * option string)) (w : World) (n : Z) :
  tx_msg_id (dev w) = PInt n ->
  tx_faults (ws w) = [] ->
  exists w' new,
    gets calls w = Ret tt w'
    /\ sent (ws w') = sent (ws w) ++ new
    /\ map (field "msgID") new = ids_from n (length calls)
    /\ map (field "resource") new
       = map (fun c => Some (PStr (fst (fst c)))) calls
    /\ Forall (fun msg => field "sID" msg = Some (session_id (dev w))) new
    /\ tx_msg_id (dev w') = PInt (n + Z.of_nat (length calls)).
Proof.
  revert w n. unfold gets.
  induction calls as [| [[resource version] action] rest IH];
    intros w n Hid Hquiet.
  - exists w, []. cbn [for_each length map]. rewrite app_nil_r.
    repeat split; [constructor | rewrite Hid; f_equal; cbn; lia].
  - destruct (get_counter w resource version action n) as (w1 & Hget & Hid1).
    { rewrite Hid. reflexivity. }
    destruct (get_ret_inv _ _ _ _ _ _ Hget Hquiet)
      as (n' & v & Hn' & Hdev & Hsent & Hquiet1 & _).
    destruct (IH w1 (n + 1)%Z Hid1 Hquiet1)
      as (w2 & new & Hrest & Hsent2 & Hids & Hres & Hsid & Hid2).
    exists w2, (PDict (request (dev w) resource v (action_arg action) PNone)
                  :: new).
    split; [cbn [for_each fst snd]; unfold bind; rewrite Hget; exact Hrest |].
    split; [rewrite Hsent2, Hsent, <- app_assoc; reflexivity |].
    split; [| split; [| split]].
    + cbn [map length]. rewrite ids_from_S, Hids. f_equal.
      cbn. rewrite Hid. reflexivity.
    + cbn [map fst]. rewrite Hres. reflexivity.
    + constructor; [reflexivity |].
      rewrite Hdev in Hsid. exact Hsid.
    + rewrite Hid2. f_equal. cbn [length]. lia.
Qed.

(** X15: [get] never waits and never reads the inbound stream: whatever its
    arguments, and whether it returns or raises, the events left to read,
    the connections to come and the random source are as before, and of
    the device object only the message counter can have changed. *)
Theorem get_touches_counter_only (resource : string) (version : option pyval)
  (action : option string) (data : pyval) (w : World) :
  requested w (world_of (get resource version action data w))
  /\ (forall w', get resource version action data w <> Blocked w').
Proof.
  pose proof (get_requested resource version action data w) as H.
  destruct (get resource version action data w) as [[] w1 | e w1 | w1];
    try contradiction; split; try exact H; intros w'; discriminate.
Qed.

(** X16: a POST for [/ro/activeProgram] is checked by
    [test_program_data], on the payload wrapped in a list unless it is
    one, against the catalog of the device object: what the check raises,
    [get] raises, with nothing sent and nothing printed by the check; and
    when the check passes the request goes out and the counter moves
    on. *)
Theorem get_checks_program (w : World) (version : option pyval)
  (data : pyval) (n : Z) :
  data <> PNone ->
  int_value (tx_msg_id (dev w)) = Some n ->
  exists v w1,
    resolve_version "/ro/activeProgram" (version_arg version) w = Ret v w1
    /\ get "/ro/activeProgram" version (Some "POST") data w
       = match test_program_data (features (dev w)) (as_list data) with
         | inl e => Raise e w1
         | inr _ =>
             Ret tt
               (with_dev (set_tx_msg_id (PInt (n + 1)) (dev w))
                  (after_try_send
                     (PDict (request (dev w) "/ro/activeProgram" v "POST"
                                     data)) w1))
         end.
Proof.
  intros Hdata Hn.
  destruct (resolve_version_ret "/ro/activeProgram" (version_arg version) w)
    as (v & w1 & Hv & (D1 & _)).
  exists v, w1. split; [exact Hv |].
  assert (Hval : validate "/ro/activeProgram" (action_arg (Some "POST"))
                   (as_list data) w1
                 = lift (test_program_data (features (dev w)) (as_list data))
                        w1).
  { unfold validate, bind, self. cbn [action_arg String.eqb Ascii.eqb
                                        Bool.eqb].
    rewrite D1. reflexivity. }
  destruct (test_program_data (features (dev w)) (as_list data))
    as [e | []] eqn:Htest.
  - apply (get_stops_at_validation w w1 w1 "/ro/activeProgram" version
             (Some "POST") data v e Hdata Hv Hval).
  - apply (get_passes w w1 w1 "/ro/activeProgram" version (Some "POST")
             data v n Hn Hv).
    destruct data; try contradiction; exact Hval.
Qed.

(** X17: [reply] reads [sID], [msgID], [resource] and [version] of the
    message it answers, in this order, and raises [KeyError] for the first
    of them that is missing, with nothing sent.  An exception of [ws.send]
    is not caught, as it is in [get]: it leaves [reply], and the message
    counter is as before. *)
Theorem reply_raises (w : World) (m : dict) (answer : pyval) :
  (dict_get (KStr "sID") m = None ->
   reply (PDict m) answer w = Raise (KeyError (KStr "sID")) w)
  /\ (forall sID,
        dict_get (KStr "sID") m = Some sID ->
        dict_get (KStr "msgID") m = None ->
        reply (PDict m) answer w = Raise (KeyError (KStr "msgID")) w)
  /\ (forall sID msgID,
        dict_get (KStr "sID") m = Some sID ->
        dict_get (KStr "msgID") m = Some msgID ->
        dict_get (KStr "resource") m = None ->
        reply (PDict m) answer w = Raise (KeyError (KStr "resource")) w)
  /\ (forall sID msgID resource,
        dict_get (KStr "sID") m = Some sID ->
        dict_get (KStr "msgID") m = Some msgID ->
        dict_get (KStr "resource") m = Some resource ->
        dict_get (KStr "version") m = None ->
        reply (PDict m) answer w = Raise (KeyError (KStr "version")) w)
  /\ (forall sID msgID resource version e faults,
        dict_get (KStr "sID") m = Some sID ->
        dict_get (KStr "msgID") m = Some msgID ->
        dict_get (KStr "resource") m = Some resource ->
        dict_get (KStr "version") m = Some version ->
        tx_faults (ws w) = Some e :: faults ->
        reply (PDict m) answer w = Raise e (after_send None w)
        /\ sent (ws (after_send None w)) = sent (ws w)
        /\ dev (after_send None w) = dev w).
Proof.
  unfold reply. rewrite !item_dict.
  repeat match goal with |- _ /\ _ => split end.
  - intros ->. reflexivity.
  - intros sID -> ->. reflexivity.
  - intros sID msgID -> -> ->. reflexivity.
  - intros sID msgID resource -> -> -> ->. reflexivity.
  - intros sID msgID resource version e faults -> -> -> -> Hfault.
    do 4 lift_step. unfold ws_send. rewrite Hfault.
    split; [reflexivity |]. split; reflexivity.
Qed.

End Counting.

(** A new device object asked to send before the first message of the
    device has come: the request goes out with [None] for both ids, and
    the call raises. *)
Lemma get_unset_counter_witness :
  (exists text,
      get (B := demo_builtins) "/ci/services" None None PNone fresh_world
      = Raise (TypeError text)
          (with_ws (with_sent [PDict [ (KStr "sID", PNone);
                                       (KStr "msgID", PNone);
                                       (KStr "resource", PStr "/ci/services");
                                       (KStr "version", PInt 1);
                                       (KStr "action", PStr "GET") ]]
                              quiet_socket)
                   fresh_world))
  /\ field "msgID"
       (PDict (request (dev fresh_world) "/ci/services" (PInt 1) "GET" PNone))
     = Some PNone
  /\ dev (world_of (get (B := demo_builtins) "/ci/services" None None PNone
                        fresh_world))
     = dev fresh_world.
Proof.
  exact (get_unset_counter (B := demo_builtins) fresh_world fresh_world
           fresh_world "/ci/services" None None PNone (PInt 1)
           eq_refl eq_refl eq_refl).
Defined.

(** A write to the door state, which is read-only, goes out unchecked
    when the action is NOTIFY. *)
Lemma get_unchecked_payload_witness :
  exists v w1,
    resolve_version "/ro/values" (version_arg None) session_world = Ret v w1
    /\ get (B := demo_builtins) "/ro/values" None (Some "NOTIFY")
           (PDict [(KStr "uid", PInt 527); (KStr "value", PInt 1)])
           session_world
       = Ret tt (with_dev (set_tx_msg_id (PInt (25 + 1)) (dev session_world))
                   (after_try_send
                      (PDict (request (dev session_world) "/ro/values" v
                                (action_arg (Some "NOTIFY"))
                                (PDict [ (KStr "uid", PInt 527);
                                         (KStr "value", PInt 1) ])))
                      w1))
    /\ field "data"
         (PDict (request (dev session_world) "/ro/values" v
                   (action_arg (Some "NOTIFY"))
                   (PDict [(KStr "uid", PInt 527); (KStr "value", PInt 1)])))
       = Some (as_list (PDict [ (KStr "uid", PInt 527);
                                (KStr "value", PInt 1) ])).
Proof.
  apply (get_unchecked_payload (B := demo_builtins) session_world "/ro/values"
           None (Some "NOTIFY")
           (PDict [(KStr "uid", PInt 527); (KStr "value", PInt 1)]) 25%Z).
  - discriminate.
  - reflexivity.
  - left. discriminate.
Defined.

(** Two requests in the middle of the session carry the ids 25 and 26 and
    leave the counter at 27. *)
Lemma gets_consecutive_ids_witness :
  exists w' new,
    gets (B := demo_builtins)
         [("/ci/info", None, None); ("/ni/info", None, None)] session_world
    = Ret tt w'
    /\ sent (ws w') = sent (ws session_world) ++ new
    /\ map (field "msgID") new = ids_from 25 2
    /\ map (field "resource") new
       = map (fun c : string * option pyval * option string =>
                Some (PStr (fst (fst c))))
             [("/ci/info", None, None); ("/ni/info", None, None)]
    /\ Forall (fun msg => field "sID" msg
                          = Some (session_id (dev session_world))) new
    /\ tx_msg_id (dev w') = PInt (25 + Z.of_nat 2).
Proof.
  exact (gets_consecutive_ids (B := demo_builtins)
           [("/ci/info", None, None); ("/ni/info", None, None)]
           session_world 25%Z eq_refl eq_refl).
Defined.

(** A check that fails leaves the counter of the session where it was. *)
Lemma get_touches_counter_only_witness :
  requested session_world
    (world_of (get (B := demo_builtins) "/ro/values" None (Some "POST")
                   (PDict [(KStr "uid", PInt 527); (KStr "value", PInt 1)])
                   session_world)).
Proof.
  exact (proj1 (get_touches_counter_only (B := demo_builtins) "/ro/values"
                  None (Some "POST")
                  (PDict [(KStr "uid", PInt 527); (KStr "value", PInt 1)])
                  session_world)).
Defined.

(** The power state is no program: the activation is refused, and
    nothing is printed. *)
Lemma get_checks_program_witness :
  exists v w1,
    resolve_version "/ro/activeProgram" (version_arg None) session_world
    = Ret v w1
    /\ get (B := demo_builtins) "/ro/activeProgram" None (Some "POST")
           (PDict [(KStr "program", PInt 539)]) session_world
       = match test_program_data (B := demo_builtins) demo_features
                 (as_list (PDict [(KStr "program", PInt 539)])) with
         | inl e => Raise e w1
         | inr _ =>
             Ret tt
               (with_dev (set_tx_msg_id (PInt (25 + 1)) (dev session_world))
                  (after_try_send
                     (PDict (request (dev session_world) "/ro/activeProgram"
                               v "POST" (PDict [(KStr "program", PInt 539)])))
                     w1))
         end.
Proof.
  apply (get_checks_program (B := demo_builtins) session_world None
           (PDict [(KStr "program", PInt 539)]) 25%Z).
  - discriminate.
  - reflexivity.
Defined.

(** On the socket whose [send] raises, an answer to the error message of
    the device is lost with the exception of the socket. *)
Lemma reply_raises_witness :
  reply msg_error (PDict []) broken_world
  = Raise (OSError "Broken pipe") (after_send None broken_world)
  /\ sent (ws (after_send None broken_world)) = sent (ws broken_world)
  /\ dev (after_send None broken_world) = dev broken_world.
Proof.
  exact (proj2 (proj2 (proj2 (proj2
           (reply_raises broken_world (items msg_error)
              (PDict [])))))
           (PInt 77) (PInt 21) (PStr "/ro/values") (PInt 1)
           (OSError "Broken pipe") [] eq_refl eq_refl eq_refl eq_refl
           eq_refl).
Defined.

(** ** What no method changes *)

#[local] Instance configured_pre : PreOrder configured.
Proof.
  split.
  - intros w. repeat split. auto.
  - intros a b c (H1 & H2 & H3 & H4 & H5 & H6) (K1 & K2 & K3 & K4 & K5 & K6).
    repeat split; try congruence. auto.
Qed.

Ltac leaf_configured := repeat split; cbn; auto.
Ltac leaf_accepting :=
  unfold accepting; cbn; try (intros ->; reflexivity); auto.

Lemma requested_configured (w w' : World) :
  requested w w' -> configured w w'.
Proof.
  intros (Hd & _). unfold configured.
  pose proof (f_equal features Hd) as H1.
  pose proof (f_equal name Hd) as H2.
  pose proof (f_equal device_name Hd) as H3.
  pose proof (f_equal device_id Hd) as H4.
  pose proof (f_equal debug Hd) as H5.
  pose proof (f_equal services_initialized Hd) as H6.
  cbn in H1, H2, H3, H4, H5, H6.
  repeat split; try assumption. congruence.
Qed.

Section Unchanged.
Context {B : Builtins}.

Lemma reply_configured (msg answer : pyval) :
  holds false configured (reply msg answer).
Proof. unfold reply. frame leaf_configured. Qed.

Lemma register_service_configured (service : pyval) :
  holds false configured (register_service service).
Proof. unfold register_service. frame leaf_configured. Qed.

Lemma handle_message_configured (buf : string) :
  holds false configured (handle_message buf).
Proof.
  unfold handle_message.
  repeat first
    [ apply reply_configured
    | apply holds_for_each;
      [exact _ | intros ?; apply register_service_configured]
    | frame_step leaf_configured ].
Qed.

Lemma recv_configured : holds true configured recv.
Proof.
  intros w. rewrite recv_unfold.
  destruct (rx (ws w)) as [| [buf | | e] rest] eqn:Hrx.
  - reflexivity.
  - pose proof (handle_message_configured buf (pop_rx w)) as Hh.
    destruct (handle_message buf (pop_rx w)) as [v w1 | e w1 | w1];
      try contradiction; exact Hh.
  - leaf_configured.
  - leaf_configured.
Qed.

Lemma get_configured (resource : string) (version : option pyval)
  (action : option string) (data : pyval) :
  holds true configured (get resource version action data).
Proof.
  apply holds_weaken.
  apply (holds_mono false requested configured _ requested_configured).
  apply get_requested.
Qed.

Lemma services_loop_configured (fuel : nat) :
  holds true configured (services_loop fuel).
Proof.
  induction fuel as [| fuel IH]; cbn [services_loop].
  - apply holds_bind; [exact _ | apply recv_configured |]. intros _.
    apply holds_bind; [exact _ | apply holds_self; exact _ |]. intros d.
    destruct (services_initialized d); [apply holds_ret; exact _ |].
    intros w. reflexivity.
  - apply holds_bind; [exact _ | apply recv_configured |]. intros _.
    apply holds_bind; [exact _ | apply holds_self; exact _ |]. intros d.
    destruct (services_initialized d); [apply holds_ret; exact _ | exact IH].
Qed.

Lemma ws_reconnect_configured : holds true configured ws_reconnect.
Proof.
  intros w. unfold ws_reconnect.
  destruct (conns (ws w)) as [| [frames | e] rest]; leaf_configured.
Qed.

Lemma random_token_configured : holds true configured random_token.
Proof. intros w. unfold random_token. leaf_configured. Qed.

Lemma reconnect_configured : holds true configured reconnect.
Proof.
  unfold reconnect.
  repeat first
    [ apply ws_reconnect_configured
    | apply recv_configured
    | apply get_configured
    | apply random_token_configured
    | apply holds_self; exact _
    | apply holds_update; intros ?; leaf_configured
    | apply holds_bind; [exact _ | | intros ?] ].
  intros w. apply services_loop_configured.
Qed.

(** X18: no method changes the configuration of the device object.  The
    catalog, the name, the client name and id and the debug switch are the
    same after [handle_message], [recv], [get] and [reconnect] as before
    them, however the call ends; and none of them sets
    [services_initialized] back: services once discovered stay so, also
    across a reconnect. *)
Theorem configuration_is_kept (w : World) :
  (forall buf, configured w (world_of (handle_message buf w)))
  /\ configured w (world_of (recv w))
  /\ (forall resource version action data,
        configured w (world_of (get resource version action data w)))
  /\ configured w (world_of (reconnect w)).
Proof.
  repeat match goal with |- _ /\ _ => split end.
  - intros buf.
    apply (holds_world false configured _ (handle_message_configured buf)).
  - apply (holds_world true configured _ recv_configured).
  - intros resource version action data.
    apply (holds_world true configured _
             (get_configured resource version action data)).
  - apply (holds_world true configured _ reconnect_configured).
Qed.

End Unchanged.

(** The reused device object comes out of [reconnect] with its catalog
    and names, and with its services discovered. *)
Lemma configuration_is_kept_witness :
  configured reused_world
    (world_of (reconnect (B := demo_builtins) reused_world)).
Proof.
  exact (proj2 (proj2 (proj2 (configuration_is_kept (B := demo_builtins)
                                reused_world)))).
Defined.

(** ** Connecting *)

Lemma re_sub_eq_unpadded (s : string) :
  contains_sub "=" (re_sub_eq s) = false.
Proof.
  induction s as [| c s IH]; cbn [re_sub_eq]; [reflexivity |].
  destruct (Ascii.eqb c "=") eqn:Hc; [exact IH |].
  cbn [contains_sub prefix].
  destruct (ascii_dec "=" c) as [<- | _]; [discriminate | exact IH].
Qed.

Lemma request_fields (d : HCDevice) (resource : string) (version : pyval)
  (action : string) (data : pyval) :
  field "resource" (PDict (request d resource version action data))
  = Some (PStr resource)
  /\ field "action" (PDict (request d resource version action data))
     = Some (PStr action)
  /\ field "msgID" (PDict (request d resource version action data))
     = Some (tx_msg_id d)
  /\ field "data" (PDict (request d resource version action data))
     = match data with
       | PNone => None
       | _ => Some (as_list data)
       end.
Proof. unfold request, field. destruct data; repeat split; reflexivity. Qed.

Section Connecting.
Context {B : Builtins}.

Lemma reply_accepting (msg answer : pyval) :
  holds false accepting (reply msg answer).
Proof. unfold reply. frame leaf_accepting. Qed.

Lemma register_service_accepting (service : pyval) :
  holds false accepting (register_service service).
Proof. unfold register_service. frame leaf_accepting. Qed.

Lemma handle_message_accepting (buf : string) :
  holds false accepting (handle_message buf).
Proof.
  unfold handle_message.
  repeat first
    [ apply reply_accepting
    | apply holds_for_each;
      [exact _ | intros ?; apply register_service_accepting]
    | frame_step leaf_accepting ].
Qed.

Lemma recv_accepting : holds true accepting recv.
Proof.
  intros w. rewrite recv_unfold.
  destruct (rx (ws w)) as [| [buf | | e] rest] eqn:Hrx.
  - reflexivity.
  - pose proof (handle_message_accepting buf (pop_rx w)) as Hh.
    destruct (handle_message buf (pop_rx w)) as [v w1 | e w1 | w1];
      try contradiction; exact Hh.
  - leaf_accepting.
  - leaf_accepting.
Qed.

Lemma services_loop_accepting (fuel : nat) :
  holds true accepting (services_loop fuel).
Proof.
  induction fuel as [| fuel IH]; cbn [services_loop].
  - apply holds_bind; [exact _ | apply recv_accepting |]. intros _.
    apply holds_bind; [exact _ | apply holds_self; exact _ |]. intros d.
    destruct (services_initialized d); [apply holds_ret; exact _ |].
    intros w. reflexivity.
  - apply holds_bind; [exact _ | apply recv_accepting |]. intros _.
    apply holds_bind; [exact _ | apply holds_self; exact _ |]. intros d.
    destruct (services_initialized d); [apply holds_ret; exact _ | exact IH].
Qed.

(** X19: a device object whose message counter is unset, as after
    construction, needs the first message of the device.  When the
    connection comes up and its first event is the end of the stream or an
    error of the socket, [reconnect] sends the request for the services
    with the ids it has, and raises [TypeError] at the increment: the
    device object is unchanged, and the other events are left unread. *)
Theorem reconnect_without_first_message (w : World) (ev : rx_event)
  (frames : list rx_event) (rest : list conn_attempt) :
  conns (ws w) = ConnUp (ev :: frames) :: rest ->
  ev = RxClosed \/ (exists e, ev = RxError e) ->
  int_value (tx_msg_id (dev w)) = None ->
  services_initialized (dev w) = false ->
  tx_faults (ws w) = [] ->
  exists text w',
    reconnect w = Raise (TypeError text) w'
    /\ dev w' = dev w
    /\ sent (ws w')
       = sent (ws w)
           ++ [PDict (envelope (dev w) "/ci/services" (PInt 1) "GET")]
    /\ rx (ws w') = frames
    /\ conns (ws w') = rest.
Proof.
  intros Hconns Hev Hn Hflag Hquiet.
  set (w0 := with_ws {| rx := ev :: frames; sent := sent (ws w);
                        tx_faults := tx_faults (ws w); conns := rest |} w).
  assert (H0 : ws_reconnect w = Ret tt w0)
    by (unfold ws_reconnect; rewrite Hconns; reflexivity).
  assert (H1 : exists w1,
             recv w0 = Ret PNone w1
             /\ dev w1 = dev w
             /\ ws w1 = {| rx := frames; sent := sent (ws w);
                           tx_faults := tx_faults (ws w); conns := rest |}).
  { rewrite recv_unfold. cbn [w0 ws with_ws rx].
    destruct Hev as [-> | (e & ->)]; eexists; (split; [reflexivity |]);
      split; reflexivity. }
  destruct H1 as (w1 & H1 & D1 & S1).
  assert (Hv : resolve_version "/ci/services" (version_arg None) w1
               = Ret (PInt 1) w1)
    by (rewrite resolve_version_run, D1, Hflag; reflexivity).
  assert (Hn1 : int_value (tx_msg_id (dev w1)) = None)
    by (rewrite D1; exact Hn).
  destruct (get_raises_unset w1 w1 w1 "/ci/services" None None PNone (PInt 1)
              Hn1 Hv eq_refl) as (H2 & _).
  eexists. eexists. split.
  - unfold reconnect. unfold bind at 1. rewrite H0.
    unfold bind at 1. rewrite H1.
    unfold bind at 1. rewrite H2. reflexivity.
  - rewrite after_try_send_accepted by (rewrite S1; exact Hquiet).
    cbn [dev ws with_ws after_send sent rx conns]. rewrite S1, D1.
    repeat split.
Qed.

(** X20: a [reconnect] that returns, on a socket that accepts every
    message, has sent last the seven requests of its text in their order:
    the authentication, whose payload is the nonce, the token of the
    device object; the two info requests; the registered devices; the
    NOTIFY for [/ei/deviceReady]; the network info; and all mandatory
    values.  Their message ids are consecutive and the counter ends right
    after the last of them. *)
Theorem reconnect_requests (w w' : World) :
  reconnect w = Ret tt w' ->
  tx_faults (ws w) = [] ->
  exists earlier seven n,
    sent (ws w') = earlier ++ seven
    /\ map (field "resource") seven
       = map (fun c => Some (PStr (fst c))) closing_requests
    /\ map (field "action") seven
       = map (fun c => Some (PStr (snd c))) closing_requests
    /\ map (field "data") seven
       = [ Some (PList [PDict [(KStr "nonce", token (dev w'))]]);
           None; None; None; None; None; None ]
    /\ map id_of seven
       = map Some [n; n + 1; n + 2; n + 3; n + 4; n + 5; n + 6]%Z
    /\ tx_msg_id (dev w') = PInt (n + 7).
Proof.
  unfold reconnect. intros H Hq.
  apply bind_ret_inv in H as ([] & w0 & H0 & H).
  apply bind_ret_inv in H as (v1 & w1 & H1 & H).
  apply bind_ret_inv in H as ([] & w2 & H2 & H).
  apply bind_ret_inv in H as ([] & w3 & H3 & H).
  apply bind_ret_inv in H as (tok & w4 & H4 & H).
  apply bind_ret_inv in H as ([] & w5 & H5 & H).
  apply bind_ret_inv in H as ([] & w6 & H6 & H).
  apply bind_ret_inv in H as (d & w7 & H7 & H).
  apply bind_ret_inv in H as ([] & w8 & H8 & H).
  apply bind_ret_inv in H as ([] & w9 & H9 & H).
  apply bind_ret_inv in H as ([] & w10 & H10 & H).
  apply bind_ret_inv in H as ([] & w11 & H11 & H).
  apply bind_ret_inv in H as ([] & w12 & H12 & H).
  apply bind_ret_inv in H as ([] & w13 & H13 & H).
  assert (Hq0 : tx_faults (ws w0) = []).
  { unfold ws_reconnect in H0.
    destruct (conns (ws w)) as [| [frames | e] rest]; try discriminate.
    injection H0 as <-. exact Hq. }
  pose proof (ret_world _ _ _ _ _ _ recv_accepting H1 Hq0) as Hq1.
  destruct (get_ret_inv _ _ _ _ _ _ H2 Hq1) as (_ & _ & _ & _ & _ & Hq2 & _).
  pose proof (ret_world _ _ _ _ _ _
                (services_loop_accepting (length (rx (ws w2)))) H3 Hq2)
    as Hq3.
  injection H4 as <- <-. injection H5 as <-. injection H6 as <-.
  injection H7 as <- <-.
  match type of H8 with
  | get _ _ _ _ ?x = _ => set (w7 := x) in *
  end.
  assert (Hq7 : tx_faults (ws w7) = []) by exact Hq3.
  destruct (get_ret_inv _ _ _ _ _ _ H8 Hq7)
    as (n & v8 & Hn8 & Hd8 & Hs8 & Hq8 & _).
  destruct (get_ret_inv _ _ _ _ _ _ H9 Hq8)
    as (n9 & v9 & Hn9 & Hd9 & Hs9 & Hq9 & _).
  destruct (get_ret_inv _ _ _ _ _ _ H10 Hq9)
    as (n10 & v10 & Hn10 & Hd10 & Hs10 & Hq10 & _).
  destruct (get_ret_inv _ _ _ _ _ _ H11 Hq10)
    as (n11 & v11 & Hn11 & Hd11 & Hs11 & Hq11 & _).
  destruct (get_ret_inv _ _ _ _ _ _ H12 Hq11)
    as (n12 & v12 & Hn12 & Hd12 & Hs12 & Hq12 & _).
  destruct (get_ret_inv _ _ _ _ _ _ H13 Hq12)
    as (n13 & v13 & Hn13 & Hd13 & Hs13 & Hq13 & _).
  destruct (get_ret_inv _ _ _ _ _ _ H Hq13)
    as (n14 & v14 & Hn14 & Hd14 & Hs14 & _).
  assert (E9 : n9 = (n + 1)%Z)
    by (rewrite Hd8 in Hn9; cbn in Hn9; congruence).
  assert (E10 : n10 = (n9 + 1)%Z)
    by (rewrite Hd9 in Hn10; cbn in Hn10; congruence).
  assert (E11 : n11 = (n10 + 1)%Z)
    by (rewrite Hd10 in Hn11; cbn in Hn11; congruence).
  assert (E12 : n12 = (n11 + 1)%Z)
    by (rewrite Hd11 in Hn12; cbn in Hn12; congruence).
  assert (E13 : n13 = (n12 + 1)%Z)
    by (rewrite Hd12 in Hn13; cbn in Hn13; congruence).
  assert (E14 : n14 = (n13 + 1)%Z)
    by (rewrite Hd13 in Hn14; cbn in Hn14; congruence).
  assert (Htok : token (dev w') = token (dev w7)).
  { rewrite Hd14, Hd13, Hd12, Hd11, Hd10, Hd9, Hd8. reflexivity. }
  eexists (sent (ws w7)), _, n.
  split.
  { rewrite Hs14, Hs13, Hs12, Hs11, Hs10, Hs9, Hs8.
    rewrite <- !app_assoc. cbn [app]. reflexivity. }
  unfold id_of. cbn [map].
  repeat rewrite (proj1 (request_fields _ _ _ _ _)).
  repeat rewrite (proj1 (proj2 (request_fields _ _ _ _ _))).
  repeat rewrite (proj1 (proj2 (proj2 (request_fields _ _ _ _ _)))).
  repeat rewrite (proj2 (proj2 (proj2 (request_fields _ _ _ _ _)))).
  rewrite Hn8, Hn9, Hn10, Hn11, Hn12, Hn13, Hn14.
  repeat match goal with |- _ /\ _ => split end.
  - reflexivity.
  - reflexivity.
  - rewrite Htok. reflexivity.
  - repeat f_equal; lia.
  - rewrite Hd14. cbn. f_equal. lia.
Qed.

(** X21: the token [reconnect] leaves in the device object is the text it
    has drawn with every ["="] taken out: it holds no padding character. *)
Theorem reconnect_token_unpadded (w w' : World) :
  reconnect w = Ret tt w' ->
  exists t,
    token (dev w') = PStr t
    /\ t = re_sub_eq (entropy w (draws w))
    /\ contains_sub "=" t = false.
Proof.
  intros H. exists (re_sub_eq (entropy w (draws w))).
  split; [exact (reconnect_token w w' H) |].
  split; [reflexivity | apply re_sub_eq_unpadded].
Qed.

End Connecting.

(** The connection of a new device object comes up and ends at once. *)
Lemma reconnect_without_first_message_witness :
  exists text w',
    reconnect (B := demo_builtins) silent_world = Raise (TypeError text) w'
    /\ dev w' = dev silent_world
    /\ sent (ws w')
       = sent (ws silent_world)
           ++ [PDict (envelope (dev silent_world) "/ci/services" (PInt 1)
                               "GET")]
    /\ rx (ws w') = []
    /\ conns (ws w') = [].
Proof.
  apply (reconnect_without_first_message (B := demo_builtins) silent_world
           RxClosed [] []).
  - reflexivity.
  - left. reflexivity.
  - reflexivity.
  - reflexivity.
  - reflexivity.
Defined.

(** The new device object of [new_world] goes through the handshake. *)
Lemma reconnect_requests_witness :
  exists earlier seven n,
    sent (ws (world_of (reconnect (B := demo_builtins) new_world)))
    = earlier ++ seven
    /\ map (field "resource") seven
       = map (fun c : string * string => Some (PStr (fst c))) closing_requests
    /\ map (field "action") seven
       = map (fun c : string * string => Some (PStr (snd c))) closing_requests
    /\ map (field "data") seven
       = [ Some (PList [PDict [(KStr "nonce",
                                token (dev (world_of
                                              (reconnect (B := demo_builtins)
                                                 new_world))))]]);
           None; None; None; None; None; None ]
    /\ map id_of seven
       = map Some [n; n + 1; n + 2; n + 3; n + 4; n + 5; n + 6]%Z
    /\ tx_msg_id (dev (world_of (reconnect (B := demo_builtins) new_world)))
       = PInt (n + 7).
Proof.
  apply (reconnect_requests (B := demo_builtins) new_world
           (world_of (reconnect (B := demo_builtins) new_world))).
  - vm_compute. reflexivity.
  - reflexivity.
Defined.

Lemma reconnect_token_unpadded_witness :
  exists t,
    token (dev (world_of (reconnect (B := demo_builtins) new_world))) = PStr t
    /\ t = re_sub_eq (entropy new_world (draws new_world))
    /\ contains_sub "=" t = false.
Proof.
  apply (reconnect_token_unpadded (B := demo_builtins) new_world
           (world_of (reconnect (B := demo_builtins) new_world))).
  vm_compute. reflexivity.
Defined.

(** ** The dictionary of normalised values *)

Lemma after_match_suffix (s r : string) :
  after_match s = Some r -> exists p, s = (p ++ r)%string.
Proof.
  revert r. induction s as [| c s IH]; cbn [after_match]; [discriminate |].
  intros r. destruct (Ascii.eqb c newline); [discriminate |].
  destruct (after_match s) as [r' |].
  - intros [= <-]. destruct (IH r' eq_refl) as (p & Hp).
    exists (String c p). cbn. rewrite <- Hp. reflexivity.
  - destruct (Ascii.eqb c dot); [| discriminate].
    intros [= <-]. exists (String c EmptyString). reflexivity.
Qed.

Lemma after_last_dot_none (s : string) :
  after_last_dot s = None -> dotless s = true.
Proof.
  induction s as [| c s IH]; cbn [after_last_dot dotless]; [reflexivity |].
  destruct (after_last_dot s); [discriminate |].
  destruct (Ascii.eqb c dot); [discriminate |].
  intros _. exact (IH eq_refl).
Qed.

Lemma after_last_dot_dotless (s r : string) :
  after_last_dot s = Some r -> dotless r = true.
Proof.
  revert r. induction s as [| c s IH]; cbn [after_last_dot]; [discriminate |].
  intros r. destruct (after_last_dot s) as [r' |] eqn:Hs.
  - intros [= <-]. exact (IH r' eq_refl).
  - destruct (Ascii.eqb c dot); [| discriminate].
    intros [= <-]. apply after_last_dot_none. exact Hs.
Qed.

Lemma last_segment_dotless (s : string) : dotless (last_segment s) = true.
Proof.
  unfold last_segment. destruct (after_last_dot s) as [r |] eqn:Hs.
  - exact (after_last_dot_dotless s r Hs).
  - exact (after_last_dot_none s Hs).
Qed.

(** X22: what [re.sub(r"^.*\.", "", name)] leaves is the end of the name,
    nothing is rewritten; for a name of one line it holds no dot, so that
    trimming it again changes nothing. *)
Theorem re_sub_trim_keeps_the_end (s : string) :
  (exists p, s = (p ++ re_sub_trim s)%string)
  /\ (single_line s = true -> dotless (re_sub_trim s) = true)
  /\ (single_line s = true -> re_sub_trim (re_sub_trim s) = re_sub_trim s).
Proof.
  split; [| split].
  - unfold re_sub_trim. destruct (after_match s) as [r |] eqn:Hs.
    + exact (after_match_suffix s r Hs).
    + exists EmptyString. reflexivity.
  - intros H. rewrite (re_sub_trim_single_line s H).
    apply last_segment_dotless.
  - intros H. apply re_sub_trim_dotless.
    rewrite (re_sub_trim_single_line s H). apply last_segment_dotless.
Qed.

Ltac split_head H :=
  repeat match type of H with
         | match ?x with _ => _ end = _ =>
             destruct x eqn:?; try discriminate
         end.

Section Normalised.
Context {B : Builtins}.

(** A record that is normalised sets one key, a string. *)
Lemma parse_value_sets (features : pyval) (result result' : dict)
  (msg : pyval) :
  parse_value features result msg = inr result' ->
  exists name v, result' = dict_set (KStr name) v result.
Proof.
  unfold parse_value, ebind. intros H. split_head H.
  injection H as <-. eexists; eexists; reflexivity.
Qed.

(** What a record is normalised to does not depend on the records
    before it. *)
Lemma parse_value_alone (features : pyval) (result : dict) (msg : pyval) :
  parse_value features result msg
  = match parse_value features [] msg with
    | inr [(k, v)] => inr (dict_set k v result)
    | inr other => inr other
    | inl e => inl e
    end.
Proof.
  unfold parse_value, ebind.
  repeat match goal with
         | |- context [match ?x with inl _ => _ | inr _ => _ end] =>
             destruct x; try reflexivity
         end.
Qed.

Lemma parse_values_loop_app (features : pyval) (l1 l2 : list pyval) :
  forall acc,
    parse_values_loop features (l1 ++ l2) acc
    = match parse_values_loop features l1 acc with
      | inr acc' => parse_values_loop features l2 acc'
      | inl e => inl e
      end.
Proof.
  induction l1 as [| msg l1 IH]; intros acc; cbn [app parse_values_loop];
    [reflexivity |].
  unfold ebind. destruct (parse_value features acc msg); [reflexivity |].
  apply IH.
Qed.

Lemma parse_values_loop_keys (features : pyval) (msgs : list pyval) :
  forall acc result,
    parse_values_loop features msgs acc = inr result ->
    distinct_keys acc = true ->
    string_keys acc = true ->
    distinct_keys result = true
    /\ string_keys result = true
    /\ (length result <= length acc + length msgs)%nat.
Proof.
  induction msgs as [| msg msgs IH]; intros acc result H Hd Hs;
    cbn [parse_values_loop] in H.
  - injection H as <-. repeat split; try assumption. lia.
  - unfold ebind in H.
    destruct (parse_value features acc msg) as [e | acc'] eqn:Hmsg;
      [discriminate |].
    destruct (parse_value_sets _ _ _ _ Hmsg) as (name & v & ->).
    destruct (IH _ _ H (dict_set_distinct _ _ _ Hd)
                (dict_set_string_keys _ _ _ Hs)) as (Hd' & Hs' & Hlen).
    repeat split; try assumption.
    rewrite dict_set_length in Hlen. cbn [length].
    destruct (dict_mem (KStr name) acc); lia.
Qed.

(** X23: the dictionary [parse_values] returns for a catalog that is not
    empty has strings for keys, no key twice, and at most one item per
    record: records that come to the same name share one item. *)
Theorem parse_values_keys (features : pyval) (msgs : list pyval)
  (values : pyval) :
  truthy features = true ->
  parse_values features (PList msgs) = inr values ->
  exists result,
    values = PDict result
    /\ string_keys result = true
    /\ distinct_keys result = true
    /\ (length result <= length msgs)%nat.
Proof.
  unfold parse_values, ebind. intros -> H. cbn [negb iter] in H.
  destruct (parse_values_loop features msgs []) as [e | result] eqn:Hloop;
    [discriminate |].
  injection H as <-. exists result.
  destruct (parse_values_loop_keys features msgs [] result Hloop
              eq_refl eq_refl) as (Hd & Hs & Hlen).
  repeat split; assumption.
Qed.

(** X24: when two records come to the same name, the later one wins: the
    value [parse_values] reports under the name of its last record is the
    value of that record. *)
Theorem parse_values_last_wins (features : pyval) (msgs : list pyval)
  (msg : pyval) (k : pykey) (v : pyval) (result : dict) :
  truthy features = true ->
  parse_value features [] msg = inr [(k, v)] ->
  parse_values features (PList (msgs ++ [msg])) = inr (PDict result) ->
  dict_get k result = Some v.
Proof.
  unfold parse_values, ebind. intros -> Hmsg H. cbn [negb iter] in H.
  rewrite parse_values_loop_app in H.
  destruct (parse_values_loop features msgs []) as [e | acc]; [discriminate |].
  cbn [parse_values_loop] in H. unfold ebind in H.
  rewrite parse_value_alone, Hmsg in H. injection H as <-.
  rewrite dict_get_set.
  assert (Hk : key_eqb k k = true).
  { destruct k; cbn; auto using Z.eqb_refl, String.eqb_refl. }
  rewrite Hk. reflexivity.
Qed.

(** X25: a record without [uid], or with [uid] and without [value], makes
    [parse_values] raise [KeyError] for the missing key, and the whole call
    with it: the records normalised before are lost, there is no partial
    result. *)
Theorem parse_values_missing_key (features : pyval) (good rest : list pyval)
  (rec : dict) :
  truthy features = true ->
  (exists acc, parse_values_loop features good [] = inr acc) ->
  (dict_get (KStr "uid") rec = None ->
   parse_values features (PList (good ++ PDict rec :: rest))
   = inl (KeyError (KStr "uid")))
  /\ (forall u,
        dict_get (KStr "uid") rec = Some u ->
        dict_get (KStr "value") rec = None ->
        parse_values features (PList (good ++ PDict rec :: rest))
        = inl (KeyError (KStr "value"))).
Proof.
  intros Ht (acc & Hgood). unfold parse_values, ebind. rewrite Ht.
  cbn [negb iter]. rewrite parse_values_loop_app, Hgood.
  cbn [parse_values_loop]. unfold parse_value, ebind.
  rewrite !item_dict. split.
  - intros ->. reflexivity.
  - intros u -> ->. reflexivity.
Qed.

End Normalised.

(** Three records, two of them for the power state: two items. *)
Lemma parse_values_keys_witness :
  exists result,
    PDict [(KStr "PowerState", PStr "On"); (KStr "DoorState", PInt 2)]
    = PDict result
    /\ string_keys result = true
    /\ distinct_keys result = true
    /\ (length result
        <= length [ PDict [(KStr "uid", PInt 539); (KStr "value", PInt 0)];
                    PDict [(KStr "uid", PInt 527); (KStr "value", PInt 2)];
                    PDict [(KStr "uid", PInt 539); (KStr "value", PInt 1)] ])%nat.
Proof.
  exact (parse_values_keys (B := demo_builtins) demo_features
           [ PDict [(KStr "uid", PInt 539); (KStr "value", PInt 0)];
             PDict [(KStr "uid", PInt 527); (KStr "value", PInt 2)];
             PDict [(KStr "uid", PInt 539); (KStr "value", PInt 1)] ]
           _ eq_refl eq_refl).
Defined.

Lemma parse_values_last_wins_witness :
  dict_get (KStr "PowerState")
    [(KStr "PowerState", PStr "On"); (KStr "DoorState", PInt 2)]
  = Some (PStr "On").
Proof.
  exact (parse_values_last_wins (B := demo_builtins) demo_features
           [ PDict [(KStr "uid", PInt 539); (KStr "value", PInt 0)];
             PDict [(KStr "uid", PInt 527); (KStr "value", PInt 2)] ]
           (PDict [(KStr "uid", PInt 539); (KStr "value", PInt 1)])
           (KStr "PowerState") (PStr "On")
           [(KStr "PowerState", PStr "On"); (KStr "DoorState", PInt 2)]
           eq_refl eq_refl eq_refl).
Defined.

(** The second record has no uid: the power state of the first is lost
    with it. *)
Lemma parse_values_missing_key_witness :
  parse_values (B := demo_builtins) demo_features
    (PList ([PDict [(KStr "uid", PInt 539); (KStr "value", PInt 1)]]
              ++ PDict [(KStr "value", PInt 2)] :: []))
  = inl (KeyError (KStr "uid")).
Proof.
  apply (proj1 (parse_values_missing_key (B := demo_builtins) demo_features
                  [PDict [(KStr "uid", PInt 539); (KStr "value", PInt 1)]]
                  [] [(KStr "value", PInt 2)] eq_refl
                  (ex_intro _ [(KStr "PowerState", PStr "On")] eq_refl))).
  reflexivity.
Defined.

(** What is left of the name of the power state holds no dot. *)
Lemma re_sub_trim_keeps_the_end_witness :
  dotless (re_sub_trim "BSH.Common.Setting.PowerState") = true.
Proof.
  exact (proj1 (proj2 (re_sub_trim_keeps_the_end
                         "BSH.Common.Setting.PowerState")) eq_refl).
Defined.

(** ** Batches *)

Section Batches.
Context {B : Builtins}.

Lemma test_program_loop_app (features : pyval) (l1 l2 : list pyval) :
  test_program_loop features (l1 ++ l2)
  = match test_program_loop features l1 with
    | inr _ => test_program_loop features l2
    | inl e => inl e
    end.
Proof.
  induction l1 as [| data l1 IH]; cbn [app test_program_loop];
    [reflexivity |].
  unfold ebind. destruct (test_program features data); [reflexivity |].
  exact IH.
Qed.

(** X26: a batch is checked record by record, in the order of the list,
    and the check stops at the first record that fails: the batch
    [l1 ++ l2] raises what [l1] raises, in the state [l1] has reached, and
    when [l1] passes it goes on with [l2].  So it is for the value writes
    and for the program activations; the empty batch passes. *)
Theorem batches_are_checked_in_order (l1 l2 : list pyval) :
  (forall w e w1,
      test_feature (PList l1) w = Raise e w1 ->
      test_feature (PList (l1 ++ l2)) w = Raise e w1)
  /\ (forall w w1,
        test_feature (PList l1) w = Ret tt w1 ->
        test_feature (PList (l1 ++ l2)) w = test_feature (PList l2) w1)
  /\ (forall features e,
        test_program_data features (PList l1) = inl e ->
        test_program_data features (PList (l1 ++ l2)) = inl e)
  /\ (forall features,
        test_program_data features (PList l1) = inr tt ->
        test_program_data features (PList (l1 ++ l2))
        = test_program_data features (PList l2))
  /\ (forall w, test_feature (PList []) w = Ret tt w)
  /\ (forall features, test_program_data features (PList []) = inr tt).
Proof.
  assert (Hrun : forall l w,
             test_feature (PList l) w = for_each l test_feature_record w).
  { intros l w. unfold test_feature.
    rewrite (bind_lift_inr _ l) by reflexivity. reflexivity. }
  repeat match goal with |- _ /\ _ => split end.
  - intros w e w1. rewrite !Hrun, for_each_app. unfold bind.
    intros ->. reflexivity.
  - intros w w1. rewrite !Hrun, for_each_app. unfold bind.
    intros ->. reflexivity.
  - intros features e. unfold test_program_data, ebind. cbn [iter].
    rewrite test_program_loop_app. intros ->. reflexivity.
  - intros features. unfold test_program_data, ebind. cbn [iter].
    rewrite test_program_loop_app. intros ->. reflexivity.
  - intros w. reflexivity.
  - intros features. reflexivity.
Qed.

(** X27: the checks of a value write come in the order of the text, and
    the first one that fails gives the reason: a record without [uid] is
    refused for the uid, whatever else it lacks; then a [uid] that is no
    integer; then a missing [value].  Up to there nothing is printed and
    the catalog is not consulted.  A record that is a number and no
    dictionary raises [TypeError], not [Exception]. *)
Theorem test_feature_first_checks (w : World) :
  (forall rec,
      dict_get (KStr "uid") rec = None ->
      test_feature_record (PDict rec) w
      = Raise (PyException "Unable to configure appliance. UID is required.")
              w)
  /\ (forall rec u,
        dict_get (KStr "uid") rec = Some u ->
        isinstance_int u = false ->
        test_feature_record (PDict rec) w
        = Raise (PyException
                   "Unable to configure appliance. UID must be an integer.")
                w)
  /\ (forall rec u,
        dict_get (KStr "uid") rec = Some u ->
        isinstance_int u = true ->
        dict_get (KStr "value") rec = None ->
        test_feature_record (PDict rec) w
        = Raise (PyException
                   "Unable to configure appliance. Value is required.")
                w)
  /\ (forall z,
        exists text,
          test_feature_record (PInt z) w = Raise (TypeError text) w).
Proof.
  repeat match goal with |- _ /\ _ => split end.
  - intros rec Hu. unfold test_feature_record.
    rewrite str_in_dict, (dict_mem_none _ _ Hu). lift_step. reflexivity.
  - intros rec u Hu Hint. unfold test_feature_record.
    rewrite str_in_dict, (dict_mem_get _ _ _ Hu). lift_step.
    rewrite item_dict, Hu. lift_step. rewrite Hint. reflexivity.
  - intros rec u Hu Hint Hv. unfold test_feature_record.
    rewrite str_in_dict, (dict_mem_get _ _ _ Hu). lift_step.
    rewrite item_dict, Hu. lift_step. rewrite Hint. cbn [negb].
    rewrite str_in_dict, (dict_mem_none _ _ Hv). lift_step. reflexivity.
  - intros z. eexists. reflexivity.
Qed.

End Batches.

(** The write to the door state is refused, and the record after it is
    not looked at. *)
Lemma batches_are_checked_in_order_witness :
  test_feature (B := demo_builtins)
    (PList ([PDict [(KStr "uid", PInt 527); (KStr "value", PInt 1)]]
              ++ [PDict [(KStr "uid", PInt 539); (KStr "value", PInt 1)]]))
    session_world
  = Raise
      (PyException
         ("Unable to configure appliance. Feature BSH.Common.Status.DoorState"
            ++ " with uid 527 has got access read."))
      (log_line (LogProcessingFeature "BSH.Common.Status.DoorState" "527")
                session_world).
Proof.
  exact (proj1 (batches_are_checked_in_order (B := demo_builtins)
                  [PDict [(KStr "uid", PInt 527); (KStr "value", PInt 1)]]
                  [PDict [(KStr "uid", PInt 539); (KStr "value", PInt 1)]])
           session_world _ _ eq_refl).
Defined.

(** A record with neither uid nor value is refused for the uid. *)
Lemma test_feature_first_checks_witness :
  test_feature_record (B := demo_builtins) (PDict []) session_world
  = Raise (PyException "Unable to configure appliance. UID is required.")
          session_world.
Proof.
  exact (proj1 (test_feature_first_checks (B := demo_builtins) session_world)
           [] eq_refl).
Defined.

(** ** The service of a path *)

Lemma append_assoc_str (a b c : string) :
  ((a ++ b) ++ c = a ++ (b ++ c))%string.
Proof.
  induction a as [| x a IH]; cbn; [reflexivity | rewrite IH; reflexivity].
Qed.

Lemma split_from_slashless (s : string) :
  forall cur, slashless s = true -> split_from "/" cur s = [(cur ++ s)%string].
Proof.
  induction s as [| c s IH]; intros cur H; cbn [split_from slashless] in *.
  - f_equal. induction cur as [| x cur IHc]; cbn;
      [reflexivity | rewrite <- IHc; reflexivity].
  - apply andb_prop in H as [Hc Hs]. apply negb_true_iff in Hc.
    rewrite Hc, (IH _ Hs), append_assoc_str. reflexivity.
Qed.

Lemma split_from_slash (s1 s2 : string) :
  forall cur,
    slashless s1 = true ->
    split_from "/" cur (s1 ++ String "/" s2)%string
    = (cur ++ s1)%string :: split_from "/" EmptyString s2.
Proof.
  induction s1 as [| c s1 IH]; intros cur H;
    cbn [append split_from slashless] in *.
  - cbn. f_equal. induction cur as [| x cur IHc]; cbn;
      [reflexivity | rewrite <- IHc; reflexivity].
  - apply andb_prop in H as [Hc Hs]. apply negb_true_iff in Hc.
    rewrite Hc, (IH _ Hs), append_assoc_str. reflexivity.
Qed.

Lemma segment_second_part (a b tail : string) :
  slashless a = true ->
  slashless b = true ->
  tail = EmptyString \/ (exists t, tail = String "/" t) ->
  segment (a ++ String "/" (b ++ tail))%string = Some b.
Proof.
  intros Ha Hb Htail. unfold segment, split.
  rewrite (split_from_slash a _ _ Ha).
  destruct Htail as [-> | (t & ->)].
  - assert (Hnil : (b ++ EmptyString)%string = b).
    { clear. induction b as [| x b IH]; cbn;
        [reflexivity | rewrite IH; reflexivity]. }
    rewrite Hnil, (split_from_slashless b _ Hb). reflexivity.
  - rewrite (split_from_slash b t _ Hb). reflexivity.
Qed.

Lemma segment_slashless (s : string) :
  slashless s = true -> segment s = None.
Proof.
  intros H. unfold segment, split.
  rewrite (split_from_slashless s _ H). reflexivity.
Qed.


(** X28: once the services are discovered, the service [get] looks up for
    a path is the text between the first and the second ["/"] of the path,
    or after the first when there is no second: for [/ci/info] it is [ci],
    and for a path written without the leading ["/"], as [ci/info], it is
    [info].  A path without ["/"] is sent with the version of the call,
    and nothing is printed. *)
Theorem resolve_version_service (w : World) (a b tail : string)
  (version : pyval) :
  services_initialized (dev w) = true ->
  slashless a = true ->
  slashless b = true ->
  tail = EmptyString \/ (exists t, tail = String "/" t) ->
  resolve_version (a ++ String "/" (b ++ tail))%string version w
  = match dict_get (KStr b) (services (dev w)) with
    | Some entry => Ret (entry_version entry) w
    | None => Ret version (log_line LogServiceNotKnown w)
    end
  /\ resolve_version a version w = Ret version w.
Proof.
  intros Hflag Ha Hb Htail. split.
  - rewrite resolve_version_run, Hflag,
      (segment_second_part a b tail Ha Hb Htail).
    reflexivity.
  - rewrite resolve_version_run, Hflag, (segment_slashless a Ha). reflexivity.
Qed.

(** In the session, [/ci/info] is sent with the version of [ci]; written
    [ci/info], the path names the service [info], which is not known. *)
Lemma resolve_version_service_witness :
  resolve_version "/ci/info" (PInt 1) session_world
  = Ret (PInt 3) session_world
  /\ resolve_version "ci/info" (PInt 1) session_world
     = Ret (PInt 1) (log_line LogServiceNotKnown session_world).
Proof.
  split.
  - exact (proj1 (resolve_version_service session_world
                    EmptyString "ci" "/info" (PInt 1) eq_refl eq_refl eq_refl
                    (or_intror (ex_intro _ "info" eq_refl)))).
  - exact (proj1 (resolve_version_service session_world
                    "ci" "info" EmptyString (PInt 1) eq_refl eq_refl eq_refl
                    (or_introl eq_refl))).
Defined.
